(** * Orpheus utilities: a shallow embedding of [utils/utils.py] and
    [check_md5_tags.py], and the properties their specification states.

    Python values are modelled as follows.
    - a [str] is the list of its Unicode code points ([list Z]); [len] is
      the length of that list;
    - a [bytes] object is the list of its bytes ([list Z], each in 0..255);
    - an [int] is a [Z];
    - exceptions are values of [exn], carrying their class, and a call that
      may raise returns a [result];
    - the file system is a finite map from paths to file contents, threaded
      through every function that touches the disk, next to the text
      printed and the list of calls made to external collaborators
      (mutagen, ffmpeg, requests, PIL);
    - what an external collaborator answers is not computed: every function
      takes an environment record giving the outcome of each external call
      it makes, so a theorem quantified over environments covers every
      behaviour of the collaborators, failures included;
    - [print] can raise: the downloader and the tag script take the
      refusals of the console in their environment. *)

From Stdlib Require Import ZArith List Ascii String Lia Bool.
From stdpp Require Import base option list gmap strings.
Import ListNotations.
Local Open Scope Z_scope.

Abbreviation str := (list Z).
Abbreviation bytes := (list Z).

(** ** Python basics *)
Module Py.

(** A literal of the source, as a [str]. *)
Fixpoint lit (s : string) : str :=
  match s with
  | EmptyString => []
  | String c s' => Z.of_N (N_of_ascii c) :: lit s'
  end.

(** The exception classes the two source files meet, and the part of the
    class hierarchy of Python they sit in. *)
Inductive exn_class :=
| KeyboardInterrupt
| Exception
| OSError
| PermissionError
| FileNotFoundError
| ValueError
| UnicodeDecodeError
| UnicodeEncodeError
| KeyError
| IndexError
| TypeError
| AttributeError
| CalledProcessError
| MutagenError.

Record exn := Exn { exn_class_of : exn_class; exn_errno : Z; exn_str : str }.

(** [except OSError] (and its alias [IOError]). *)
Definition is_OSError (e : exn) : bool :=
  match exn_class_of e with
  | OSError | PermissionError | FileNotFoundError => true
  | _ => false
  end.

(** [except PermissionError]. *)
Definition is_PermissionError (e : exn) : bool :=
  match exn_class_of e with
  | PermissionError => true
  | _ => false
  end.

(** [except KeyboardInterrupt]. *)
Definition is_KeyboardInterrupt (e : exn) : bool :=
  match exn_class_of e with
  | KeyboardInterrupt => true
  | _ => false
  end.

(** [except Exception]: everything but [KeyboardInterrupt], which derives
    from [BaseException] directly. *)
Definition is_Exception (e : exn) : bool := negb (is_KeyboardInterrupt e).

Definition ENOENT : Z := 2.
Definition EIO : Z := 5.
Definition EACCES : Z := 13.

(** [raise Exception(msg)]. *)
Definition mkException (msg : str) : exn := Exn Exception 0 msg.

Inductive result (A : Type) :=
| Ok (a : A)
| Raise (e : exn).
Arguments Ok {A} a.
Arguments Raise {A} e.

#[global] Instance result_ret : MRet result := fun A a => Ok a.
#[global] Instance result_bind : MBind result := fun A B f r =>
  match r with
  | Ok a => f a
  | Raise e => Raise e
  end.

Definition raised {A} (r : result A) : bool :=
  match r with
  | Ok _ => false
  | Raise _ => true
  end.

(** *** Formatting integers: [f"{n:032x}"] *)

Definition hex_digit (d : Z) : Z := if d <? 10 then 48 + d else 87 + d.

(** The hexadecimal digits of a positive number, most significant first,
    without leading zeros. *)
Fixpoint hex_digits (fuel : nat) (z : Z) : str :=
  match fuel with
  | O => []
  | S fuel' =>
      if z <=? 0 then [] else hex_digits fuel' (z / 16) ++ [hex_digit (z mod 16)]
  end.

(** [format(z, "x")] for [z >= 0]. *)
Definition hex (z : Z) : str :=
  if z <=? 0 then [48] else hex_digits (S (Z.to_nat (Z.log2 z))) z.

Definition zfill (width : nat) (s : str) : str :=
  repeat 48 (width - length s)%nat ++ s.

(** [f"{z:032x}"]: sign-aware zero padding to 32 columns; a longer number
    is not cut. *)
Definition format_032x (z : Z) : str :=
  if z <? 0 then 45 :: zfill 31 (hex (- z)) else zfill 32 (hex z).

(** *** [bytes.fromhex] and [int.from_bytes(_, byteorder='big')] *)

Definition hex_value (c : Z) : option Z :=
  if (48 <=? c) && (c <=? 57) then Some (c - 48)
  else if (97 <=? c) && (c <=? 102) then Some (c - 87)
  else if (65 <=? c) && (c <=? 70) then Some (c - 55)
  else None.

(** ASCII white space, skipped between two bytes. *)
Definition is_space (c : Z) : bool :=
  (c =? 32) || ((9 <=? c) && (c <=? 13)).

Definition fromhex_error : exn :=
  Exn ValueError 0 (lit "non-hexadecimal number found in fromhex() arg").

Fixpoint fromhex (s : str) : result bytes :=
  match s with
  | [] => Ok []
  | c :: s1 =>
      if is_space c then fromhex s1
      else
        match s1 with
        | [] => Raise fromhex_error
        | d :: s2 =>
            match hex_value c, hex_value d with
            | Some hi, Some lo =>
                match fromhex s2 with
                | Ok bs => Ok (16 * hi + lo :: bs)
                | Raise e => Raise e
                end
            | _, _ => Raise fromhex_error
            end
        end
  end.

Definition int_from_bytes_big (bs : bytes) : Z :=
  fold_left (fun acc b => 256 * acc + b) bs 0.

(** [int(s, 16)] for a string of hexadecimal digits. *)
Definition digit_of (c : Z) : Z :=
  match hex_value c with
  | Some d => d
  | None => 0
  end.

Definition hex_number (s : str) : Z := fold_left (fun acc c => 16 * acc + digit_of c) s 0.

(** A hexadecimal digit, as [bytes.fromhex] reads one. *)
Definition hex_char (c : Z) : Prop := is_space c = false /\ exists d, hex_value c = Some d.

(** [sub in s] for two strings. *)
Fixpoint is_prefix (sub s : str) : bool :=
  match sub, s with
  | [], _ => true
  | _ :: _, [] => false
  | a :: sub', b :: s' => (a =? b) && is_prefix sub' s'
  end.

Fixpoint is_substring (sub s : str) : bool :=
  is_prefix sub s ||
  match s with
  | [] => false
  | _ :: s' => is_substring sub s'
  end.

(** [s.upper()] on the letters of ASCII; other characters are kept. *)
Definition upper (s : str) : str :=
  map (fun c => if (97 <=? c) && (c <=? 122) then c - 32 else c) s.

End Py.
Export Py.

(** ** [hashlib.md5]

    The source computes no MD5 itself: it feeds chunks to a [hashlib.md5]
    object and asks for [hexdigest()].  The object is modelled by the message
    it has been fed so far, and its digest by the MD5 algorithm of RFC 1321
    on 32-bit words carried by [Z]. *)
Module Hashlib.

Definition w32 (z : Z) : Z := z mod 2 ^ 32.
Definition add32 (a b : Z) : Z := w32 (a + b).
Definition not32 (a : Z) : Z := Z.lxor a (2 ^ 32 - 1).
Definition rotl32 (x c : Z) : Z :=
  Z.lor (w32 (Z.shiftl x c)) (Z.shiftr x (32 - c)).

Definition shifts : list Z :=
  [7; 12; 17; 22; 7; 12; 17; 22; 7; 12; 17; 22; 7; 12; 17; 22;
   5; 9; 14; 20; 5; 9; 14; 20; 5; 9; 14; 20; 5; 9; 14; 20;
   4; 11; 16; 23; 4; 11; 16; 23; 4; 11; 16; 23; 4; 11; 16; 23;
   6; 10; 15; 21; 6; 10; 15; 21; 6; 10; 15; 21; 6; 10; 15; 21].

(** [floor (2^32 * abs (sin (i + 1)))] for [i] from 0 to 63. *)
Definition sines : list Z :=
  [3614090360; 3905402710; 606105819; 3250441966; 4118548399; 1200080426;
   2821735955; 4249261313; 1770035416; 2336552879; 4294925233; 2304563134;
   1804603682; 4254626195; 2792965006; 1236535329; 4129170786; 3225465664;
   643717713; 3921069994; 3593408605; 38016083; 3634488961; 3889429448;
   568446438; 3275163606; 4107603335; 1163531501; 2850285829; 4243563512;
   1735328473; 2368359562; 4294588738; 2272392833; 1839030562; 4259657740;
   2763975236; 1272893353; 4139469664; 3200236656; 681279174; 3936430074;
   3572445317; 76029189; 3654602809; 3873151461; 530742520; 3299628645;
   4096336452; 1126891415; 2878612391; 4237533241; 1700485571; 2399980690;
   4293915773; 2240044497; 1873313359; 4264355552; 2734768916; 1309151649;
   4149444226; 3174756917; 718787259; 3951481745].

Record state := State { sa : Z; sb : Z; sc : Z; sd : Z }.

Definition init : state :=
  State 1732584193 4023233417 2562383102 271733878.

(** One of the 64 operations of a block: the round function and the index of
    the message word depend on the round. *)
Definition step (m : list Z) (s : state) (i : nat) : state :=
  let '(State a b c d) := s in
  let iz := Z.of_nat i in
  let '(f, g) :=
    if iz <? 16 then (Z.lor (Z.land b c) (Z.land (not32 b) d), iz)
    else if iz <? 32 then (Z.lor (Z.land d b) (Z.land (not32 d) c), (5 * iz + 1) mod 16)
    else if iz <? 48 then (Z.lxor (Z.lxor b c) d, (3 * iz + 5) mod 16)
    else (Z.lxor c (Z.lor b (not32 d)), (7 * iz) mod 16) in
  let x := add32 (add32 (add32 a f) (nth i sines 0)) (nth (Z.to_nat g) m 0) in
  State d (add32 b (rotl32 x (nth i shifts 0))) b c.

(** A little-endian 32-bit word from four bytes, and back. *)
Definition word_le (b0 b1 b2 b3 : Z) : Z :=
  b0 + 256 * b1 + 65536 * b2 + 16777216 * b3.

Definition bytes_le (w : Z) : bytes :=
  [w mod 256; (w / 256) mod 256; (w / 65536) mod 256; (w / 16777216) mod 256].

Fixpoint words (fuel : nat) (bs : bytes) : list Z :=
  match fuel, bs with
  | S fuel', b0 :: b1 :: b2 :: b3 :: rest => word_le b0 b1 b2 b3 :: words fuel' rest
  | _, _ => []
  end.

Definition block (s : state) (bs : bytes) : state :=
  let m := words 16 bs in
  let '(State a b c d) := fold_left (step m) (seq 0 64) s in
  State (add32 (sa s) a) (add32 (sb s) b) (add32 (sc s) c) (add32 (sd s) d).

Fixpoint blocks (fuel : nat) (s : state) (bs : bytes) : state :=
  match fuel with
  | O => s
  | S fuel' =>
      match bs with
      | [] => s
      | _ => blocks fuel' (block s (firstn 64 bs)) (skipn 64 bs)
      end
  end.

(** The message, a [0x80] byte, zeros up to 56 modulo 64, and the length in
    bits as eight little-endian bytes. *)
Definition pad (msg : bytes) : bytes :=
  let n := Z.of_nat (length msg) in
  let zeros := Z.to_nat ((55 - n) mod 64) in
  let bits := (8 * n) mod 2 ^ 64 in
  msg ++ [128] ++ repeat 0 zeros ++ bytes_le (bits mod 2 ^ 32) ++ bytes_le (bits / 2 ^ 32).

Definition digest (msg : bytes) : bytes :=
  let p := pad msg in
  let '(State a b c d) := blocks (length p) init p in
  bytes_le a ++ bytes_le b ++ bytes_le c ++ bytes_le d.

Definition hex_byte (b : Z) : str := [hex_digit (b / 16 mod 16); hex_digit (b mod 16)].

Definition md5_hex (msg : bytes) : str := flat_map hex_byte (digest msg).

(** The hash object: [hashlib.md5()], [update], [hexdigest]. *)
Record md5_obj := Md5 { fed : bytes }.

Definition md5 : md5_obj := Md5 [].
Definition update (h : md5_obj) (chunk : bytes) : md5_obj := Md5 (fed h ++ chunk).
Definition hexdigest (h : md5_obj) : str := md5_hex (fed h).

End Hashlib.

(** ** The machine the scripts run on *)
Module Sys.

(** Calls to the outside that a property may need to count or exclude. *)
Inductive event :=
| EvRead (path : str) (size : Z)
| EvFlacLoad (path : str)
| EvFlacSave (path : str) (md5_signature : Z)
| EvMkTemp (path : str)
| EvRun (argv : list str)
| EvUnlink (path : str)
| EvSleep
| EvHttpGet (url : str)
| EvWrite (path : str) (chunk : bytes)
| EvBarNew (ncols : option Z)
| EvBar (n : Z)
| EvImageSave (path : str).

(** The regular files of the disk, the lines printed so far and the calls
    made so far, both latest first. *)
Record world := World {
  fs : gmap str bytes;
  stdout : list str;
  calls : list event
}.

(** A computation that reads and changes the world and returns or raises. *)
Definition M (A : Type) : Type := world -> result A * world.

#[global] Instance M_ret : MRet M := fun A a w => (Ok a, w).
#[global] Instance M_bind : MBind M := fun A B f m w =>
  match m w with
  | (Ok a, w') => f a w'
  | (Raise e, w') => (Raise e, w')
  end.

Definition raise {A} (e : exn) : M A := fun w => (Raise e, w).

(** [try: body except C as e: handler e], [C] given by its test. *)
Definition try_except {A} (body : M A) (C : exn -> bool) (handler : exn -> M A) : M A :=
  fun w =>
    match body w with
    | (Raise e, w') => if C e then handler e w' else (Raise e, w')
    | r => r
    end.

(** [try: body finally: final]: an exception of [final] replaces the outcome
    of [body]. *)
Definition try_finally {A} (body : M A) (final : M unit) : M A :=
  fun w =>
    let '(r, w1) := body w in
    match final w1 with
    | (Ok _, w2) => (r, w2)
    | (Raise e, w2) => (Raise e, w2)
    end.

Definition emit (ev : event) : M unit :=
  fun w => (Ok tt, World (fs w) (stdout w) (ev :: calls w)).

(** A line the console accepts. *)
Definition print (line : str) : M unit :=
  fun w => (Ok tt, World (fs w) (line :: stdout w) (calls w)).

(** [print(line)] on a console that may refuse: [fault] tells, from what
    was printed so far and the line, whether the call raises (a
    [UnicodeEncodeError] for text the stream cannot encode, an [OSError]
    for a closed stream); a line that is refused is not printed. *)
Definition print_with (fault : list str -> str -> option exn) (line : str) : M unit :=
  fun w =>
    match fault (stdout w) line with
    | Some e => (Raise e, w)
    | None => print line w
    end.

Definition set_fs (f : gmap str bytes -> gmap str bytes) : M unit :=
  fun w => (Ok tt, World (f (fs w)) (stdout w) (calls w)).

Definition get_fs : M (gmap str bytes) := fun w => (Ok (fs w), w).

(** [time.sleep]. *)
Definition sleep : M unit := emit EvSleep.

(** [os.path.exists] and [os.path.isfile]: the disk holds regular files
    only. *)
Definition path_exists (p : str) : M bool :=
  fun w => (Ok (bool_decide (is_Some (fs w !! p))), w).

(** A computation that only prints: the disk and the calls made are as
    before. *)
Definition prints_only {A} (m : M A) : Prop :=
  forall w, fs (m w).2 = fs w /\ calls (m w).2 = calls w.

(** [str(n)] for an [int]. *)
Fixpoint dec_digits (fuel : nat) (z : Z) : str :=
  match fuel with
  | O => []
  | S fuel' =>
      if z <=? 0 then [] else dec_digits fuel' (z / 10) ++ [48 + z mod 10]
  end.

Definition str_of_int (z : Z) : str :=
  if z =? 0 then [48]
  else if z <? 0 then 45 :: dec_digits (S (Z.to_nat (Z.log2 (- z)))) (- z)
  else dec_digits (S (Z.to_nat (Z.log2 z))) z.

End Sys.
Export Sys.

(** ** Checksum utilities ([utils/utils.py], lines 15 to 177) *)
Module Checksum.

(** What mutagen exposes of a FLAC file: the fields of [flac.info] the
    source reads or writes. *)
Record flac := Flac {
  sample_rate : Z;
  channels : Z;
  bits_per_sample : Z;
  md5_signature : Z
}.

(** The outcome of every call to the outside: refusals of [open] and of the
    n-th [read] of a file, what mutagen parses from a path and what its
    [save] writes back, the name [NamedTemporaryFile] picks, what ffmpeg
    writes to its output file for an argument list, and refusals of the
    n-th attempt to unlink a path. *)
Record env := Env {
  open_fault : str -> option exn;
  read_fault : str -> nat -> option exn;
  flac_load : str -> result flac;
  flac_save : str -> flac -> result bytes;
  mktemp : str -> result str;
  ffmpeg : list str -> result bytes;
  unlink_fault : str -> nat -> option exn
}.

Definition no_such_file : exn :=
  Exn FileNotFoundError ENOENT (lit "[Errno 2] No such file or directory").

(** [open(path, "rb")]: the content the handle will read. *)
Definition open_rb (E : env) (path : str) : M bytes :=
  fun w =>
    match fs w !! path with
    | None => (Raise no_such_file, w)
    | Some content =>
        match open_fault E path with
        | Some e => (Raise e, w)
        | None => (Ok content, w)
        end
    end.

(** The [k]-th call [f.read(size)] on a handle at offset [pos]. *)
Definition f_read (E : env) (path : str) (content : bytes) (pos k : nat) (size : Z)
  : M bytes :=
  emit (EvRead path size);;
  match read_fault E path k with
  | Some e => raise e
  | None => mret (firstn (Z.to_nat size) (skipn pos content))
  end.

(** [for chunk in iter(lambda: f.read(4096), b""): hash_md5.update(chunk)].
    Every turn but the last moves the offset forward, so [S (length content)]
    turns are enough. *)
Fixpoint hash_chunks (fuel : nat) (E : env) (path : str) (content : bytes)
    (pos k : nat) (hash_md5 : Hashlib.md5_obj) : M Hashlib.md5_obj :=
  match fuel with
  | O => mret hash_md5
  | S fuel' =>
      chunk ← f_read E path content pos k 4096;
      match chunk with
      | [] => mret hash_md5
      | _ => hash_chunks fuel' E path content (pos + length chunk) (S k)
               (Hashlib.update hash_md5 chunk)
      end
  end.

(** [with open(path, "rb") as f:] around the loop above. *)
Definition hash_file (E : env) (path : str) : M Hashlib.md5_obj :=
  content ← open_rb E path;
  hash_chunks (S (length content)) E path content 0 0 Hashlib.md5.

Definition calculate_file_md5 (E : env) (file_path : str) : M str :=
  try_except
    (hash_md5 ← hash_file E file_path;
     mret (Hashlib.hexdigest hash_md5))
    is_OSError
    (fun e => raise (mkException
       (lit "Error calculating MD5 hash for " ++ file_path ++ lit ": " ++ exn_str e))).

(** [FLAC(path)] *)
Definition FLAC (E : env) (path : str) : M flac :=
  emit (EvFlacLoad path);;
  match flac_load E path with
  | Ok f => mret f
  | Raise e => raise e
  end.

(** [flac_file.save()] *)
Definition save (E : env) (path : str) (f : flac) : M unit :=
  emit (EvFlacSave path (md5_signature f));;
  match flac_save E path f with
  | Ok content => set_fs (insert path content)
  | Raise e => raise e
  end.

(** [with tempfile.NamedTemporaryFile(delete=False, suffix=...) as temp_file:
    temp_path = temp_file.name]: an empty file is left on the disk. *)
Definition NamedTemporaryFile (E : env) (suffix : str) : M str :=
  match mktemp E suffix with
  | Ok p => emit (EvMkTemp p);; set_fs (insert p []);; mret p
  | Raise e => raise e
  end.

(** [subprocess.run(argv, ..., check=True)] for an ffmpeg that writes to
    [out]. *)
Definition subprocess_run (E : env) (argv : list str) (out : str) : M unit :=
  emit (EvRun argv);;
  match ffmpeg E argv with
  | Ok content => set_fs (insert out content)
  | Raise e => raise e
  end.

(** The [i]-th [os.unlink(path)]. *)
Definition os_unlink (E : env) (path : str) (i : nat) : M unit :=
  emit (EvUnlink path);;
  match unlink_fault E path i with
  | Some e => raise e
  | None => set_fs (delete path)
  end.

(** The [finally] block of both functions:
    [for i in range(3): try: (if exists: unlink); break
     except PermissionError: time.sleep(0.1)]. *)
Fixpoint remove_with_retries (E : env) (temp_path : str) (attempts : list nat) : M unit :=
  match attempts with
  | [] => mret tt
  | i :: rest =>
      try_except
        (present ← path_exists temp_path;
         if present : bool then os_unlink E temp_path i else mret tt)
        is_PermissionError
        (fun _ => sleep;; remove_with_retries E temp_path rest)
  end.

Definition range3 : list nat := [0; 1; 2]%nat.

(** The sample format and codec names for a bit depth (lines 48 to 58). *)
Definition raw_format (bits_per_sample : Z) : option (str * str) :=
  if bits_per_sample =? 16 then Some (lit "s16le", lit "pcm_s16le")
  else if bits_per_sample =? 24 then Some (lit "s24le", lit "pcm_s24le")
  else if bits_per_sample =? 32 then Some (lit "s32le", lit "pcm_s32le")
  else None.

(** The command line of lines 61 to 68. *)
Definition raw_argv (file_path : str) (fc : str * str) (f : flac) (temp_path : str)
  : list str :=
  [lit "ffmpeg"; lit "-i"; file_path; lit "-f"; fc.1; lit "-acodec"; fc.2;
   lit "-ar"; str_of_int (sample_rate f); lit "-ac"; str_of_int (channels f);
   lit "-y"; temp_path].

(** The inner [try] block (lines 46 to 79): transcode to raw samples, then
    hash the temporary file. *)
Definition extract_and_hash (E : env) (file_path : str) (flac_file : flac)
    (temp_path : str) : M str :=
  fc ←
    match raw_format (bits_per_sample flac_file) with
    | Some fc => mret fc
    | None => raise (mkException
        (lit "Unsupported bit depth: " ++ str_of_int (bits_per_sample flac_file)))
    end;
  subprocess_run E (raw_argv file_path fc flac_file temp_path) temp_path;;
  sleep;;
  hash_md5 ← hash_file E temp_path;
  mret (Hashlib.hexdigest hash_md5).

Definition unencoded_md5_error (file_path : str) (e : exn) : exn :=
  mkException
    (lit "Could not calculate proper unencoded MD5 for " ++ file_path ++ lit ": "
     ++ exn_str e).

Definition calculate_unencoded_md5 (E : env) (file_path : str) : M str :=
  try_except
    (flac_file ← FLAC E file_path;
     temp_path ← NamedTemporaryFile E (lit ".raw");
     try_finally
       (extract_and_hash E file_path flac_file temp_path)
       (remove_with_retries E temp_path range3))
    is_Exception
    (fun e => raise (unencoded_md5_error file_path e)).

Definition set_flac_md5_signature (E : env) (file_path md5_hash : str) : M bool :=
  try_except
    (flac_file ← FLAC E file_path;
     if (length md5_hash =? 32)%nat then
       match fromhex md5_hash with
       | Raise e => raise e
       | Ok md5_bytes =>
           save E file_path
             (Flac (sample_rate flac_file) (channels flac_file)
                (bits_per_sample flac_file) (int_from_bytes_big md5_bytes));;
           mret true
       end
     else raise (Exn ValueError 0
            (lit "Invalid MD5 hash length: " ++ str_of_int (Z.of_nat (length md5_hash))
             ++ lit " (expected 32)")))
    is_Exception
    (fun e =>
       print (lit "Warning: Could not set FLAC MD5 signature for " ++ file_path
              ++ lit ": " ++ exn_str e);;
       mret false).

Definition fix_flac_md5_signature (E : env) (file_path : str) : M str :=
  try_except
    (original_flac ← FLAC E file_path;
     if negb (md5_signature original_flac =? 0) && negb (md5_signature original_flac =? 0)
     then mret (format_032x (md5_signature original_flac))
     else
       temp_path ← NamedTemporaryFile E (lit ".flac");
       try_finally
         (subprocess_run E
            [lit "ffmpeg"; lit "-i"; file_path; lit "-c:a"; lit "flac";
             lit "-compression_level"; lit "5"; lit "-y"; temp_path]
            temp_path;;
          temp_flac ← FLAC E temp_path;
          if negb (md5_signature temp_flac =? 0) && negb (md5_signature temp_flac =? 0)
          then
            let md5_hex := format_032x (md5_signature temp_flac) in
            done_ ← set_flac_md5_signature E file_path md5_hex;
            if done_ : bool then mret md5_hex
            else raise (mkException (lit "Could not set MD5 signature in original file"))
          else raise (mkException (lit "Re-encoded FLAC also has no MD5 signature")))
         (remove_with_retries E temp_path range3))
    is_Exception
    (fun e => raise (mkException
       (lit "Could not fix FLAC MD5 signature for " ++ file_path ++ lit ": " ++ exn_str e))).

(** Events a property counts or excludes. *)
Definition is_unlink (ev : event) : bool :=
  match ev with
  | EvUnlink _ => true
  | _ => false
  end.

Definition is_save (ev : event) : bool :=
  match ev with
  | EvFlacSave _ _ => true
  | _ => false
  end.

(** The [j]-th attempt to unlink [t] is refused with a [PermissionError]. *)
Definition locked (E : env) (t : str) (j : nat) : Prop :=
  exists e, unlink_fault E t j = Some e /\ is_PermissionError e = true.

(** The number of [read] calls that stream [len] bytes: one for each chunk,
    full or not, and the one that returns [b""]. *)
Definition reads (len : nat) : nat := Z.to_nat (1 + (Z.of_nat len + 4095) / 4096).

(** What the environment does to a reader of [path], whose content on the
    disk is [file]: the file is missing, [open] is refused, or the first
    refused [read] is one the loop reaches. *)
Inductive io_error (E : env) (path : str) (file : option bytes) : exn -> Prop :=
| io_missing :
    file = None -> io_error E path file no_such_file
| io_open content e :
    file = Some content -> open_fault E path = Some e -> io_error E path file e
| io_read content k e :
    file = Some content -> open_fault E path = None ->
    (forall j, (j < k)%nat -> read_fault E path j = None) ->
    read_fault E path k = Some e ->
    (k < reads (length content))%nat ->
    io_error E path file e.

(** The failures [calculate_unencoded_md5] can meet, in the order of its
    steps: mutagen cannot parse the file, no temporary file can be made, the
    bit depth is none of 16, 24 and 32, ffmpeg fails, the raw samples cannot
    be read back, or an attempt to remove the temporary file fails with an
    error that is not a [PermissionError]. *)
Inductive failure (E : env) (file_path : str) : Prop :=
| fail_load e :
    flac_load E file_path = Raise e -> failure E file_path
| fail_mktemp f e :
    flac_load E file_path = Ok f -> mktemp E (lit ".raw") = Raise e ->
    failure E file_path
| fail_depth f t :
    flac_load E file_path = Ok f -> mktemp E (lit ".raw") = Ok t ->
    raw_format (bits_per_sample f) = None ->
    failure E file_path
| fail_ffmpeg f t fc e :
    flac_load E file_path = Ok f -> mktemp E (lit ".raw") = Ok t ->
    raw_format (bits_per_sample f) = Some fc ->
    ffmpeg E (raw_argv file_path fc f t) = Raise e ->
    failure E file_path
| fail_read f t fc raw e :
    flac_load E file_path = Ok f -> mktemp E (lit ".raw") = Ok t ->
    raw_format (bits_per_sample f) = Some fc ->
    ffmpeg E (raw_argv file_path fc f t) = Ok raw ->
    io_error E t (Some raw) e ->
    failure E file_path
| fail_unlink f t i e :
    flac_load E file_path = Ok f -> mktemp E (lit ".raw") = Ok t ->
    (i < 3)%nat ->
    (forall j, (j < i)%nat -> locked E t j) ->
    unlink_fault E t i = Some e -> is_PermissionError e = false ->
    failure E file_path.

(** An event that neither saves a FLAC file nor unlinks anything. *)
Definition quiet (ev : event) : Prop := is_save ev = false /\ is_unlink ev = false.

(** *** Sample machines *)

Definition permission_denied : exn :=
  Exn PermissionError EACCES (lit "[WinError 32] The process cannot access the file").

(** Nothing fails: a 16-bit stereo file without stored checksum, and an
    ffmpeg that writes four bytes. *)
Definition E_quiet : env :=
  Env (fun _ => None) (fun _ _ => None)
    (fun _ => Ok (Flac 44100 2 16 0))
    (fun _ _ => Ok (lit "fLaC"))
    (fun suffix => Ok (lit "/tmp/tmp0" ++ suffix))
    (fun _ => Ok [1; 2; 3; 4])
    (fun _ _ => None).

(** An 8-bit file, and a temporary file that stays locked. *)
Definition E_locked : env :=
  Env (fun _ => None) (fun _ _ => None)
    (fun _ => Ok (Flac 44100 2 8 0))
    (fun _ _ => Ok (lit "fLaC"))
    (fun suffix => Ok (lit "/tmp/tmp0" ++ suffix))
    (fun _ => Ok [1; 2; 3; 4])
    (fun _ _ => Some permission_denied).

(** An 8-bit file, and nothing else in the way. *)
Definition E_8bit : env :=
  Env (fun _ => None) (fun _ _ => None)
    (fun _ => Ok (Flac 44100 2 8 0))
    (fun _ _ => Ok (lit "fLaC"))
    (fun suffix => Ok (lit "/tmp/tmp0" ++ suffix))
    (fun _ => Ok [1; 2; 3; 4])
    (fun _ _ => None).

(** A file that already carries the checksum [0xff]. *)
Definition E_signed : env :=
  Env (fun _ => None) (fun _ _ => None)
    (fun _ => Ok (Flac 44100 2 16 255))
    (fun _ _ => Ok (lit "fLaC"))
    (fun suffix => Ok (lit "/tmp/tmp0" ++ suffix))
    (fun _ => Ok [1; 2; 3; 4])
    (fun _ _ => None).

(** A disk with one file. *)
Definition w_one : world := World {[ lit "a.flac" := lit "fLaC" ]} [] [].

End Checksum.

(** ** Downloader ([utils/utils.py], lines 207 to 269) *)
Module Downloader.

(** What [requests] answers: the [content-length] header, when there is one,
    as [int] reads it, and the chunks [iter_content] yields, each of which may
    instead raise (a broken connection, or an interrupt while waiting). *)
Record response := Response {
  content_length : option (result Z);
  body : list (result bytes)
}.

(** The [quality] argument of [im.save]: the mapped number, the string left
    as it came, or [None]. *)
Inductive quality :=
| QInt (q : Z)
| QStr (s : str)
| QNone.

(** [artwork_settings], a dictionary: the truth value of [should_resize] and
    the three optional keys. *)
Record artwork := Artwork {
  should_resize : bool;
  resolution : option Z;
  format : option str;
  compression : option quality
}.

(** The outcome of every call to the outside: the answer to a request,
    refusals of [open], of the n-th [write] and of [os.remove], the size of
    the terminal, whether the system is Windows, what PIL saves for an
    image, and the refusals of the console. *)
Record env := Env {
  http_get : str -> list (str * str) -> result response;
  open_fault : str -> option exn;
  write_fault : str -> nat -> option exn;
  terminal_columns : result Z;
  os_name_nt : bool;
  image_resize : bytes -> Z -> str -> quality -> result bytes;
  remove_fault : str -> option exn;
  print_fault : list str -> str -> option exn
}.

(** [open(file_location, 'wb')]: the file is created or emptied. *)
Definition open_wb (E : env) (path : str) : M unit :=
  match open_fault E path with
  | Some e => raise e
  | None => set_fs (insert path [])
  end.

(** The [k]-th [f.write(chunk)]. *)
Definition f_write (E : env) (path : str) (k : nat) (chunk : bytes) : M unit :=
  emit (EvWrite path chunk);;
  match write_fault E path k with
  | Some e => raise e
  | None =>
      set_fs (fun disk =>
        match disk !! path with
        | Some content => <[path := content ++ chunk]> disk
        | None => <[path := chunk]> disk
        end)
  end.

(** The progress bar of lines 220 to 227: with a terminal on Windows its
    width is set; any failure on the way, an interrupt included, is caught
    by the bare [except] and a bar without width is made. *)
Definition make_bar (E : env) (indent_level : Z) : option Z :=
  match terminal_columns E with
  | Ok columns => if os_name_nt E then Some (columns - indent_level) else None
  | Raise _ => None
  end.

(** Both loops over [r.iter_content(chunk_size=1024)]: empty chunks are
    skipped, the others written, and the bar, when there is one, moved. *)
Fixpoint write_chunks (E : env) (path : str) (with_bar : bool) (k : nat)
    (chunks : list (result bytes)) : M unit :=
  match chunks with
  | [] => mret tt
  | Raise e :: _ => raise e
  | Ok [] :: rest => write_chunks E path with_bar k rest
  | Ok chunk :: rest =>
      f_write E path k chunk;;
      (if with_bar then emit (EvBar (Z.of_nat (length chunk))) else mret tt);;
      write_chunks E path with_bar (S k) rest
  end.

(** Lines 237 to 245. *)
Definition new_resolution (a : artwork) : Z :=
  match resolution a with
  | Some r => r
  | None => 1400
  end.

Definition new_format (a : artwork) : str :=
  let f := match format a with Some f => f | None => lit "jpeg" end in
  if bool_decide (f = lit "jpg") then lit "jpeg" else f.

Definition new_compression (a : artwork) : quality :=
  let c := match compression a with Some c => c | None => QStr (lit "low") end in
  let c :=
    match c with
    | QStr s =>
        if bool_decide (s = lit "low") then QInt 90
        else if bool_decide (s = lit "high") then QInt 70
        else c
    | _ => c
    end in
  if bool_decide (new_format a = lit "png") then QNone else c.

(** [with Image.open(file_location) as im: im = im.resize(...); im.save(...)] *)
Definition resize_in_place (E : env) (path : str) (a : artwork) : M unit :=
  disk ← get_fs;
  match disk !! path with
  | None => raise (Exn FileNotFoundError ENOENT (lit "[Errno 2] No such file or directory"))
  | Some content =>
      emit (EvImageSave path);;
      match image_resize E content (new_resolution a) (new_format a) (new_compression a) with
      | Ok content' => set_fs (insert path content')
      | Raise e => raise e
      end
  end.

(** [total] is used for its truth value only. *)
Definition total_truthy (total : option Z) : bool :=
  match total with
  | Some n => negb (n =? 0)
  | None => false
  end.

(** The [try] block (lines 218 to 248). *)
Definition download_body (E : env) (r : response) (total : option Z)
    (file_location : str) (enable_progress_bar : bool) (indent_level : Z)
    (artwork_settings : option artwork) : M unit :=
  open_wb E file_location;;
  (if enable_progress_bar && total_truthy total
   then emit (EvBarNew (make_bar E indent_level)) else mret tt);;
  write_chunks E file_location (enable_progress_bar && total_truthy total) 0 (body r);;
  match artwork_settings with
  | Some a => if should_resize a then resize_in_place E file_location a else mret tt
  | None => mret tt
  end.

(** [os.remove] *)
Definition os_remove (E : env) (path : str) : M unit :=
  emit (EvUnlink path);;
  disk ← get_fs;
  match disk !! path with
  | None => raise (Exn FileNotFoundError ENOENT (lit "[Errno 2] No such file or directory"))
  | Some _ =>
      match remove_fault E path with
      | Some e => raise e
      | None => set_fs (delete path)
      end
  end.

Definition silentremove (E : env) (filename : str) : M unit :=
  try_except (os_remove E filename) is_OSError
    (fun e => if exn_errno e =? ENOENT then mret tt else raise e).

Definition deleting_message (file_location : str) : str :=
  [9] ++ lit "Deleting partially downloaded file " ++ [34] ++ file_location ++ [34].

(** Lines 213 to 215: [total], when the header is there and [int] reads
    it. *)
Definition read_total (r : response) : result (option Z) :=
  match content_length r with
  | None => Ok None
  | Some (Ok n) => Ok (Some n)
  | Some (Raise e) => Raise e
  end.

(** The function returns [None] on every path that returns. *)
Definition download_file (E : env) (url file_location : str)
    (headers : list (str * str)) (enable_progress_bar : bool) (indent_level : Z)
    (artwork_settings : option artwork) : M unit :=
  present ← path_exists file_location;
  if present : bool then mret tt
  else
    emit (EvHttpGet url);;
    r ← (match http_get E url headers with Ok r => mret r | Raise e => raise e end);
    total ← (match read_total r with Ok total => mret total | Raise e => raise e end);
    try_except
      (download_body E r total file_location enable_progress_bar indent_level
         artwork_settings)
      is_KeyboardInterrupt
      (fun _ =>
         present ← path_exists file_location;
         (if present : bool then
            print_with (print_fault E) (deleting_message file_location);;
            silentremove E file_location
          else mret tt);;
         raise (Exn KeyboardInterrupt 0 [])).

(** *** Sample machines *)

Definition interrupt : exn := Exn KeyboardInterrupt 0 [].

(** A server that sends two chunks and is interrupted before the third. *)
Definition E_interrupted : env :=
  Env (fun _ _ => Ok (Response None [Ok [1; 2]; Ok [3]; Raise interrupt; Ok [4]]))
    (fun _ => None) (fun _ _ => None) (Ok 80) false
    (fun content _ _ _ => Ok content) (fun _ => None) (fun _ _ => None).

(** The same, on a machine that refuses to remove the file. *)
Definition E_interrupted_locked : env :=
  Env (fun _ _ => Ok (Response None [Ok [1; 2]; Ok [3]; Raise interrupt; Ok [4]]))
    (fun _ => None) (fun _ _ => None) (Ok 80) false
    (fun content _ _ _ => Ok content)
    (fun _ => Some (Exn PermissionError EACCES (lit "[Errno 13] Permission denied")))
    (fun _ _ => None).

(** The same as the first, on a console that cannot encode what it is asked
    to print. *)
Definition cannot_encode : exn :=
  Exn UnicodeEncodeError 0 (lit "'utf-8' codec can't encode character: surrogates not allowed").

Definition E_interrupted_mute : env :=
  Env (fun _ _ => Ok (Response None [Ok [1; 2]; Ok [3]; Raise interrupt; Ok [4]]))
    (fun _ => None) (fun _ _ => None) (Ok 80) false
    (fun content _ _ _ => Ok content) (fun _ => None) (fun _ _ => Some cannot_encode).

Definition w_empty : world := World ∅ [] [].

Definition w_cover : world := World {[ lit "cover.jpg" := [255; 216] ]} [] [].

End Downloader.

(** ** Temporary settings store ([utils/utils.py], lines 271 to 311) *)
Module Settings.

(** Keys of dictionaries and the values pickled in the settings file.  A
    dictionary is the list of its items in insertion order.  The blob is a
    tree: two names for one object inside it are not modelled. *)
Inductive key :=
| KNone
| KInt (z : Z)
| KStr (s : str).

#[local] Set Warnings "-register-all".
Inductive value :=
| VNone
| VBool (b : bool)
| VInt (z : Z)
| VStr (s : str)
| VDict (items : list (key * value))
| VList (elems : list value).

#[global] Instance key_eq_dec : EqDecision key.
Proof. solve_decision. Defined.

(** Truth values: [if x:]. *)
Definition truthy (v : value) : bool :=
  match v with
  | VNone => false
  | VBool b => b
  | VInt z => negb (z =? 0)
  | VStr s => negb (bool_decide (s = []))
  | VDict items => negb (bool_decide (items = []))
  | VList elems => negb (bool_decide (elems = []))
  end.

Definition key_truthy (k : key) : bool :=
  match k with
  | KNone => false
  | KInt z => negb (z =? 0)
  | KStr s => negb (bool_decide (s = []))
  end.

(** A value used as a key: [True] and [False] hash and compare as 1 and 0,
    dictionaries and lists are unhashable. *)
Definition key_of (v : value) : result key :=
  match v with
  | VNone => Ok KNone
  | VBool b => Ok (KInt (if b then 1 else 0))
  | VInt z => Ok (KInt z)
  | VStr s => Ok (KStr s)
  | VDict _ | VList _ => Raise (Exn TypeError 0 (lit "unhashable type"))
  end.

(** [x == k] for an element [x] of a list and a key [k]. *)
Definition equals_key (x : value) (k : key) : bool :=
  match key_of x with
  | Ok k' => bool_decide (k' = k)
  | Raise _ => false
  end.

Fixpoint dict_get (k : key) (items : list (key * value)) : option value :=
  match items with
  | [] => None
  | (k', v) :: rest => if bool_decide (k' = k) then Some v else dict_get k rest
  end.

(** [d[k] = v]: the item is replaced where it stands, or added last. *)
Fixpoint dict_set (k : key) (v : value) (items : list (key * value)) : list (key * value) :=
  match items with
  | [] => [(k, v)]
  | (k', v') :: rest =>
      if bool_decide (k' = k) then (k, v) :: rest else (k', v') :: dict_set k v rest
  end.

Definition not_iterable : exn := Exn TypeError 0 (lit "argument is not iterable").
Definition not_subscriptable : exn := Exn TypeError 0 (lit "object is not subscriptable").
Definition bad_index : exn := Exn TypeError 0 (lit "indices must be integers").
Definition no_item_assignment : exn :=
  Exn TypeError 0 (lit "object does not support item assignment").
Definition key_error : exn := Exn KeyError 0 (lit "key").
Definition index_error : exn := Exn IndexError 0 (lit "index out of range").

(** [k in x] *)
Definition contains (x : value) (k : key) : result bool :=
  match x with
  | VDict items => Ok (bool_decide (is_Some (dict_get k items)))
  | VList elems => Ok (existsb (fun e => equals_key e k) elems)
  | VStr s =>
      match k with
      | KStr sub => Ok (is_substring sub s)
      | _ => Raise (Exn TypeError 0 (lit "'in <string>' requires string as left operand"))
      end
  | _ => Raise not_iterable
  end.

(** The position a list or string index designates, counting from the end
    when negative. *)
Definition position (i : Z) (len : nat) : option nat :=
  let j := if i <? 0 then i + Z.of_nat len else i in
  if (0 <=? j) && (j <? Z.of_nat len) then Some (Z.to_nat j) else None.

(** [x[k]] *)
Definition getitem (x : value) (k : key) : result value :=
  match x with
  | VDict items =>
      match dict_get k items with
      | Some v => Ok v
      | None => Raise key_error
      end
  | VList elems =>
      match k with
      | KInt i =>
          match position i (length elems) with
          | Some n =>
              match elems !! n with
              | Some v => Ok v
              | None => Raise index_error
              end
          | None => Raise index_error
          end
      | _ => Raise bad_index
      end
  | VStr s =>
      match k with
      | KInt i =>
          match position i (length s) with
          | Some n =>
              match s !! n with
              | Some c => Ok (VStr [c])
              | None => Raise index_error
              end
          | None => Raise index_error
          end
      | _ => Raise bad_index
      end
  | _ => Raise not_subscriptable
  end.

(** [x[k] = v], as the object [x] becomes. *)
Definition setitem (x : value) (k : key) (v : value) : result value :=
  match x with
  | VDict items => Ok (VDict (dict_set k v items))
  | VList elems =>
      match k with
      | KInt i =>
          match position i (length elems) with
          | Some n => Ok (VList (<[n := v]> elems))
          | None => Raise index_error
          end
      | _ => Raise bad_index
      end
  | _ => Raise no_item_assignment
  end.

Definition k_modules : key := KStr (lit "modules").
Definition k_sessions : key := KStr (lit "sessions").
Definition k_selected : key := KStr (lit "selected").

(** [pickle.load(open(settings_location, 'rb'))]: the disk holds, for each
    settings file, the value pickled in it. *)
Definition pickle_load (disk : gmap str value) (settings_location : str) : result value :=
  match disk !! settings_location with
  | Some blob => Ok blob
  | None => Raise (Exn FileNotFoundError ENOENT (lit "[Errno 2] No such file or directory"))
  end.

(** Lines 273 and 295. *)
Definition module_settings_of (temporary_settings : value) (module : key) : result value :=
  modules ← getitem temporary_settings k_modules;
  present ← contains modules module;
  if present : bool then
    modules' ← getitem temporary_settings k_modules;
    getitem modules' module
  else Ok VNone.

(** Lines 275 to 281 and 297 to 303. *)
Definition session_of (module_settings : value) (global_mode : bool) : result value :=
  if truthy module_settings then
    if global_mode then Ok module_settings
    else
      sessions ← getitem module_settings k_sessions;
      selected ← getitem module_settings k_selected;
      name ← key_of selected;
      getitem sessions name
  else Ok VNone.

Definition no_temporary_settings : exn :=
  mkException (lit "Module does not use temporary settings").

Definition read_temporary_setting (disk : gmap str value) (settings_location : str)
    (module root_setting setting : key) (global_mode : bool) : result value :=
  temporary_settings ← pickle_load disk settings_location;
  module_settings ← module_settings_of temporary_settings module;
  session ← session_of module_settings global_mode;
  if truthy session && key_truthy root_setting then
    if key_truthy setting then
      has_root ← contains session root_setting;
      if has_root : bool then
        root ← getitem session root_setting;
        has_setting ← contains root setting;
        if has_setting : bool then
          root' ← getitem session root_setting;
          getitem root' setting
        else Ok VNone
      else Ok VNone
    else
      has_root ← contains session root_setting;
      if has_root : bool then getitem session root_setting else Ok VNone
  else if key_truthy root_setting && negb (truthy session) then
    Raise no_temporary_settings
  else Ok session.

(** The session after lines 307 to 310. *)
Definition assign (session : value) (root_setting setting : key) (v : value) : result value :=
  if key_truthy setting then
    root ← getitem session root_setting;
    root' ← setitem root setting v;
    setitem session root_setting root'
  else setitem session root_setting v.

(** The blob once the session reached through it has become [session']. *)
Definition with_session (temporary_settings module_settings : value) (module : key)
    (global_mode : bool) (session' : value) : result value :=
  module_settings' ←
    (if global_mode then Ok session'
     else
       sessions ← getitem module_settings k_sessions;
       selected ← getitem module_settings k_selected;
       name ← key_of selected;
       sessions' ← setitem sessions name session';
       setitem module_settings k_sessions sessions');
  modules ← getitem temporary_settings k_modules;
  modules' ← setitem modules module module_settings';
  setitem temporary_settings k_modules modules'.

(** The disk after the call, when it returns. *)
Definition set_temporary_setting (disk : gmap str value) (settings_location : str)
    (module root_setting setting : key) (v : value) (global_mode : bool)
  : result (gmap str value) :=
  temporary_settings ← pickle_load disk settings_location;
  module_settings ← module_settings_of temporary_settings module;
  session ← session_of module_settings global_mode;
  if negb (truthy session) then Raise no_temporary_settings
  else
    session' ← assign session root_setting setting v;
    temporary_settings' ←
      with_session temporary_settings module_settings module global_mode session';
    Ok (<[settings_location := temporary_settings']> disk).

(** The selected session of [module] in a blob of the expected shape:
    [blob['modules'][module]['sessions'][blob['modules'][module]['selected']]]
    is the dictionary [session]. *)
Definition selected_session (blob : value) (module : key) (session : list (key * value))
  : Prop :=
  exists top modules module_settings sessions selected name,
    blob = VDict top
    /\ dict_get k_modules top = Some (VDict modules)
    /\ dict_get module modules = Some (VDict module_settings)
    /\ dict_get k_sessions module_settings = Some (VDict sessions)
    /\ dict_get k_selected module_settings = Some selected
    /\ key_of selected = Ok name
    /\ dict_get name sessions = Some (VDict session).

(** A module without session state: it is not among the modules, or the
    session it names as selected is not among its sessions. *)
Inductive no_session_state (blob : value) (module : key) : Prop :=
| module_absent top modules :
    blob = VDict top ->
    dict_get k_modules top = Some (VDict modules) ->
    dict_get module modules = None ->
    no_session_state blob module
| nothing_selected top modules module_settings sessions selected name :
    blob = VDict top ->
    dict_get k_modules top = Some (VDict modules) ->
    dict_get module modules = Some (VDict module_settings) ->
    dict_get k_sessions module_settings = Some (VDict sessions) ->
    dict_get k_selected module_settings = Some selected ->
    key_of selected = Ok name ->
    dict_get name sessions = None ->
    no_session_state blob module.

(** *** Sample blobs *)

(** [{'modules': {'tidal': {'sessions': {'default': {'auth': {'token':
    'abc'}, '': {}}}, 'selected': 'default'}}}] *)
Definition blob_tidal : value :=
  VDict [(k_modules, VDict [(KStr (lit "tidal"), VDict
    [(k_sessions, VDict [(KStr (lit "default"), VDict
        [(KStr (lit "auth"), VDict [(KStr (lit "token"), VStr (lit "abc"))]);
         (KStr [], VDict [])])]);
     (k_selected, VStr (lit "default"))])])].

Definition disk_tidal : gmap str value := {[ lit "settings.bin" := blob_tidal ]}.

End Settings.

(** ** Tag inspector ([check_md5_tags.py], lines 13 to 85) *)
Module TagInspector.

(** The class of the object [mutagen.File] returns. *)
Inductive kind :=
| IsFLAC
| IsMP3
| IsMP4
| IsOther.

(** An element of a tag value: how it prints, and what [.decode()] gives. *)
Record tag_item := Item { shown : str; decoded : result str }.

(** [audio_file[key]]: a list of items, or another object with its printed
    form. *)
Inductive tag_value :=
| TagList (items : list tag_item)
| TagOther (text : str).

(** The object [mutagen.File] returns, by what the script asks of it; every
    question may raise. *)
Record audio := Audio {
  kind_of : kind;
  type_name : str;
  has_key : str -> result bool;
  item : str -> result tag_value;
  keys : result (list str);
  info_md5_signature : Z
}.

(** [File(file_path)]: an exception, [None] for an unknown format, or the
    object; and the refusals of the console the script prints on. *)
Record env := Env {
  File : str -> result (option audio);
  print_fault : list str -> str -> option exn
}.

(** [print(line)] *)
Definition say (E : env) (line : str) : M unit := print_with (print_fault E) line.

Definition lift {A} (r : result A) : M A :=
  match r with
  | Ok a => mret a
  | Raise e => raise e
  end.

(** [os.path.basename] *)
Fixpoint basename (p : str) : str :=
  match p with
  | [] => []
  | c :: rest => if existsb (Z.eqb 47) rest then basename rest
                 else if c =? 47 then rest else p
  end.

(** [v[0]] *)
Definition first_item (v : tag_value) : result tag_item :=
  match v with
  | TagList (x :: _) => Ok x
  | TagList [] => Raise (Exn IndexError 0 (lit "list index out of range"))
  | TagOther text =>
      match text with
      | c :: _ => Ok (Item [c] (Raise (Exn AttributeError 0 (lit "decode"))))
      | [] => Raise (Exn IndexError 0 (lit "string index out of range"))
      end
  end.

(** The three typed branches (lines 32 to 62) look one key up. *)
Definition report_key (E : env) (a : audio) (key : str) (decode : bool) : M bool :=
  present ← lift (has_key a key);
  if present : bool then
    v ← lift (item a key);
    x ← lift (first_item v);
    text ← (if decode then lift (decoded x) else mret (shown x));
    say E (lit "MD5 Tag: " ++ text);;
    mret true
  else
    say E (lit "MD5 Tag: Not found");;
    mret false.

(** Lines 66 to 70: the first key whose upper-cased name contains [MD5]. *)
Fixpoint scan_keys (E : env) (a : audio) (ks : list str) : M bool :=
  match ks with
  | [] => mret false
  | key :: rest =>
      if is_substring (lit "MD5") (upper key) then
        v ← lift (item a key);
        say E (lit "MD5 Tag (" ++ key ++ lit "): "
               ++ match v with
                  | TagList items => concat (map shown items)
                  | TagOther text => text
                  end);;
        mret true
      else scan_keys E a rest
  end.

Definition interesting_tags : list (str * str) :=
  [(lit "title", lit "Title"); (lit "artist", lit "Artist"); (lit "album", lit "Album");
   (lit "date", lit "Date"); (lit "genre", lit "Genre")].

(** Lines 78 to 80. *)
Fixpoint other_tags (E : env) (a : audio) (tags : list (str * str)) : M unit :=
  match tags with
  | [] => mret tt
  | (tag, capitalized) :: rest =>
      present ← lift (has_key a tag);
      (if present : bool then
         v ← lift (item a tag);
         text ←
           match v with
           | TagList _ =>
               v' ← lift (item a tag);
               x ← lift (first_item v');
               mret (shown x)
           | TagOther _ =>
               v' ← lift (item a tag);
               mret (match v' with
                     | TagList items => concat (map shown items)
                     | TagOther text => text
                     end)
           end;
         say E (lit "  " ++ capitalized ++ lit ": " ++ text)
       else mret tt);;
      other_tags E a rest
  end.

(** Lines 25 to 82: everything between the test for [None] and [return
    md5_found]. *)
Definition inspect (E : env) (file_path : str) (a : audio) : M bool :=
  say E ([10] ++ lit "File: " ++ basename file_path);;
  say E (lit "Path: " ++ file_path);;
  say E (lit "Type: " ++ type_name a);;
  md5_found ←
    match kind_of a with
    | IsFLAC =>
        found_tag ← report_key E a (lit "MD5") false;
        if negb (info_md5_signature a =? 0) && negb (info_md5_signature a =? 0) then
          say E (lit "MD5 of unencoded content: " ++ format_032x (info_md5_signature a));;
          mret true
        else
          say E (lit "MD5 of unencoded content: 00000000000000000000000000000000 (unset)");;
          mret found_tag
    | IsMP3 => report_key E a (lit "TXXX:MD5") false
    | IsMP4 => report_key E a (lit "----:com.apple.itunes:MD5") true
    | IsOther =>
        ks ← lift (keys a);
        found ← scan_keys E a ks;
        (if found : bool then mret tt else say E (lit "MD5 Tag: Not found"));;
        mret found
    end;
  say E ([10] ++ lit "Other tags:");;
  other_tags E a interesting_tags;;
  mret md5_found.

(** The value returned is [None], [True] or [False]. *)
Definition check_md5_tag (E : env) (file_path : str) : M (option bool) :=
  present ← path_exists file_path;
  if negb present then
    say E (lit "File not found: " ++ file_path);;
    mret None
  else
    try_except
      (audio_file ← lift (File E file_path);
       match audio_file with
       | None =>
           say E (lit "Unsupported file format: " ++ file_path);;
           mret None
       | Some a =>
           md5_found ← inspect E file_path a;
           mret (Some md5_found)
       end)
      is_Exception
      (fun e =>
         say E (lit "Error reading file: " ++ exn_str e);;
         mret None).

(** Whether an MD5 tag or checksum is there, for an object that answers
    every question: the tag of its format, or, for a FLAC file, a nonzero
    checksum in STREAMINFO. *)
Definition md5_present (a : audio) : result bool :=
  match kind_of a with
  | IsFLAC =>
      tag ← has_key a (lit "MD5");
      Ok (tag || negb (info_md5_signature a =? 0))
  | IsMP3 => has_key a (lit "TXXX:MD5")
  | IsMP4 => has_key a (lit "----:com.apple.itunes:MD5")
  | IsOther =>
      ks ← keys a;
      Ok (existsb (fun key => is_substring (lit "MD5") (upper key)) ks)
  end.

(** A console that prints whatever it is given. *)
Definition console_ok (E : env) : Prop := forall out line, print_fault E out line = None.

(** An object that answers every question the inspection asks: membership
    tests return, the value of a key that is there is a list with a first
    item (one that decodes, in an MP4 file), and the keys can be listed and
    each of them has a value. *)
Definition answers (a : audio) : Prop :=
  (forall key, exists present, has_key a key = Ok present)
  /\ (forall key, has_key a key = Ok true ->
      exists x rest,
        item a key = Ok (TagList (x :: rest))
        /\ (kind_of a = IsMP4 -> exists text, decoded x = Ok text))
  /\ (exists ks, keys a = Ok ks /\ forall key, In key ks -> exists v, item a key = Ok v).

(** *** Sample machines *)

(** A FLAC file with a checksum and no tags. *)
Definition flac_signed : audio :=
  Audio IsFLAC (lit "FLAC") (fun _ => Ok false)
    (fun _ => Raise (Exn KeyError 0 (lit "key"))) (Ok []) 255.

Definition E_flac : env := Env (fun _ => Ok (Some flac_signed)) (fun _ _ => None).


(** A FLAC file without tag and without checksum. *)
Definition flac_unsigned : audio :=
  Audio IsFLAC (lit "FLAC") (fun _ => Ok false)
    (fun _ => Raise (Exn KeyError 0 (lit "key"))) (Ok []) 0.

Definition E_flac_unsigned : env :=
  Env (fun _ => Ok (Some flac_unsigned)) (fun _ _ => None).

(** An MP3 file whose only frame is the MD5 one. *)
Definition mp3_tagged : audio :=
  Audio IsMP3 (lit "MP3")
    (fun key => Ok (bool_decide (key = lit "TXXX:MD5")))
    (fun key =>
       if bool_decide (key = lit "TXXX:MD5")
       then Ok (TagList [Item (lit "d41d8cd98f00b204e9800998ecf8427e")
                           (Raise (Exn AttributeError 0 (lit "decode")))])
       else Raise (Exn KeyError 0 (lit "key")))
    (Ok [lit "TXXX:MD5"]) 0.

Definition E_mp3 : env := Env (fun _ => Ok (Some mp3_tagged)) (fun _ _ => None).

(** The first machine on a console whose stream is closed. *)
Definition E_flac_closed : env :=
  Env (fun _ => Ok (Some flac_signed))
    (fun _ _ => Some (Exn ValueError 0 (lit "I/O operation on closed file."))).

Definition w_song : world := World {[ lit "song.flac" := lit "fLaC" ]} [] [].

End TagInspector.

(** ** Byte limit of file names ([utils/utils.py], lines 189 to 202)

    [os.path] is the POSIX one.  The working directory is an argument. *)
Module ByteLimit.

(** *** [posixpath] *)

(** [s.split('/')] *)
Fixpoint split_sep (s : str) : list str :=
  match s with
  | [] => [[]]
  | c :: rest =>
      match split_sep rest with
      | first :: others =>
          if c =? 47 then [] :: first :: others else (c :: first) :: others
      | [] => [[c]]
      end
  end.

(** ['/'.join(parts)] *)
Definition join_sep (parts : list str) : str :=
  match parts with
  | [] => []
  | p :: ps => p ++ flat_map (fun q => 47 :: q) ps
  end.

Definition starts_with_sep (s : str) : bool :=
  match s with
  | c :: _ => c =? 47
  | [] => false
  end.

Definition ends_with_sep (s : str) : bool :=
  match last s with
  | Some c => c =? 47
  | None => false
  end.

Definition is_empty (s : str) : bool :=
  match s with
  | [] => true
  | _ => false
  end.

(** One turn of the loop of [posixpath.join]. *)
Definition path_join (path b : str) : str :=
  if starts_with_sep b then b
  else if is_empty path || ends_with_sep path then path ++ b
  else path ++ [47] ++ b.

Definition dot : str := [46].
Definition dotdot : str := [46; 46].

(** One or two leading slashes are kept, three or more count as one. *)
Definition initial_slashes (path : str) : nat :=
  match path with
  | 47 :: 47 :: 47 :: _ => 1
  | 47 :: 47 :: _ => 2
  | 47 :: _ => 1
  | _ => 0
  end.

(** One turn of the loop of [posixpath.normpath]. *)
Definition norm_step (initial : nat) (new_comps : list str) (comp : str) : list str :=
  if bool_decide (comp = []) || bool_decide (comp = dot) then new_comps
  else if negb (bool_decide (comp = dotdot))
          || (bool_decide (initial = 0%nat) && bool_decide (new_comps = []))
          || (negb (bool_decide (new_comps = []))
              && bool_decide (last new_comps = Some dotdot))
  then new_comps ++ [comp]
  else removelast new_comps.

Definition normpath (path : str) : str :=
  if is_empty path then dot
  else
    let initial := initial_slashes path in
    let comps := fold_left (norm_step initial) (split_sep path) [] in
    let path' := repeat 47 initial ++ join_sep comps in
    if is_empty path' then dot else path'.

Definition abspath (cwd path : str) : str :=
  normpath (if starts_with_sep path then path else path_join cwd path).

Fixpoint common_prefix_length (a b : list str) : nat :=
  match a, b with
  | x :: a', y :: b' => if bool_decide (x = y) then S (common_prefix_length a' b') else 0
  | _, _ => 0
  end.

Definition components (p : str) : list str :=
  List.filter (fun x => negb (is_empty x)) (split_sep p).

(** [os.path.relpath(path)], from the working directory [cwd]. *)
Definition relpath (cwd path : str) : result str :=
  if is_empty path then Raise (Exn ValueError 0 (lit "no path specified"))
  else
    let start_list := components (abspath cwd dot) in
    let path_list := components (abspath cwd path) in
    let i := common_prefix_length start_list path_list in
    let rel_list := repeat dotdot (length start_list - i) ++ drop i path_list in
    match rel_list with
    | [] => Ok dot
    | first :: rest => Ok (fold_left path_join rest first)
    end.

(** [p[:i], p[i:]] for [i = p.rfind('/') + 1]. *)
Fixpoint split_at_last_sep (p : str) : str * str :=
  match p with
  | [] => ([], [])
  | c :: rest =>
      match split_at_last_sep rest with
      | ([], _) => if c =? 47 then ([47], rest) else ([], c :: rest)
      | (head, tail) => (c :: head, tail)
      end
  end.

(** [head.rstrip('/')] *)
Fixpoint rstrip_sep (s : str) : str :=
  match s with
  | [] => []
  | c :: rest =>
      match rstrip_sep rest with
      | [] => if c =? 47 then [] else [c]
      | rest' => c :: rest'
      end
  end.

Definition all_sep (s : str) : bool := forallb (Z.eqb 47) s.

(** A name without slash. *)
Definition no_sep (s : str) : Prop := Forall (fun c => c <> 47) s.

(** [os.path.split] *)
Definition split (p : str) : str * str :=
  let '(head, tail) := split_at_last_sep p in
  (if negb (is_empty head) && negb (all_sep head) then rstrip_sep head else head, tail).

(** [s.replace('\\', '/')] *)
Definition replace_backslash (s : str) : str :=
  map (fun c => if c =? 92 then 47 else c) s.

(** *** UTF-8 *)

(** The code points a well-formed text is made of: no surrogate, nothing
    above U+10FFFF. *)
Definition scalar (c : Z) : Prop :=
  (0 <= c < 55296) \/ (57343 < c <= 1114111).

Definition encode_char (c : Z) : option bytes :=
  if c <? 0 then None
  else if c <? 128 then Some [c]
  else if c <? 2048 then Some [192 + c / 64; 128 + c mod 64]
  else if c <? 55296 then Some [224 + c / 4096; 128 + c / 64 mod 64; 128 + c mod 64]
  else if c <? 57344 then None
  else if c <? 65536 then Some [224 + c / 4096; 128 + c / 64 mod 64; 128 + c mod 64]
  else if c <? 1114112 then
    Some [240 + c / 262144; 128 + c / 4096 mod 64; 128 + c / 64 mod 64; 128 + c mod 64]
  else None.

Definition surrogates_not_allowed : exn :=
  Exn UnicodeEncodeError 0 (lit "'utf-8' codec can't encode character: surrogates not allowed").

(** [s.encode('utf-8')] *)
Fixpoint encode (s : str) : result bytes :=
  match s with
  | [] => Ok []
  | c :: rest =>
      match encode_char c, encode rest with
      | Some bs, Ok bs' => Ok (bs ++ bs')
      | None, _ => Raise surrogates_not_allowed
      | _, Raise e => Raise e
      end
  end.

Definition continuation (b : Z) : bool := (128 <=? b) && (b <? 192).

(** [bs.decode('utf-8', 'ignore')], as CPython decodes: an invalid start
    byte is skipped; a sequence broken by a byte that cannot continue it is
    skipped up to that byte; a sequence cut by the end of the data is
    skipped with all that remains. *)
Fixpoint decode_ignore (bs : bytes) : str :=
  match bs with
  | [] => []
  | b0 :: r0 =>
      if b0 <? 128 then b0 :: decode_ignore r0
      else if b0 <? 194 then decode_ignore r0
      else if b0 <? 224 then
        match r0 with
        | [] => []
        | b1 :: r1 =>
            if continuation b1 then (b0 - 192) * 64 + (b1 - 128) :: decode_ignore r1
            else decode_ignore r0
        end
      else if b0 <? 240 then
        match r0 with
        | [] => []
        | b1 :: r1 =>
            if negb (continuation b1) || (if b1 <? 160 then b0 =? 224 else b0 =? 237)
            then decode_ignore r0
            else
              match r1 with
              | [] => []
              | b2 :: r2 =>
                  if continuation b2
                  then (b0 - 224) * 4096 + (b1 - 128) * 64 + (b2 - 128) :: decode_ignore r2
                  else decode_ignore r1
              end
        end
      else if b0 <? 245 then
        match r0 with
        | [] => []
        | b1 :: r1 =>
            if negb (continuation b1) || (if b1 <? 144 then b0 =? 240 else b0 =? 244)
            then decode_ignore r0
            else
              match r1 with
              | [] => []
              | b2 :: r2 =>
                  if continuation b2 then
                    match r2 with
                    | [] => []
                    | b3 :: r3 =>
                        if continuation b3
                        then (b0 - 240) * 262144 + (b1 - 128) * 4096 + (b2 - 128) * 64
                             + (b3 - 128) :: decode_ignore r3
                        else decode_ignore r2
                    end
                  else decode_ignore r1
              end
        end
      else decode_ignore r0
  end.

(** [bs[:n]]: a negative [n] counts from the end. *)
Definition slice_to (bs : bytes) (n : Z) : bytes :=
  if n <? 0 then take (length bs - Z.to_nat (- n)) bs else take (Z.to_nat n) bs.

Definition fix_byte_limit (cwd path : str) (byte_limit : Z) : result str :=
  rel ← relpath cwd path;
  let rel_path := replace_backslash rel in
  let '(directory, filename) := split rel_path in
  filename_bytes ← encode filename;
  let fixed_bytes := slice_to filename_bytes byte_limit in
  let fixed_filename := decode_ignore fixed_bytes in
  Ok (directory ++ [47] ++ fixed_filename).

(** The longest prefix of [s] made of whole characters whose encoding fits
    in [n] bytes. *)
Fixpoint fit (n : nat) (s : str) : str :=
  match s with
  | [] => []
  | c :: rest =>
      match encode_char c with
      | Some bs => if (length bs <=? n)%nat then c :: fit (n - length bs) rest else []
      | None => []
      end
  end.

End ByteLimit.

(** ** Further definitions for the checksum utilities *)
Module ChecksumSpec.
Import Checksum.

(** The command line of lines 119 to 124. *)
Definition reencode_argv (file_path temp_path : str) : list str :=
  [lit "ffmpeg"; lit "-i"; file_path; lit "-c:a"; lit "flac";
   lit "-compression_level"; lit "5"; lit "-y"; temp_path].

(** A file without stored checksum whose re-encoded copy carries [0xff]. *)
Definition E_unsigned : env :=
  Env (fun _ => None) (fun _ _ => None)
    (fun p => if bool_decide (p = lit "a.flac") then Ok (Flac 44100 2 16 0)
              else Ok (Flac 44100 2 16 255))
    (fun _ _ => Ok (lit "fLaC"))
    (fun suffix => Ok (lit "/tmp/tmp0" ++ suffix))
    (fun _ => Ok [1; 2; 3; 4])
    (fun _ _ => None).

End ChecksumSpec.

(** ** Hashing and cleaning of names ([utils/utils.py], lines 9 to 13 and 186) *)
Module Names.
Import ByteLimit.

(** [hashlib.md5(input_str.encode("utf-8")).hexdigest()] for the one hash
    type there is. *)
Definition hash_string (input_str hash_type : str) : result str :=
  if bool_decide (hash_type = lit "MD5") then
    data ← encode input_str;
    Ok (Hashlib.hexdigest (Hashlib.update Hashlib.md5 data))
  else Raise (mkException (lit "Invalid hash type selected")).

(** The characters [str.isspace] accepts, which [str.rstrip()] strips. *)
Definition is_whitespace (c : Z) : bool :=
  ((9 <=? c) && (c <=? 13)) || ((28 <=? c) && (c <=? 32)) || (c =? 133) || (c =? 160)
  || (c =? 5760) || ((8192 <=? c) && (c <=? 8202)) || (c =? 8232) || (c =? 8233)
  || (c =? 8239) || (c =? 8287) || (c =? 12288).

(** [s] without the longest suffix made of characters that [strip]
    accepts. *)
Fixpoint rstrip_by (strip : Z -> bool) (s : str) : str :=
  match s with
  | [] => []
  | c :: rest =>
      match rstrip_by strip rest with
      | [] => if strip c then [] else [c]
      | rest' => c :: rest'
      end
  end.

(** [s.rstrip()] *)
Definition rstrip (s : str) : str := rstrip_by is_whitespace s.

(** A character of the class [[ \t]]. *)
Definition blank (c : Z) : bool := (c =? 32) || (c =? 9).

(** [re.sub(r'[ \t]+$', '', s)].  Without [re.MULTILINE], [$] matches at
    the end of the string and before a line feed that ends it; the only
    match there can be is the run of blanks that ends at one of the two. *)
Definition sub_trailing_blanks (s : str) : str :=
  match last s with
  | Some c => if c =? 10 then rstrip_by blank (removelast s) ++ [10] else rstrip_by blank s
  | None => []
  end.

(** The class of the second pattern: backslash, slash, star, question mark,
    double quote, the angle brackets, bar and dollar. *)
Definition forbidden (c : Z) : bool :=
  existsb (Z.eqb c) [92; 47; 42; 63; 34; 60; 62; 124; 36].

(** The second [re.sub]: every such character is deleted. *)
Definition sub_forbidden (s : str) : str := List.filter (fun c => negb (forbidden c)) s.

(** [re.sub(r'[:]', ' - ', s)] *)
Definition sub_colon (s : str) : str :=
  flat_map (fun c => if c =? 58 then lit " - " else [c]) s.

(** The lambda of line 186, for a [name] that is a string. *)
Definition sanitise_name (name : str) : str :=
  if is_empty name then []
  else sub_colon (sub_forbidden (sub_trailing_blanks (rstrip name))).

End Names.

(** ** Downloads into temporary files ([utils/utils.py], lines 313 to 323) *)
Module Temp.
Import Downloader.

(** What a sequence of chunks puts in the file: the chunks before the first
    one that raises. *)
Fixpoint written (chunks : list (result bytes)) : bytes :=
  match chunks with
  | [] => []
  | Ok chunk :: rest => chunk ++ written rest
  | Raise _ :: _ => []
  end.

(** The exception of the first chunk that raises. *)
Fixpoint first_error (chunks : list (result bytes)) : option exn :=
  match chunks with
  | [] => None
  | Ok _ :: rest => first_error rest
  | Raise e :: _ => Some e
  end.

(** What lines 236 to 248 make of a downloaded file. *)
Definition resized (E : env) (artwork_settings : option artwork) (data : bytes)
  : result bytes :=
  match artwork_settings with
  | Some a =>
      if should_resize a
      then image_resize E data (new_resolution a) (new_format a) (new_compression a)
      else Ok data
  | None => Ok data
  end.

(** [bytes.hex()] *)
Definition bytes_hex (bs : bytes) : str := flat_map Hashlib.hex_byte bs.

(** [f'temp/{os.urandom(16).hex()}'], for the bytes [os.urandom] gave. *)
Definition create_temp_filename (random : bytes) : str := lit "temp/" ++ bytes_hex random.

(** [open(location, 'wb').write(input)] writes once, an empty input
    too. *)
Definition save_to_temp (E : env) (random : bytes) (input : bytes) : M str :=
  let location := create_temp_filename random in
  open_wb E location;;
  f_write E location 0 input;;
  mret location.

Definition download_to_temp (E : env) (random : bytes) (url : str)
    (headers : list (str * str)) (extension : str) (enable_progress_bar : bool)
    (indent_level : Z) : M str :=
  let location :=
    create_temp_filename random
    ++ (if ByteLimit.is_empty extension then [] else [46] ++ extension) in
  download_file E url location headers enable_progress_bar indent_level None;;
  mret location.

(** A server that sends three chunks, one of them empty. *)
Definition E_served : env :=
  Env (fun _ _ => Ok (Response (Some (Ok 3)) [Ok [1; 2]; Ok []; Ok [3]]))
    (fun _ => None) (fun _ _ => None) (Ok 80) false
    (fun content _ _ _ => Ok content) (fun _ => None) (fun _ _ => None).

(** A connection that breaks after two chunks: the exceptions of [requests]
    derive from [IOError]. *)
Definition connection_reset : exn := Exn OSError 0 (lit "Connection reset by peer").

Definition E_broken_pipe : env :=
  Env (fun _ _ => Ok (Response None [Ok [1; 2]; Ok [3]; Raise connection_reset; Ok [4]]))
    (fun _ => None) (fun _ _ => None) (Ok 80) false
    (fun content _ _ _ => Ok content) (fun _ => None) (fun _ _ => None).

End Temp.

(** ** Reading a session *)
Module SettingsSpec.
Import Settings.

(** What lines 283 to 291 return for a session that is a dictionary. *)
Definition read_session (session : list (key * value)) (root_setting setting : key)
  : result value :=
  if truthy (VDict session) && key_truthy root_setting then
    match dict_get root_setting session with
    | Some root =>
        if key_truthy setting then
          has_setting ← contains root setting;
          if has_setting : bool then getitem root setting else Ok VNone
        else Ok root
    | None => Ok VNone
    end
  else if key_truthy root_setting && negb (truthy (VDict session)) then
    Raise no_temporary_settings
  else Ok (VDict session).

(** [{'modules': {'qobuz': {'sessions': {'default': {}}, 'selected':
    'default'}}}]: a module whose selected session is still empty. *)
Definition blob_fresh : value :=
  VDict [(k_modules, VDict [(KStr (lit "qobuz"), VDict
    [(k_sessions, VDict [(KStr (lit "default"), VDict [])]);
     (k_selected, VStr (lit "default"))])])].

Definition disk_fresh : gmap str value := {[ lit "settings.bin" := blob_fresh ]}.

End SettingsSpec.

(** ** The script around the tag inspector ([check_md5_tags.py], lines 87
    to 121) *)
Module TagScript.
Import TagInspector.

(** What the script asks of the file system besides [isfile]: whether a
    path is a directory, the pairs of a directory and its file names that
    [os.walk] yields below a path, and the lower-case form of a character
    outside ASCII. *)
Record host := Host {
  is_dir : str -> bool;
  walk : str -> list (str * list str);
  lower_other : Z -> str
}.

(** [s.lower()] *)
Definition lower (H : host) (s : str) : str :=
  flat_map (fun c => if (65 <=? c) && (c <=? 90) then [c + 32]
                     else if c <? 128 then [c] else lower_other H c) s.

(** [s.endswith(suffix)] *)
Definition endswith (s suffix : str) : bool := is_prefix (rev suffix) (rev s).

Definition audio_extensions : list str :=
  [lit ".flac"; lit ".mp3"; lit ".m4a"; lit ".ogg"; lit ".opus"; lit ".wav"].

(** [any(file.lower().endswith(ext) for ext in audio_extensions)] *)
Definition is_audio (H : host) (file : str) : bool :=
  existsb (endswith (lower H file)) audio_extensions.

(** [if check_md5_tag(path):] takes [True] only. *)
Definition is_true (found : option bool) : bool :=
  match found with
  | Some true => true
  | _ => false
  end.

(** The three statements both branches share; [counts] is [files_checked]
    and [files_with_md5]. *)
Definition check_one (E : env) (path : str) (counts : Z * Z) : M (Z * Z) :=
  found ← check_md5_tag E path;
  let files_with_md5 := if is_true found then counts.2 + 1 else counts.2 in
  let files_checked := counts.1 + 1 in
  say E (repeat 45 60);;
  mret (files_checked, files_with_md5).

(** [for file in files: ...] *)
Fixpoint check_files (E : env) (H : host) (root : str) (files : list str)
    (counts : Z * Z) : M (Z * Z) :=
  match files with
  | [] => mret counts
  | file :: rest =>
      if is_audio H file then
        counts' ← check_one E (ByteLimit.path_join root file) counts;
        check_files E H root rest counts'
      else check_files E H root rest counts
  end.

(** [for root, dirs, files in os.walk(file_path): ...] *)
Fixpoint check_tree (E : env) (H : host) (tree : list (str * list str))
    (counts : Z * Z) : M (Z * Z) :=
  match tree with
  | [] => mret counts
  | (root, files) :: rest =>
      counts' ← check_files E H root files counts;
      check_tree E H rest counts'
  end.

(** [for file_path in sys.argv[1:]: ...] *)
Fixpoint check_args (E : env) (H : host) (args : list str) (counts : Z * Z)
  : M (Z * Z) :=
  match args with
  | [] => mret counts
  | file_path :: rest =>
      isfile ← path_exists file_path;
      if isfile : bool then
        counts' ← check_one E file_path counts;
        check_args E H rest counts'
      else if is_dir H file_path then
        counts' ← check_tree E H (walk H file_path) counts;
        check_args E H rest counts'
      else
        say E (lit "File or directory not found: " ++ file_path);;
        check_args E H rest counts
  end.

Definition usage : list str :=
  [lit "Usage: python check_md5_tags.py <audio_file> [audio_file2] ...";
   [10] ++ lit "Example:";
   lit "  python check_md5_tags.py downloads/Chronology\ Vol.2\ \(40\ -\ 1985-2025\)/01.\ V.W.flac"].

(** The four lines of the summary, first to last. *)
Definition summary (files_checked files_with_md5 : Z) : list str :=
  [[10] ++ lit "Summary:";
   lit "Files checked: " ++ str_of_int files_checked;
   lit "Files with MD5 tags: " ++ str_of_int files_with_md5;
   lit "Files without MD5 tags: " ++ str_of_int (files_checked - files_with_md5)].

Fixpoint say_all (E : env) (lines : list str) : M unit :=
  match lines with
  | [] => mret tt
  | line :: rest => say E line;; say_all E rest
  end.

Definition main (E : env) (H : host) (argv : list str) : M unit :=
  if (length argv <? 2)%nat then say_all E usage
  else
    counts ← check_args E H (drop 1 argv) (0, 0);
    say_all E (summary counts.1 counts.2).

(** The paths the loops hand to [check_md5_tag], in order, on a disk
    [disk]. *)
Definition targets (H : host) (disk : gmap str bytes) (args : list str) : list str :=
  flat_map
    (fun file_path =>
       if bool_decide (is_Some (disk !! file_path)) then [file_path]
       else if is_dir H file_path then
         flat_map
           (fun '(root, files) =>
              map (ByteLimit.path_join root) (List.filter (is_audio H) files))
           (walk H file_path)
       else [])
    args.

(** Whether [check_md5_tag] returns [True] for a path on a disk [disk]. *)
Definition counted (E : env) (disk : gmap str bytes) (path : str) : bool :=
  match (check_md5_tag E path (World disk [] [])).1 with
  | Ok found => is_true found
  | Raise _ => false
  end.

(** A computation whose outcome depends on the disk alone, not on what was
    printed or called before. *)
Definition reads_disk_only {A} (m : M A) : Prop :=
  forall w1 w2, fs w1 = fs w2 -> (m w1).1 = (m w2).1.

(** A machine without directories. *)
Definition H_flat : host := Host (fun _ => false) (fun _ => []) (fun c => [c]).

(** A machine with one directory, [music], that holds three files. *)
Definition H_music : host :=
  Host (fun p => bool_decide (p = lit "music"))
    (fun p => if bool_decide (p = lit "music")
              then [(lit "music", [lit "song.FLAC"; lit "cover.jpg"; lit "b.mp3"])]
              else [])
    (fun c => [c]).

(** The number of paths among [paths] for which [check_md5_tag] returns
    [True]. *)
Definition tally (E : env) (disk : gmap str bytes) (paths : list str) : Z :=
  Z.of_nat (length (List.filter (counted E disk) paths)).

(** Whether mutagen finds an MD5 tag or checksum in the file at a path. *)
Definition tagged (E : env) (path : str) : bool :=
  match File E path with
  | Ok (Some a) =>
      match md5_present a with
      | Ok found => found
      | Raise _ => false
      end
  | _ => false
  end.

(** An exception that a print raised. *)
Definition from_print (E : env) (e : exn) : Prop :=
  exists out line, print_fault E out line = Some e.

(** A loop that hands the paths [paths disk] to [check_md5_tag] and counts:
    it only prints, and an [Exception] leaves it only when a print raised
    it; when it returns, the first count has grown by the number of paths
    and the second by no more than the number of those that carry an MD5
    tag or checksum, and, on a console that prints, by the number of those
    for which [check_md5_tag] returned [True]. *)
Definition counts_paths (E : env) (loop : Z * Z -> M (Z * Z))
    (paths : gmap str bytes -> list str) : Prop :=
  forall (counts : Z * Z) (w : world),
    exists r w',
      loop counts w = (r, w')
      /\ fs w' = fs w /\ calls w' = calls w
      /\ (forall e, r = Raise e -> is_Exception e = true -> from_print E e)
      /\ (forall counts', r = Ok counts' ->
          counts'.1 = counts.1 + Z.of_nat (length (paths (fs w)))
          /\ counts.2 <= counts'.2
               <= counts.2 + Z.of_nat (length (List.filter (tagged E) (paths (fs w))))
          /\ (console_ok E -> counts'.2 = counts.2 + tally E (fs w) (paths (fs w)))).

(** The audio files of a tree that [os.walk] yields, with their
    directories. *)
Definition walked (H : host) (tree : list (str * list str)) : list str :=
  flat_map
    (fun '(root, files) => map (ByteLimit.path_join root) (List.filter (is_audio H) files))
    tree.

End TagScript.

(* ===================================================================== *)
(** * Properties *)
(* ===================================================================== *)

(** ** The library models behave as Python does on known values *)

Example md5_empty : Hashlib.md5_hex [] = lit "d41d8cd98f00b204e9800998ecf8427e".
Proof. vm_compute. reflexivity. Qed.

Example md5_abc : Hashlib.md5_hex (lit "abc") = lit "900150983cd24fb0d6963f7d28e17f72".
Proof. vm_compute. reflexivity. Qed.

Example md5_two_blocks :
  Hashlib.md5_hex (repeat 97 70) = lit "0f5c6c4e740bfcc08c3c26ccb2673d46".
Proof. vm_compute. reflexivity. Qed.

Example str_of_int_250 : str_of_int 250 = lit "250".
Proof. reflexivity. Qed.

Example format_032x_small : format_032x 255 = lit "000000000000000000000000000000ff".
Proof. reflexivity. Qed.

(** ** Hexadecimal strings *)
Module PyFacts.

Lemma hex_value_digit (d : Z) : 0 <= d < 16 -> hex_value (hex_digit d) = Some d.
Proof.
  intros Hd. unfold hex_value, hex_digit.
  destruct (Z.ltb_spec d 10);
    repeat match goal with
    | |- context [?a <=? ?b] => destruct (Z.leb_spec a b); cbn [andb]
    end; try lia; f_equal; lia.
Qed.

Lemma hex_char_digit (d : Z) : 0 <= d < 16 -> hex_char (hex_digit d).
Proof.
  intros Hd. split; [| exists d; apply hex_value_digit; exact Hd].
  unfold is_space, hex_digit.
  destruct (Z.ltb_spec d 10);
    repeat match goal with
    | |- context [?a <=? ?b] => destruct (Z.leb_spec a b); cbn [andb orb]
    | |- context [?a =? ?b] => destruct (Z.eqb_spec a b); cbn [andb orb]
    end; try lia; reflexivity.
Qed.

Lemma digit_of_hex_digit (d : Z) : 0 <= d < 16 -> digit_of (hex_digit d) = d.
Proof. intros Hd. unfold digit_of. rewrite hex_value_digit by exact Hd. reflexivity. Qed.

Lemma hex_number_snoc (s : str) (c : Z) :
  hex_number (s ++ [c]) = 16 * hex_number s + digit_of c.
Proof. unfold hex_number. rewrite fold_left_app. reflexivity. Qed.

Lemma hex_digits_length (fuel k : nat) :
  forall z, z < 16 ^ Z.of_nat k -> (length (hex_digits fuel z) <= k)%nat.
Proof.
  revert k. induction fuel as [| fuel IH]; intros k z Hz; cbn [hex_digits].
  - cbn. lia.
  - destruct (Z.leb_spec z 0) as [Hle | Hpos]; [cbn; lia |].
    destruct k as [| k]; [cbn in Hz; lia |].
    rewrite length_app. cbn [length].
    assert (z / 16 < 16 ^ Z.of_nat k).
    { apply Z.div_lt_upper_bound; [lia |].
      rewrite Nat2Z.inj_succ, Z.pow_succ_r in Hz by lia. exact Hz. }
    specialize (IH k (z / 16)). lia.
Qed.

Lemma hex_digits_chars (fuel : nat) :
  forall z, Forall hex_char (hex_digits fuel z).
Proof.
  induction fuel as [| fuel IH]; intros z; cbn [hex_digits]; [constructor |].
  destruct (z <=? 0); [constructor |].
  apply Forall_app. split; [apply IH |].
  constructor; [| constructor]. apply hex_char_digit. apply Z.mod_pos_bound. lia.
Qed.

Lemma hex_number_digits (fuel : nat) :
  forall z, 0 <= z < 16 ^ Z.of_nat fuel -> hex_number (hex_digits fuel z) = z.
Proof.
  induction fuel as [| fuel IH]; intros z Hz; cbn [hex_digits].
  - cbn in Hz. cbn. lia.
  - destruct (Z.leb_spec z 0) as [Hle | Hpos]; [cbn; lia |].
    rewrite hex_number_snoc, digit_of_hex_digit by (apply Z.mod_pos_bound; lia).
    rewrite IH.
    + pose proof (Z.div_mod z 16). lia.
    + split; [apply Z.div_pos; lia |].
      apply Z.div_lt_upper_bound; [lia |].
      rewrite Nat2Z.inj_succ, Z.pow_succ_r in Hz by lia. lia.
Qed.

Lemma hex_fuel_enough (z : Z) : 0 < z -> z < 16 ^ Z.of_nat (S (Z.to_nat (Z.log2 z))).
Proof.
  intros Hz. pose proof (Z.log2_nonneg z) as Hlog.
  destruct (Z.log2_spec z Hz) as [_ Hup].
  rewrite Nat2Z.inj_succ, Z2Nat.id by exact Hlog.
  eapply Z.lt_le_trans; [exact Hup |].
  apply Z.pow_le_mono_l. lia.
Qed.

Lemma hex_number_hex (z : Z) : 0 <= z -> hex_number (hex z) = z.
Proof.
  intros Hz. unfold hex. destruct (Z.leb_spec z 0); [cbn; lia |].
  apply hex_number_digits. split; [lia | apply hex_fuel_enough; lia].
Qed.

Lemma hex_chars (z : Z) : Forall hex_char (hex z).
Proof.
  unfold hex. destruct (z <=? 0); [| apply hex_digits_chars].
  constructor; [| constructor]. apply (hex_char_digit 0). lia.
Qed.

Lemma hex_length (z : Z) (k : nat) :
  (0 < k)%nat -> z < 16 ^ Z.of_nat k -> (length (hex z) <= k)%nat.
Proof.
  intros Hk Hz. unfold hex. destruct (z <=? 0); [cbn; lia |].
  apply hex_digits_length. exact Hz.
Qed.

Lemma zfill_length (width : nat) (s : str) :
  (length s <= width)%nat -> length (zfill width s) = width.
Proof. intros Hs. unfold zfill. rewrite length_app, repeat_length. lia. Qed.

Lemma zfill_chars (width : nat) (s : str) : Forall hex_char s -> Forall hex_char (zfill width s).
Proof.
  intros Hs. unfold zfill. apply Forall_app. split; [| exact Hs].
  apply Forall_forall. intros c Hc. apply list_elem_of_In, repeat_spec in Hc. subst c.
  apply (hex_char_digit 0). lia.
Qed.

Lemma hex_number_zfill (width : nat) (s : str) : hex_number (zfill width s) = hex_number s.
Proof.
  unfold zfill, hex_number. rewrite fold_left_app. f_equal.
  induction (width - length s)%nat as [| n IH]; [reflexivity | exact IH].
Qed.

(** Thirty-two digits for a 128-bit number. *)
Lemma format_032x_length (z : Z) : 0 <= z < 2 ^ 128 -> length (format_032x z) = 32%nat.
Proof.
  intros Hz. unfold format_032x. destruct (Z.ltb_spec z 0); [lia |].
  apply zfill_length. apply hex_length; [lia |]. change (16 ^ Z.of_nat 32) with (2 ^ 128). lia.
Qed.

Lemma fromhex_pairs (n : nat) :
  forall s, length s = (2 * n)%nat -> Forall hex_char s ->
  exists bs, fromhex s = Ok bs
    /\ forall acc, fold_left (fun a b => 256 * a + b) bs acc
                   = fold_left (fun a c => 16 * a + digit_of c) s acc.
Proof.
  induction n as [| n IH]; intros s Hlen Hs.
  - destruct s; [| discriminate]. exists []. split; [reflexivity | reflexivity].
  - destruct s as [| c [| d s2]]; try (cbn in Hlen; lia).
    inversion Hs as [| ? ? [Hc_space [hi Hc]] Hs1]; subst.
    inversion Hs1 as [| ? ? [_ [lo Hd]] Hs2]; subst.
    destruct (IH s2) as (bs & Hbs & Hfold); [cbn in Hlen; lia | exact Hs2 |].
    exists (16 * hi + lo :: bs). cbn [fromhex]. rewrite Hc_space, Hc, Hd, Hbs.
    split; [reflexivity |]. intros acc. cbn [fold_left]. rewrite Hfold.
    unfold digit_of. rewrite Hc, Hd. f_equal. lia.
Qed.

(** What [f"{z:032x}"] writes, [bytes.fromhex] and [int.from_bytes] read
    back. *)
Lemma format_032x_read_back (z : Z) :
  0 <= z < 2 ^ 128 ->
  exists bs, fromhex (format_032x z) = Ok bs /\ int_from_bytes_big bs = z.
Proof.
  intros Hz.
  destruct (fromhex_pairs 16 (format_032x z)) as (bs & Hbs & Hfold).
  - rewrite format_032x_length by exact Hz. reflexivity.
  - unfold format_032x. destruct (Z.ltb_spec z 0); [lia |]. apply zfill_chars, hex_chars.
  - exists bs. split; [exact Hbs |]. unfold int_from_bytes_big. rewrite Hfold.
    change (fold_left _ (format_032x z) 0) with (hex_number (format_032x z)).
    unfold format_032x. destruct (Z.ltb_spec z 0); [lia |].
    rewrite hex_number_zfill. apply hex_number_hex. lia.
Qed.

End PyFacts.

(** ** Checksum utilities *)
Module ChecksumFacts.
Import Checksum PyFacts.

Ltac run :=
  unfold hash_file, f_read, open_rb, FLAC, save, NamedTemporaryFile, subprocess_run,
    os_unlink, path_exists, sleep, emit, print, set_fs, raise, try_except, try_finally,
    mbind, M_bind, mret, M_ret in *.

Lemma take_nil_inv {A} (n : nat) (l : list A) : (0 < n)%nat -> take n l = [] -> l = [].
Proof. destruct n; [lia |]. destruct l; [reflexivity | discriminate]. Qed.

Lemma reads_step (len : nat) :
  (0 < len)%nat -> reads len = S (reads (len - Nat.min (Z.to_nat 4096) len)).
Proof.
  intros Hn. unfold reads.
  rewrite <- Z2Nat.inj_succ by (apply Z.add_nonneg_nonneg; [lia | apply Z.div_pos; lia]).
  f_equal.
  assert (Hc : Z.of_nat (Z.to_nat 4096) = 4096) by lia.
  set (n := Z.to_nat 4096) in *. clearbody n.
  destruct (le_lt_dec n len).
  - rewrite Nat.min_l by lia.
    replace (Z.of_nat len + 4095) with (Z.of_nat (len - n) + 4095 + 1 * 4096) by lia.
    rewrite Z.div_add by lia. lia.
  - rewrite Nat.min_r by lia. replace (len - len)%nat with 0%nat by lia.
    change ((Z.of_nat 0 + 4095) / 4096) with 0.
    assert ((Z.of_nat len + 4095) / 4096 = 1); [| lia].
    symmetry. apply Z.div_unique with (r := Z.of_nat len - 1); lia.
Qed.

Lemma repeat_snoc_cons {A} (x : A) (n : nat) (l : list A) :
  repeat x n ++ x :: l = x :: repeat x n ++ l.
Proof. induction n as [| n IH]; [reflexivity |]. cbn [repeat app]. rewrite IH. reflexivity. Qed.

Lemma take_drop_min {A} (n : nat) (l : list A) :
  take n l ++ drop (Nat.min n (length l)) l = l.
Proof.
  destruct (le_lt_dec n (length l)).
  - rewrite Nat.min_l by lia. apply take_drop.
  - rewrite Nat.min_r by lia. rewrite take_ge by lia. rewrite drop_all. apply app_nil_r.
Qed.

Lemma hash_chunks_ok (E : env) (path : str) (content : bytes) :
  (forall k, read_fault E path k = None) ->
  forall fuel pos k h w,
    (length (drop pos content) < fuel)%nat ->
    hash_chunks fuel E path content pos k h w =
      (Ok (Hashlib.Md5 (Hashlib.fed h ++ drop pos content)),
       World (fs w) (stdout w)
         (repeat (EvRead path 4096) (reads (length (drop pos content))) ++ calls w)).
Proof.
  intros Hnf. induction fuel as [| fuel IH]; intros pos k h w Hlen; [lia |].
  cbn [hash_chunks]. run. rewrite Hnf. cbn beta iota.
  assert (Hn : (0 < Z.to_nat 4096)%nat) by lia.
  set (n := Z.to_nat 4096) in *.
  destruct (take n (drop pos content)) as [| b chunk] eqn:Hchunk.
  - apply take_nil_inv in Hchunk; [| exact Hn]. rewrite Hchunk.
    rewrite app_nil_r. destruct h; reflexivity.
  - assert (Hpos : (0 < length (drop pos content))%nat).
    { destruct (drop pos content); [rewrite take_nil in Hchunk; discriminate | simpl; lia]. }
    assert (Hd : drop (pos + length (b :: chunk)) content
                 = drop (Nat.min n (length (drop pos content))) (drop pos content)).
    { rewrite drop_drop, <- Hchunk, length_take. reflexivity. }
    rewrite IH; rewrite Hd; [| rewrite length_drop; lia].
    cbn [fs stdout calls Hashlib.update Hashlib.fed].
    set (rest := drop pos content) in *.
    rewrite (reads_step (length rest) Hpos). fold n.
    rewrite length_drop, <- Hchunk, <- app_assoc, take_drop_min.
    rewrite repeat_snoc_cons. reflexivity.
Qed.

Lemma hash_chunks_fault (E : env) (path : str) (content : bytes) (k : nat) (e : exn) :
  (forall j, (j < k)%nat -> read_fault E path j = None) ->
  read_fault E path k = Some e ->
  forall fuel pos k0 h w,
    (k0 <= k)%nat ->
    (k - k0 < reads (length (drop pos content)))%nat ->
    (length (drop pos content) < fuel)%nat ->
    hash_chunks fuel E path content pos k0 h w =
      (Raise e,
       World (fs w) (stdout w) (repeat (EvRead path 4096) (S (k - k0)) ++ calls w)).
Proof.
  intros Hbefore Hat. induction fuel as [| fuel IH]; intros pos k0 h w Hk Hreach Hlen; [lia |].
  cbn [hash_chunks]. run.
  destruct (decide (k0 = k)) as [-> | Hne].
  - rewrite Hat. replace (k - k)%nat with 0%nat by lia. reflexivity.
  - rewrite Hbefore by lia. cbn beta iota.
    assert (Hn : (0 < Z.to_nat 4096)%nat) by lia.
    set (n := Z.to_nat 4096) in *.
    set (rest := drop pos content) in *.
    destruct (take n rest) as [| b chunk] eqn:Hchunk.
    + apply take_nil_inv in Hchunk; [| exact Hn]. rewrite Hchunk in Hreach.
      change (reads (length [])) with 1%nat in Hreach. lia.
    + assert (Hpos : (0 < length rest)%nat).
      { destruct rest; [rewrite take_nil in Hchunk; discriminate | simpl; lia]. }
      assert (Hd : drop (pos + length (b :: chunk)) content
                   = drop (Nat.min n (length rest)) rest).
      { unfold rest. rewrite drop_drop, <- Hchunk, length_take. reflexivity. }
      rewrite (reads_step (length rest) Hpos) in Hreach. fold n in Hreach.
      rewrite IH; rewrite ?Hd, ?length_drop; [| lia | lia | lia].
      cbn [fs stdout calls].
      replace (S (k - k0)) with (S (S (k - S k0))) by lia.
      rewrite repeat_snoc_cons. reflexivity.
Qed.

Lemma md5_hex_length (msg : bytes) : length (Hashlib.md5_hex msg) = 32%nat.
Proof.
  unfold Hashlib.md5_hex, Hashlib.digest.
  destruct (Hashlib.blocks _ _ _). reflexivity.
Qed.

Lemma hash_file_ok (E : env) (path : str) (w : world) (content : bytes) :
  fs w !! path = Some content ->
  open_fault E path = None ->
  (forall k, read_fault E path k = None) ->
  hash_file E path w =
    (Ok (Hashlib.Md5 content),
     World (fs w) (stdout w) (repeat (EvRead path 4096) (reads (length content)) ++ calls w)).
Proof.
  intros Hfile Hopen Hread. unfold hash_file, open_rb, mbind, M_bind.
  rewrite Hfile, Hopen. rewrite hash_chunks_ok by (assumption || (rewrite drop_0; lia)).
  rewrite drop_0. reflexivity.
Qed.

Lemma hash_file_fault (E : env) (path : str) (w : world) (e : exn) :
  io_error E path (fs w !! path) e ->
  exists evs, hash_file E path w = (Raise e, World (fs w) (stdout w) (evs ++ calls w))
    /\ Forall (fun ev => ev = EvRead path 4096) evs.
Proof.
  intros Herr. unfold hash_file, open_rb, mbind, M_bind.
  destruct Herr as [Hfile | content e Hfile Hopen | content k e Hfile Hopen Hbefore Hat Hreach].
  - rewrite Hfile. exists []. destruct w; split; [reflexivity | constructor].
  - rewrite Hfile, Hopen. exists []. destruct w; split; [reflexivity | constructor].
  - rewrite Hfile, Hopen.
    rewrite (hash_chunks_fault E path content k e Hbefore Hat);
      rewrite ?drop_0; [| lia | lia | lia].
    eexists. split; [reflexivity |]. apply Forall_forall. intros ev Hin.
    apply list_elem_of_In, repeat_spec in Hin. exact Hin.
Qed.

(** C7. [calculate_file_md5] reads a readable file by requests of 4096 bytes
    and returns the MD5 digest of its whole content as 32 hexadecimal
    characters, leaving the disk as it was; when the file is missing, cannot
    be opened or a read fails with an [OSError], it raises an [Exception]
    whose message names the file and carries the text of the error. *)
Theorem calculate_file_md5_spec (E : env) (file_path : str) (w : world) :
  (forall content,
     fs w !! file_path = Some content ->
     open_fault E file_path = None ->
     (forall k, read_fault E file_path k = None) ->
     calculate_file_md5 E file_path w =
       (Ok (Hashlib.md5_hex content),
        World (fs w) (stdout w)
          (repeat (EvRead file_path 4096) (reads (length content)) ++ calls w))
     /\ length (Hashlib.md5_hex content) = 32%nat)
  /\ (forall e,
       io_error E file_path (fs w !! file_path) e ->
       is_OSError e = true ->
       exists w',
         calculate_file_md5 E file_path w =
           (Raise (mkException
              (lit "Error calculating MD5 hash for " ++ file_path ++ lit ": " ++ exn_str e)),
            w')
         /\ fs w' = fs w).
Proof.
  split.
  - intros content Hfile Hopen Hread. split; [| apply md5_hex_length].
    unfold calculate_file_md5, try_except, mbind, M_bind at 1.
    rewrite (hash_file_ok E file_path w content Hfile Hopen Hread). reflexivity.
  - intros e Herr Hos.
    destruct (hash_file_fault E file_path w e Herr) as (evs & Hrun & _).
    unfold calculate_file_md5, try_except, mbind, M_bind at 1.
    rewrite Hrun, Hos. eexists. split; reflexivity.
Qed.

Lemma calculate_file_md5_spec_witness :
  calculate_file_md5 E_quiet (lit "a.flac") w_one =
    (Ok (lit "b9352a6d56387967644df531f187bd44"),
     World (fs w_one) [] [EvRead (lit "a.flac") 4096; EvRead (lit "a.flac") 4096])
  /\ exists w',
       calculate_file_md5 E_quiet (lit "b.flac") w_one =
         (Raise (mkException
            (lit "Error calculating MD5 hash for b.flac: [Errno 2] No such file or directory")),
          w')
       /\ fs w' = fs w_one.
Proof.
  split.
  - apply (proj1 (calculate_file_md5_spec E_quiet (lit "a.flac") w_one) (lit "fLaC"));
      [reflexivity | reflexivity | intros k; reflexivity].
  - apply (proj2 (calculate_file_md5_spec E_quiet (lit "b.flac") w_one) no_such_file);
      [apply io_missing; reflexivity | reflexivity].
Defined.

Lemma hash_chunks_frame (E : env) (path : str) (content : bytes) :
  forall fuel pos k h w,
  exists r evs,
    hash_chunks fuel E path content pos k h w
      = (r, World (fs w) (stdout w) (evs ++ calls w))
    /\ Forall (fun ev => ev = EvRead path 4096) evs.
Proof.
  induction fuel as [| fuel IH]; intros pos k h w.
  - exists (Ok h), []. destruct w. split; [reflexivity | constructor].
  - cbn [hash_chunks]. run.
    destruct (read_fault E path k) as [e |].
    + exists (Raise e), [EvRead path 4096]. split; [reflexivity | repeat constructor].
    + cbn beta iota. destruct (take _ _) as [| b chunk].
      * exists (Ok h), [EvRead path 4096]. split; [reflexivity | repeat constructor].
      * edestruct IH as (r & evs & Hrun & Hevs). rewrite Hrun.
        exists r, (evs ++ [EvRead path 4096]). cbn [fs stdout calls].
        rewrite <- app_assoc. split; [reflexivity |].
        apply Forall_app. split; [exact Hevs | repeat constructor].
Qed.

Lemma hash_file_frame (E : env) (path : str) (w : world) :
  exists r evs,
    hash_file E path w = (r, World (fs w) (stdout w) (evs ++ calls w))
    /\ Forall (fun ev => ev = EvRead path 4096) evs.
Proof.
  unfold hash_file, open_rb, mbind, M_bind.
  destruct (fs w !! path) as [content |].
  - destruct (open_fault E path) as [e |].
    + exists (Raise e), []. destruct w. split; [reflexivity | constructor].
    + apply hash_chunks_frame.
  - exists (Raise no_such_file), []. destruct w. split; [reflexivity | constructor].
Qed.

Ltac case_locks :=
  repeat match goal with
  | |- context [match unlink_fault ?E ?t ?i with _ => _ end] =>
      let e := fresh "e" in let He := fresh "He" in
      destruct (unlink_fault E t i) as [e |] eqn:He
  | |- context [if is_PermissionError ?e then _ else _] =>
      let Hp := fresh "Hp" in destruct (is_PermissionError e) eqn:Hp
  end; cbn beta iota.

Ltac use_locks :=
  repeat match goal with
  | H : forall j, (j < ?i)%nat -> locked _ _ j |- _ =>
      lazymatch i with
      | S (S _) =>
          destruct (H 0%nat ltac:(lia)) as (? & ? & ?);
          destruct (H 1%nat ltac:(lia)) as (? & ? & ?); clear H
      | S _ =>
          destruct (H 0%nat ltac:(lia)) as (? & ? & ?); clear H
      | _ => clear H
      end
  end.

Ltac prove_locks :=
  let j := fresh "j" in let Hj := fresh "Hj" in
  intros j Hj; destruct j as [| [| j]]; try lia; eexists; split; eassumption.

Ltac three_cases i := destruct i as [| [| [| i]]]; try lia; use_locks; try congruence.

Ltac events_since cs c :=
  lazymatch cs with
  | c => constr:(@nil event)
  | ?x :: ?cs' => let p := events_since cs' c in constr:(x :: p)
  end.

(** What the cleanup loop does to a world. *)
Lemma remove_with_retries_spec (E : env) (t : str) (w : world) :
  exists r fs' evs,
    remove_with_retries E t range3 w = (r, World fs' (stdout w) (evs ++ calls w))
    /\ (forall p, p <> t -> fs' !! p = fs w !! p)
    /\ Forall (fun ev => ev = EvUnlink t \/ ev = EvSleep) evs
    /\ (length (List.filter is_unlink evs) <= 3)%nat
    /\ (forall i, (i < 3)%nat -> (forall j, (j < i)%nat -> locked E t j) ->
        unlink_fault E t i = None -> fs' !! t = None)
    /\ (fs w !! t = None -> fs' !! t = None)
    /\ (r = Ok tt \/
        exists i e, (i < 3)%nat /\ (forall j, (j < i)%nat -> locked E t j)
          /\ unlink_fault E t i = Some e /\ is_PermissionError e = false /\ r = Raise e)
    /\ (forall i e, (i < 3)%nat -> (forall j, (j < i)%nat -> locked E t j) ->
        unlink_fault E t i = Some e -> is_PermissionError e = false ->
        is_Some (fs w !! t) -> r = Raise e).
Proof.
  unfold range3. cbn [remove_with_retries]. run. destruct w as [f o c].
  cbn [fs stdout calls].
  destruct (f !! t) as [content |] eqn:Hfile.
  - rewrite bool_decide_eq_true_2 by eauto.
    case_locks.
    all: cbn [fs stdout calls]; rewrite ?Hfile, ?bool_decide_eq_true_2 by eauto.
    all: case_locks.
    all: cbn [fs stdout calls]; rewrite ?Hfile, ?bool_decide_eq_true_2 by eauto.
    all: case_locks.
    all: cbn [fs stdout calls].
    all: lazymatch goal with
         | |- exists r fs' evs, (?r0, World ?f0 _ ?cs) = _ /\ _ =>
             let evs0 := events_since cs c in exists r0, f0, evs0
         end.
    all: split; [reflexivity |].
    all: split; [intros p Hne; rewrite ?lookup_delete_ne by congruence; reflexivity |].
    all: split;
      [repeat match goal with
              | |- Forall _ _ => constructor
              | |- _ \/ _ => first [left; reflexivity | right; reflexivity]
              end |].
    all: split; [cbn; lia |].
    all: split; [intros i Hi Hl Hu; three_cases i; apply lookup_delete_eq |].
    all: split; [intros Hnone; congruence |].
    all: split;
      [first
         [ left; reflexivity
         | right; exists 0%nat; eexists; split_and!;
             [lia | prove_locks | eassumption | assumption | reflexivity]
         | right; exists 1%nat; eexists; split_and!;
             [lia | prove_locks | eassumption | assumption | reflexivity]
         | right; exists 2%nat; eexists; split_and!;
             [lia | prove_locks | eassumption | assumption | reflexivity] ] |].
    all: intros i e' Hi Hl Hu Hperm _; three_cases i.
  - rewrite bool_decide_eq_false_2 by (intros [? ?]; congruence).
    exists (Ok tt), f, []. cbn [fs stdout calls app] in *.
    split; [reflexivity |]. split; [reflexivity |]. split; [constructor |].
    split; [cbn; lia |]. split; [intros; assumption |]. split; [intros; assumption |].
    split; [left; reflexivity |].
    intros i e Hi Hl Hu Hp [c' Hc]. congruence.
Qed.

(** The inner [try] block touches the temporary file only, saves nothing,
    and raises on each of its failures. *)
Lemma extract_and_hash_spec (E : env) (file_path : str) (f : flac) (t : str) (w : world) :
  exists r fs' evs,
    extract_and_hash E file_path f t w = (r, World fs' (stdout w) (evs ++ calls w))
    /\ (forall p, p <> t -> fs' !! p = fs w !! p)
    /\ (is_Some (fs w !! t) -> is_Some (fs' !! t))
    /\ Forall quiet evs
    /\ (raw_format (bits_per_sample f) = None -> raised r = true)
    /\ (forall fc e, raw_format (bits_per_sample f) = Some fc ->
        ffmpeg E (raw_argv file_path fc f t) = Raise e -> raised r = true)
    /\ (forall fc raw e, raw_format (bits_per_sample f) = Some fc ->
        ffmpeg E (raw_argv file_path fc f t) = Ok raw ->
        io_error E t (Some raw) e -> raised r = true).
Proof.
  unfold extract_and_hash. destruct w as [f0 o c].
  destruct (raw_format (bits_per_sample f)) as [fc |] eqn:Hfmt.
  - unfold subprocess_run, sleep, emit, set_fs, raise, mbind, M_bind, mret, M_ret.
    cbn [fs stdout calls].
    destruct (ffmpeg E (raw_argv file_path fc f t)) as [raw | e] eqn:Hrun.
    + cbn [fs stdout calls].
      match goal with
      | |- context [hash_file E t ?w1] =>
          destruct (hash_file_frame E t w1) as (r & evs & Hhash & Hevs);
          pose proof (hash_file_fault E t w1) as Hfault
      end.
      rewrite Hhash. cbn [fs stdout calls] in *.
      exists (match r with Ok h => Ok (Hashlib.hexdigest h) | Raise e => Raise e end),
        (<[t:=raw]> f0), (evs ++ [EvSleep; EvRun (raw_argv file_path fc f t)]).
      rewrite <- app_assoc. split; [destruct r; reflexivity |].
      split; [intros p Hne; apply lookup_insert_ne; congruence |].
      split; [intros _; rewrite lookup_insert_eq; eauto |].
      split.
      { apply Forall_app. split.
        - eapply Forall_impl; [exact Hevs |]. intros ev ->. split; reflexivity.
        - repeat constructor. }
      split; [discriminate |].
      split; [intros fc' e Hfc Hc; injection Hfc as <-; congruence |].
      intros fc' raw' e Hfc Heq Hio. injection Hfc as <-.
      assert (raw' = raw) as -> by congruence.
      rewrite lookup_insert_eq in Hfault. destruct (Hfault e Hio) as (evs' & Hrun' & _).
      rewrite Hhash in Hrun'. injection Hrun' as -> _. reflexivity.
    + exists (Raise e), f0, [EvRun (raw_argv file_path fc f t)].
      split; [reflexivity |]. split; [reflexivity |]. split; [tauto |].
      split; [repeat constructor |]. split; [discriminate |].
      split; [reflexivity |].
      intros fc' raw e' Hfc Hc; injection Hfc as <-; congruence.
  - unfold raise, mbind, M_bind. eexists _, f0, []. split; [reflexivity |].
    split; [reflexivity |]. split; [tauto |]. split; [constructor |].
    split; [reflexivity |]. split; intros; discriminate.
Qed.

Lemma quiet_no_unlink (evs : list event) :
  Forall quiet evs -> List.filter is_unlink evs = [].
Proof.
  induction 1 as [| ev evs [_ Hu] _ IH]; [reflexivity |].
  cbn [List.filter]. rewrite Hu. exact IH.
Qed.

Lemma quiet_no_save (evs : list event) :
  Forall quiet evs -> Forall (fun ev => is_save ev = false) evs.
Proof. intros H. eapply Forall_impl; [exact H |]. intros ev [Hs _]. exact Hs. Qed.

Lemma cleanup_no_save (t : str) (evs : list event) :
  Forall (fun ev => ev = EvUnlink t \/ ev = EvSleep) evs ->
  Forall (fun ev => is_save ev = false) evs.
Proof. intros H. eapply Forall_impl; [exact H |]. intros ev [-> | ->]; reflexivity. Qed.

(** The outcome of the outer handler of [calculate_unencoded_md5]. *)
Lemma wrapped_raise (file_path : str) (e : exn) (w : world) :
  exists e',
    (if is_Exception e then (Raise (unencoded_md5_error file_path e) : result str, w)
     else (Raise e, w)) = (Raise e', w)
    /\ (is_Exception e' = true -> exists cause, e' = unencoded_md5_error file_path cause).
Proof.
  destruct (is_Exception e) eqn:He.
  - exists (unencoded_md5_error file_path e). split; [reflexivity | eauto].
  - exists e. split; [reflexivity | congruence].
Qed.

(** C1, as the code has it.  Whatever the collaborators do,
    [calculate_unencoded_md5] saves no FLAC file, prints nothing and changes no
    file but its own temporary one; when a step fails it raises, and what it
    raises is, unless the run was interrupted, the [Exception] of line 93
    naming the file.  When a temporary file was made, at most three attempts
    are made to remove it, and it is gone as soon as one of them is not
    refused. *)
Theorem calculate_unencoded_md5_fails_closed (E : env) (file_path : str) (w : world) :
  exists r w' evs,
    calculate_unencoded_md5 E file_path w = (r, w')
    /\ calls w' = evs ++ calls w
    /\ stdout w' = stdout w
    /\ (failure E file_path ->
        exists e, r = Raise e
          /\ (is_Exception e = true ->
              exists cause, e = unencoded_md5_error file_path cause))
    /\ Forall (fun ev => is_save ev = false) evs
    /\ (forall p, mktemp E (lit ".raw") <> Ok p -> fs w' !! p = fs w !! p)
    /\ (length (List.filter is_unlink evs) <= 3)%nat
    /\ (forall f t i,
        flac_load E file_path = Ok f -> mktemp E (lit ".raw") = Ok t ->
        (i < 3)%nat -> (forall j, (j < i)%nat -> locked E t j) ->
        unlink_fault E t i = None ->
        fs w' !! t = None).
Proof.
  unfold calculate_unencoded_md5, try_except, try_finally, FLAC, NamedTemporaryFile.
  unfold emit, set_fs, raise, mbind, M_bind, mret, M_ret.
  destruct w as [f0 o c]. cbn [fs stdout calls].
  destruct (flac_load E file_path) as [f | e0] eqn:Hload.
  - destruct (mktemp E (lit ".raw")) as [t | e1] eqn:Hmk.
    + cbn [fs stdout calls].
      match goal with
      | |- context [extract_and_hash E file_path f t ?w1] =>
          destruct (extract_and_hash_spec E file_path f t w1)
            as (rb & fs2 & evb & Hbody & Hframe_b & Hkeep & Hquiet & Hdepth & Hffmpeg & Hread)
      end.
      rewrite Hbody. cbn [fs stdout calls] in *.
      match goal with
      | |- context [remove_with_retries E t range3 ?w2] =>
          destruct (remove_with_retries_spec E t w2)
            as (rc & fs3 & evc & Hclean & Hframe_c & Hevc & Hcount & Hgone & _ & Hrc & Hother)
      end.
      rewrite Hclean. cbn [fs stdout calls] in *.
      assert (Htemp : is_Some (fs2 !! t)).
      { apply Hkeep. rewrite lookup_insert_eq. eauto. }
      set (evs := evc ++ evb ++ [EvMkTemp t; EvFlacLoad file_path]).
      assert (Hcalls : evc ++ evb ++ EvMkTemp t :: EvFlacLoad file_path :: c = evs ++ c).
      { unfold evs. rewrite <- !app_assoc. reflexivity. }
      assert (Hsave : Forall (fun ev => is_save ev = false) evs).
      { unfold evs. rewrite !Forall_app. split_and!.
        - eapply cleanup_no_save; exact Hevc.
        - apply quiet_no_save; exact Hquiet.
        - repeat constructor. }
      assert (Hunl : (length (List.filter is_unlink evs) <= 3)%nat).
      { unfold evs. rewrite !List.filter_app, (quiet_no_unlink evb Hquiet).
        cbn [List.filter is_unlink app]. rewrite app_nil_r. exact Hcount. }
      assert (Hfs : forall p, Ok t <> Ok p -> fs3 !! p = f0 !! p).
      { intros p Hne. assert (p <> t) by congruence.
        rewrite Hframe_c, Hframe_b by assumption. apply lookup_insert_ne. congruence. }
      assert (Hrm : forall f' t' i, Ok f = Ok f' -> Ok t = Ok t' -> (i < 3)%nat ->
                (forall j, (j < i)%nat -> locked E t' j) -> unlink_fault E t' i = None ->
                fs3 !! t' = None).
      { intros f' t' i _ Ht. injection Ht as <-. apply Hgone. }
      assert (Hfail : failure E file_path -> raised rb = true \/ raised rc = true).
      { intros Hf. destruct Hf as [e Hl | f' e Hl Hm | f' t' Hl Hm Hd | f' t' fc e Hl Hm Hd Hr
          | f' t' fc raw e Hl Hm Hd Hr Hio | f' t' i e Hl Hm Hi Hlk Hu Hp ];
          try congruence;
          assert (f' = f) as -> by congruence; assert (t' = t) as -> by congruence.
        - left. apply Hdepth. exact Hd.
        - left. eapply Hffmpeg; eassumption.
        - left. eapply Hread; eassumption.
        - right. rewrite (Hother i e Hi Hlk Hu Hp Htemp). reflexivity. }
      destruct rc as [[] | ec].
      * destruct rb as [digest | eb].
        -- exists (Ok digest), (World fs3 o (evs ++ c)), evs. rewrite Hcalls.
           split_and!; try done.
           intros Hf. destruct (Hfail Hf); discriminate.
        -- destruct (wrapped_raise file_path eb (World fs3 o (evs ++ c))) as (e' & Hw & He').
           exists (Raise e'), (World fs3 o (evs ++ c)), evs. rewrite Hcalls; cbn beta; rewrite Hw.
           split_and!; try done. intros _. eauto.
      * destruct (wrapped_raise file_path ec (World fs3 o (evs ++ c))) as (e' & Hw & He').
        exists (Raise e'), (World fs3 o (evs ++ c)), evs. rewrite Hcalls; cbn beta; rewrite Hw.
        split_and!; try done. intros _. eauto.
    + destruct (wrapped_raise file_path e1 (World f0 o (EvFlacLoad file_path :: c)))
        as (e' & Hw & He').
      exists (Raise e'), (World f0 o (EvFlacLoad file_path :: c)), [EvFlacLoad file_path].
      cbn beta. rewrite Hw. split_and!; try done.
      * intros _. eauto.
      * repeat constructor.
      * cbn; lia.
  - destruct (wrapped_raise file_path e0 (World f0 o (EvFlacLoad file_path :: c)))
      as (e' & Hw & He').
    exists (Raise e'), (World f0 o (EvFlacLoad file_path :: c)), [EvFlacLoad file_path].
    cbn beta. rewrite Hw. split_and!; try done.
    * intros _. eauto.
    * repeat constructor.
    * cbn; lia.
Qed.

Lemma calculate_unencoded_md5_fails_closed_witness :
  failure E_8bit (lit "a.flac")
  /\ exists e w',
       calculate_unencoded_md5 E_8bit (lit "a.flac") w_one = (Raise e, w')
       /\ fs w' !! lit "/tmp/tmp0.raw" = None.
Proof.
  assert (Hfail : failure E_8bit (lit "a.flac")) by (eapply fail_depth; reflexivity).
  split; [exact Hfail |].
  destruct (calculate_unencoded_md5_fails_closed E_8bit (lit "a.flac") w_one)
    as (r & w' & evs & Hrun & _ & _ & Hraise & _ & _ & _ & Hgone).
  destruct (Hraise Hfail) as (e & -> & _).
  exists e, w'. split; [exact Hrun |].
  apply (Hgone (Flac 44100 2 8 0) (lit "/tmp/tmp0.raw") 0%nat);
    [reflexivity | reflexivity | lia | intros j Hj; lia | reflexivity].
Defined.

(** C1, as stated, fails: an 8-bit file makes the function raise, and with
    the temporary file locked all three attempts to remove it are refused,
    so the file is still on the disk when the exception leaves. *)
Lemma calculate_unencoded_md5_leaves_locked_temp :
  failure E_locked (lit "a.flac")
  /\ (let '(r, w') := calculate_unencoded_md5 E_locked (lit "a.flac") w_one in
      raised r = true
      /\ length (List.filter is_unlink (calls w')) = 3%nat
      /\ fs w' !! lit "/tmp/tmp0.raw" = Some []).
Proof.
  split.
  - eapply fail_depth; reflexivity.
  - vm_compute. repeat split.
Qed.

(** C2. A checksum string whose length is not 32 is never written:
    [set_flac_md5_signature] does not return [True] (it returns [False],
    unless loading the file was interrupted), the disk is as before, and the
    only call made is the one that loads the file: nothing is saved. *)
Theorem set_flac_md5_signature_rejects_length
    (E : env) (file_path md5_hash : str) (w : world) :
  length md5_hash <> 32%nat ->
  exists r w',
    set_flac_md5_signature E file_path md5_hash w = (r, w')
    /\ r <> Ok true
    /\ ((forall e, flac_load E file_path = Raise e -> is_Exception e = true) -> r = Ok false)
    /\ fs w' = fs w
    /\ calls w' = EvFlacLoad file_path :: calls w.
Proof.
  intros Hlen. unfold set_flac_md5_signature, try_except, FLAC.
  unfold emit, print, raise, mbind, M_bind, mret, M_ret. cbn [fs stdout calls].
  apply Nat.eqb_neq in Hlen. rewrite Hlen.
  destruct (flac_load E file_path) as [f | e] eqn:Hload.
  - cbn. eexists _, _. split; [reflexivity |]. split_and!; try done.
  - destruct (is_Exception e) eqn:He.
    + eexists _, _. split; [reflexivity |]. split_and!; try done.
    + eexists _, _. split; [reflexivity |]. split_and!; try done.
      intros Hall. specialize (Hall e eq_refl). congruence.
Qed.

Lemma set_flac_md5_signature_rejects_length_witness :
  exists w',
    set_flac_md5_signature E_quiet (lit "a.flac") (lit "d41d8cd9") w_one = (Ok false, w')
    /\ fs w' = fs w_one.
Proof.
  destruct (set_flac_md5_signature_rejects_length E_quiet (lit "a.flac") (lit "d41d8cd9") w_one)
    as (r & w' & Hrun & _ & Hfalse & Hfs & _).
  - cbn. lia.
  - exists w'. rewrite Hrun, Hfalse; [split; [reflexivity | exact Hfs] |].
    intros e He. discriminate He.
Defined.

(** C3. When the file loads and its stored checksum is a nonzero 128-bit
    number, [fix_flac_md5_signature] returns it written as 32 hexadecimal
    digits (which read back as the same number) after the single call that
    loaded the file: no temporary file, no ffmpeg, no save, and the disk and
    the output are as before. *)
Theorem fix_flac_md5_signature_trusts_stored
    (E : env) (file_path : str) (w : world) (f : flac) :
  flac_load E file_path = Ok f ->
  0 < md5_signature f < 2 ^ 128 ->
  fix_flac_md5_signature E file_path w =
    (Ok (format_032x (md5_signature f)),
     World (fs w) (stdout w) (EvFlacLoad file_path :: calls w))
  /\ length (format_032x (md5_signature f)) = 32%nat
  /\ exists bs, fromhex (format_032x (md5_signature f)) = Ok bs
       /\ int_from_bytes_big bs = md5_signature f.
Proof.
  intros Hload Hsig. split; [| split].
  - unfold fix_flac_md5_signature, try_except, FLAC.
    unfold emit, mbind, M_bind, mret, M_ret. cbn [fs stdout calls].
    rewrite Hload.
    destruct (Z.eqb_spec (md5_signature f) 0) as [Hz | _]; [lia |]. reflexivity.
  - apply format_032x_length. lia.
  - apply format_032x_read_back. lia.
Qed.

Lemma fix_flac_md5_signature_trusts_stored_witness :
  fix_flac_md5_signature E_signed (lit "a.flac") w_one =
    (Ok (lit "000000000000000000000000000000ff"),
     World (fs w_one) [] [EvFlacLoad (lit "a.flac")]).
Proof.
  apply (fix_flac_md5_signature_trusts_stored E_signed (lit "a.flac") w_one
           (Flac 44100 2 16 255)); [reflexivity | split; reflexivity].
Defined.

End ChecksumFacts.

(** ** Downloader *)
Module DownloaderFacts.
Import Downloader.

(** C5. When a file is already at the destination, [download_file] returns
    [None] and the world is the one it started in: no request is sent,
    nothing is written, read or printed. *)
Theorem download_file_existing_is_noop
    (E : env) (url file_location : str) (headers : list (str * str))
    (enable_progress_bar : bool) (indent_level : Z)
    (artwork_settings : option artwork) (w : world) :
  is_Some (fs w !! file_location) ->
  download_file E url file_location headers enable_progress_bar indent_level
    artwork_settings w = (Ok tt, w).
Proof.
  intros Hfile. unfold download_file, path_exists, mbind, M_bind, mret, M_ret.
  rewrite bool_decide_eq_true_2 by exact Hfile. reflexivity.
Qed.

Lemma download_file_existing_is_noop_witness :
  download_file E_interrupted (lit "http://host/cover") (lit "cover.jpg") [] true 2 None
    w_cover = (Ok tt, w_cover).
Proof.
  apply download_file_existing_is_noop. exists [255; 216]. reflexivity.
Defined.

(** C6, as the code has it.  When the download starts (nothing at the
    destination, a response with a readable length) and its [try] block is
    interrupted, the handler prints one line, when a file is there, before
    it removes the file.  Provided that print is not refused and the system
    does not refuse to remove the file, [download_file] raises
    [KeyboardInterrupt] and no file is left at the destination, every other
    file being as the interrupted block left it.  When the system refuses,
    with an error [silentremove] lets through, to remove the file the block
    left, that error leaves the function in place of the interrupt and the
    disk stays as the block left it.  When the print raises, what it raises
    leaves the function in place of the interrupt, nothing is removed and
    the disk stays as the block left it. *)
Theorem download_file_interrupted_cleans_up
    (E : env) (url file_location : str) (headers : list (str * str))
    (enable_progress_bar : bool) (indent_level : Z)
    (artwork_settings : option artwork) (w w2 : world)
    (r : response) (total : option Z) (e : exn) :
  fs w !! file_location = None ->
  http_get E url headers = Ok r ->
  read_total r = Ok total ->
  download_body E r total file_location enable_progress_bar indent_level artwork_settings
    (World (fs w) (stdout w) (EvHttpGet url :: calls w)) = (Raise e, w2) ->
  is_KeyboardInterrupt e = true ->
  (fs w2 !! file_location = None
   \/ print_fault E (stdout w2) (deleting_message file_location) = None ->
   remove_fault E file_location = None ->
   exists w3,
     download_file E url file_location headers enable_progress_bar indent_level
       artwork_settings w = (Raise (Exn KeyboardInterrupt 0 []), w3)
     /\ fs w3 !! file_location = None
     /\ forall p, p <> file_location -> fs w3 !! p = fs w2 !! p)
  /\ (forall refusal,
        print_fault E (stdout w2) (deleting_message file_location) = None ->
        remove_fault E file_location = Some refusal ->
        is_OSError refusal && (exn_errno refusal =? ENOENT) = false ->
        is_Some (fs w2 !! file_location) ->
        exists w3,
          download_file E url file_location headers enable_progress_bar indent_level
            artwork_settings w = (Raise refusal, w3)
          /\ fs w3 = fs w2)
  /\ (forall refused,
        print_fault E (stdout w2) (deleting_message file_location) = Some refused ->
        is_Some (fs w2 !! file_location) ->
        download_file E url file_location headers enable_progress_bar indent_level
          artwork_settings w = (Raise refused, w2)).
Proof.
  intros Hfree Hget Htotal Hbody Hint.
  unfold download_file, silentremove, try_except, os_remove, path_exists, print_with.
  unfold get_fs, set_fs, emit, print, raise, mbind, M_bind, mret, M_ret.
  rewrite bool_decide_eq_false_2 by (rewrite Hfree; intros [? ?]; discriminate).
  rewrite Hget, Htotal. cbn [fs stdout calls]. rewrite Hbody, Hint.
  destruct w2 as [disk out cs]. cbn [fs stdout calls]. split_and!.
  - intros Hprint Hremove. destruct (disk !! file_location) as [partial |] eqn:Hpartial.
    + destruct Hprint as [Hnone | Hprint]; [discriminate Hnone |].
      rewrite bool_decide_eq_true_2 by eauto. cbn [fs stdout calls].
      rewrite Hprint. cbn [fs stdout calls].
      rewrite Hpartial, Hremove. cbn [fs stdout calls].
      eexists. split; [reflexivity |]. cbn [fs]. split; [apply lookup_delete_eq |].
      intros p Hp. apply lookup_delete_ne. congruence.
    + rewrite bool_decide_eq_false_2 by (intros [? ?]; discriminate).
      eexists. split; [reflexivity |]. cbn [fs]. split; [exact Hpartial | reflexivity].
  - intros refusal Hprint Hremove Hthrough [partial Hpartial].
    rewrite bool_decide_eq_true_2 by eauto. cbn [fs stdout calls].
    rewrite Hprint. cbn [fs stdout calls].
    rewrite Hpartial, Hremove.
    destruct (is_OSError refusal); cbn [andb] in Hthrough.
    + rewrite Hthrough. eexists. split; reflexivity.
    + eexists. split; reflexivity.
  - intros refused Hprint Hpartial.
    rewrite bool_decide_eq_true_2 by exact Hpartial. cbn [fs stdout calls].
    rewrite Hprint. reflexivity.
Qed.

Lemma download_file_interrupted_cleans_up_witness :
  exists w3,
    download_file E_interrupted (lit "http://host/cover") (lit "cover.jpg") [] false 0 None
      w_empty = (Raise (Exn KeyboardInterrupt 0 []), w3)
    /\ fs w3 !! lit "cover.jpg" = None.
Proof.
  destruct (download_file_interrupted_cleans_up E_interrupted (lit "http://host/cover")
              (lit "cover.jpg") [] false 0 None w_empty
              (World {[ lit "cover.jpg" := [1; 2; 3] ]} []
                 [EvWrite (lit "cover.jpg") [3]; EvWrite (lit "cover.jpg") [1; 2];
                  EvHttpGet (lit "http://host/cover")])
              (Response None [Ok [1; 2]; Ok [3]; Raise interrupt; Ok [4]]) None interrupt)
    as [Hclean _];
    [reflexivity | reflexivity | reflexivity | vm_compute; reflexivity | reflexivity |].
  destruct (Hclean (or_intror eq_refl) eq_refl) as (w3 & Hrun & Hgone & _).
  exists w3. split; [exact Hrun | exact Hgone].
Defined.

(** C6, as stated, fails: the transfer is interrupted after two chunks and
    the system refuses to remove the file; [silentremove] lets the
    [PermissionError] through, so that error leaves the function in place of
    the interrupt and the three bytes written stay on the disk. *)
Lemma download_file_interrupted_keeps_partial :
  let '(r, w') :=
    download_file E_interrupted_locked (lit "http://host/cover") (lit "cover.jpg")
      [] false 0 None w_empty in
  r = Raise (Exn PermissionError EACCES (lit "[Errno 13] Permission denied"))
  /\ fs w' !! lit "cover.jpg" = Some [1; 2; 3].
Proof. vm_compute. split; reflexivity. Qed.

(** The same transfer on a console that refuses the line: the
    [UnicodeEncodeError] of [print] leaves the function, [silentremove] is
    never reached and the three bytes written stay on the disk. *)
Example download_file_interrupted_print_refused :
  let '(r, w') :=
    download_file E_interrupted_mute (lit "http://host/cover") (lit "cover.jpg")
      [] false 0 None w_empty in
  r = Raise cannot_encode
  /\ fs w' !! lit "cover.jpg" = Some [1; 2; 3]
  /\ stdout w' = [].
Proof. vm_compute. split_and!; reflexivity. Qed.

End DownloaderFacts.

(** ** Temporary settings store *)
Module SettingsFacts.
Import Settings.

Lemma dict_get_set_eq (k : key) (v : value) (items : list (key * value)) :
  dict_get k (dict_set k v items) = Some v.
Proof.
  induction items as [| [k' v'] rest IH]; cbn [dict_set dict_get].
  - rewrite bool_decide_eq_true_2 by reflexivity. reflexivity.
  - destruct (decide (k' = k)) as [-> | Hne].
    + rewrite bool_decide_eq_true_2 by reflexivity. cbn [dict_get].
      rewrite bool_decide_eq_true_2 by reflexivity. reflexivity.
    + rewrite bool_decide_eq_false_2 by exact Hne. cbn [dict_get].
      rewrite bool_decide_eq_false_2 by exact Hne. exact IH.
Qed.

Lemma dict_get_set_ne (k k' : key) (v : value) (items : list (key * value)) :
  k <> k' -> dict_get k' (dict_set k v items) = dict_get k' items.
Proof.
  intros Hne. induction items as [| [k0 v0] rest IH]; cbn [dict_set dict_get].
  - rewrite bool_decide_eq_false_2 by exact Hne. reflexivity.
  - destruct (decide (k0 = k)) as [-> | Hne0].
    + rewrite bool_decide_eq_true_2 by reflexivity. cbn [dict_get].
      rewrite !bool_decide_eq_false_2 by exact Hne. reflexivity.
    + rewrite bool_decide_eq_false_2 by exact Hne0. cbn [dict_get].
      rewrite IH. reflexivity.
Qed.

Lemma dict_set_truthy (k : key) (v : value) (items : list (key * value)) :
  truthy (VDict (dict_set k v items)) = true.
Proof.
  cbn [truthy]. rewrite bool_decide_eq_false_2; [reflexivity |].
  destruct items as [| [k' v'] rest]; cbn [dict_set]; [discriminate |].
  destruct (bool_decide (k' = k)); discriminate.
Qed.

Lemma dict_truthy (k : key) (v : value) (items : list (key * value)) :
  dict_get k items = Some v -> truthy (VDict items) = true.
Proof.
  intros Hget. cbn [truthy]. rewrite bool_decide_eq_false_2; [reflexivity |].
  intros ->. discriminate Hget.
Qed.

Ltac unfold_bind := unfold mbind, result_bind; cbn beta iota.

(** What the two functions compute as [session] for a blob of the expected
    shape. *)
Lemma session_of_selected (blob : value) (module : key) (session : list (key * value)) :
  selected_session blob module session ->
  exists module_settings,
    module_settings_of blob module = Ok module_settings
    /\ session_of module_settings false = Ok (VDict session).
Proof.
  intros (top & mods & ms & ss & sel & name & -> & Hmods & Hmod & Hss & Hsel & Hname & Hsess).
  exists (VDict ms). split.
  - unfold module_settings_of, getitem, contains. unfold_bind.
    rewrite Hmods. cbn beta iota. rewrite Hmod. cbn beta iota.
    rewrite bool_decide_eq_true_2 by eauto. reflexivity.
  - unfold session_of. rewrite (dict_truthy _ _ _ Hss).
    unfold getitem. unfold_bind. rewrite Hss, Hsel. cbn beta iota.
    rewrite Hname. cbn beta iota. rewrite Hsess. reflexivity.
Qed.

Lemma k_sessions_not_selected : k_sessions <> k_selected.
Proof. discriminate. Qed.

(** Writing a session back leaves a blob of the same shape, whose selected
    session is the new one. *)
Lemma with_session_selected (blob : value) (module : key)
    (session session' : list (key * value)) (module_settings : value) :
  selected_session blob module session ->
  module_settings_of blob module = Ok module_settings ->
  exists blob',
    with_session blob module_settings module false (VDict session') = Ok blob'
    /\ selected_session blob' module session'.
Proof.
  intros (top & mods & ms & ss & sel & name & -> & Hmods & Hmod & Hss & Hsel & Hname & Hsess).
  unfold module_settings_of, getitem, contains. unfold_bind.
  rewrite Hmods. cbn beta iota. rewrite Hmod. cbn beta iota.
  rewrite bool_decide_eq_true_2 by eauto. intros [= <-].
  unfold with_session, getitem, setitem. unfold_bind.
  rewrite Hss, Hsel. cbn beta iota. rewrite Hname. cbn beta iota. rewrite Hmods.
  eexists. split; [reflexivity |].
  eexists _, _, _, _, sel, name. split; [reflexivity |].
  rewrite !dict_get_set_eq.
  rewrite (dict_get_set_ne _ _ _ _ k_sessions_not_selected), Hsel.
  split_and!; reflexivity || assumption.
Qed.

(** Reading a root setting that the selected session holds. *)
Lemma read_selected (disk : gmap str value) (settings_location : str) (blob : value)
    (module root_setting setting : key) (session : list (key * value)) (root : value) :
  disk !! settings_location = Some blob ->
  selected_session blob module session ->
  dict_get root_setting session = Some root ->
  key_truthy root_setting = true ->
  read_temporary_setting disk settings_location module root_setting setting false =
    if key_truthy setting then
      has_setting ← contains root setting;
      if has_setting : bool then getitem root setting else Ok VNone
    else Ok root.
Proof.
  intros Hdisk Hshape Hroot Htruthy.
  destruct (session_of_selected blob module session Hshape) as (ms & Hms & Hsession).
  unfold read_temporary_setting, pickle_load. unfold_bind.
  rewrite Hdisk. cbn beta iota. rewrite Hms. cbn beta iota. rewrite Hsession. cbn beta iota.
  rewrite (dict_truthy _ _ _ Hroot), Htruthy. cbn [andb].
  unfold contains at 1 3. unfold getitem at 1 2 4.
  rewrite Hroot. rewrite bool_decide_eq_true_2 by eauto.
  destruct (key_truthy setting); [| reflexivity].
  destruct (contains root setting) as [[|] |]; reflexivity.
Qed.

(** C4, as the code has it.  In a blob where module [M] has a selected
    session holding a dictionary under [R], and [R] is a name the code takes
    as given (not empty, not zero, not [None]), writing [V] under [R], [K]
    returns and a later read of [R], [K] returns exactly [V]. *)
Theorem settings_round_trip (disk : gmap str value) (settings_location : str)
    (blob : value) (M R K : key) (V : value) (session mapping : list (key * value)) :
  disk !! settings_location = Some blob ->
  selected_session blob M session ->
  dict_get R session = Some (VDict mapping) ->
  key_truthy R = true ->
  exists disk',
    set_temporary_setting disk settings_location M R K V false = Ok disk'
    /\ read_temporary_setting disk' settings_location M R K false = Ok V.
Proof.
  intros Hdisk Hshape Hroot Htruthy.
  destruct (session_of_selected blob M session Hshape) as (ms & Hms & Hsession).
  set (root' := if key_truthy K then VDict (dict_set K V mapping) else V).
  destruct (with_session_selected blob M session (dict_set R root' session) ms Hshape Hms)
    as (blob' & Hback & Hshape').
  exists (<[settings_location := blob']> disk). split.
  - unfold set_temporary_setting, pickle_load. unfold_bind.
    rewrite Hdisk. cbn beta iota. rewrite Hms. cbn beta iota. rewrite Hsession.
    cbn beta iota. rewrite (dict_truthy _ _ _ Hroot). cbn [negb].
    assert (Hassign : assign (VDict session) R K V = Ok (VDict (dict_set R root' session))).
    { unfold assign, root'. destruct (key_truthy K); [| reflexivity].
      unfold getitem. unfold_bind. rewrite Hroot. reflexivity. }
    rewrite Hassign. cbn beta iota. rewrite Hback. reflexivity.
  - rewrite (read_selected _ settings_location blob' M R K (dict_set R root' session) root').
    + unfold root'. destruct (key_truthy K); [| reflexivity].
      unfold contains, getitem. unfold_bind. rewrite dict_get_set_eq.
      rewrite bool_decide_eq_true_2 by eauto. reflexivity.
    + apply lookup_insert_eq.
    + exact Hshape'.
    + apply dict_get_set_eq.
    + exact Htruthy.
Qed.

Lemma settings_round_trip_witness :
  exists disk',
    set_temporary_setting disk_tidal (lit "settings.bin") (KStr (lit "tidal"))
      (KStr (lit "auth")) (KStr (lit "token")) (VStr (lit "xyz")) false = Ok disk'
    /\ read_temporary_setting disk' (lit "settings.bin") (KStr (lit "tidal"))
         (KStr (lit "auth")) (KStr (lit "token")) false = Ok (VStr (lit "xyz")).
Proof.
  eapply (settings_round_trip disk_tidal (lit "settings.bin") blob_tidal).
  - reflexivity.
  - unfold selected_session, blob_tidal.
    eexists _, _, _, _, _, _. split_and!; reflexivity.
  - reflexivity.
  - reflexivity.
Defined.

(** C4, as stated, fails: the selected session of [tidal] holds a dictionary
    under the empty name; writing [token] there succeeds, but a read with an
    empty root setting takes the last branch and returns the whole session. *)
Lemma settings_round_trip_empty_root :
  exists disk',
    set_temporary_setting disk_tidal (lit "settings.bin") (KStr (lit "tidal"))
      (KStr []) (KStr (lit "token")) (VStr (lit "xyz")) false = Ok disk'
    /\ read_temporary_setting disk' (lit "settings.bin") (KStr (lit "tidal"))
         (KStr []) (KStr (lit "token")) false
       = Ok (VDict
           [(KStr (lit "auth"), VDict [(KStr (lit "token"), VStr (lit "abc"))]);
            (KStr [], VDict [(KStr (lit "token"), VStr (lit "xyz"))])])
    /\ selected_session blob_tidal (KStr (lit "tidal"))
         [(KStr (lit "auth"), VDict [(KStr (lit "token"), VStr (lit "abc"))]);
          (KStr [], VDict [])].
Proof.
  eexists. split; [vm_compute; reflexivity |]. split; [vm_compute; reflexivity |].
  unfold selected_session, blob_tidal. eexists _, _, _, _, _, _. split_and!; reflexivity.
Qed.

(** What the two functions compute as [session] for a module without
    session state: [None], or the [KeyError] of the missing session. *)
Lemma session_of_no_state (blob : value) (module : key) :
  no_session_state blob module ->
  (module_settings_of blob module = Ok VNone
   /\ exists top modules, blob = VDict top
        /\ dict_get k_modules top = Some (VDict modules)
        /\ dict_get module modules = None)
  \/ (exists module_settings,
        module_settings_of blob module = Ok module_settings
        /\ session_of module_settings false = Raise key_error).
Proof.
  intros [top mods -> Hmods Hmod | top mods ms ss sel name -> Hmods Hmod Hss Hsel Hname Hsess].
  - left. split; [| eauto].
    unfold module_settings_of, getitem, contains. unfold_bind.
    rewrite Hmods. cbn beta iota. rewrite Hmod.
    rewrite bool_decide_eq_false_2 by (intros [? ?]; discriminate). reflexivity.
  - right. exists (VDict ms). split.
    + unfold module_settings_of, getitem, contains. unfold_bind.
      rewrite Hmods. cbn beta iota. rewrite Hmod. cbn beta iota.
      rewrite bool_decide_eq_true_2 by eauto. reflexivity.
    + unfold session_of. rewrite (dict_truthy _ _ _ Hss).
      unfold getitem. unfold_bind. rewrite Hss, Hsel. cbn beta iota.
      rewrite Hname. cbn beta iota. rewrite Hsess. reflexivity.
Qed.

(** C8, as the code has it.  For a module without session state,
    [set_temporary_setting] raises, and [read_temporary_setting] raises the
    same exception whenever it is given a root setting; the exception is the
    one of lines 289 and 306 when the module is absent.  Without a root
    setting, a read for an absent module returns [None]. *)
Theorem no_session_state_raises (disk : gmap str value) (settings_location : str)
    (blob : value) (module root_setting setting : key) (v : value) :
  disk !! settings_location = Some blob ->
  no_session_state blob module ->
  exists e,
    set_temporary_setting disk settings_location module root_setting setting v false
      = Raise e
    /\ (key_truthy root_setting = true ->
        read_temporary_setting disk settings_location module root_setting setting false
          = Raise e)
    /\ (module_settings_of blob module = Ok VNone ->
        e = no_temporary_settings
        /\ (key_truthy root_setting = false ->
            read_temporary_setting disk settings_location module root_setting setting false
              = Ok VNone)).
Proof.
  intros Hdisk Hnone.
  unfold set_temporary_setting, read_temporary_setting, pickle_load. unfold_bind.
  rewrite Hdisk. cbn beta iota.
  destruct (session_of_no_state blob module Hnone) as [[Hms _] | (ms & Hms & Hsession)].
  - rewrite Hms. cbn beta iota. cbn [session_of truthy negb andb].
    exists no_temporary_settings. split; [reflexivity |]. split.
    + intros ->. reflexivity.
    + intros _. split; [reflexivity |]. intros ->. reflexivity.
  - rewrite Hms. cbn beta iota. rewrite Hsession. cbn beta iota.
    exists key_error. split; [reflexivity |]. split; [reflexivity |].
    intros [= ->]. discriminate Hsession.
Qed.

Lemma no_session_state_raises_witness :
  no_session_state blob_tidal (KStr (lit "qobuz"))
  /\ set_temporary_setting disk_tidal (lit "settings.bin") (KStr (lit "qobuz"))
       (KStr (lit "auth")) (KStr (lit "token")) (VStr (lit "xyz")) false
     = Raise no_temporary_settings
  /\ read_temporary_setting disk_tidal (lit "settings.bin") (KStr (lit "qobuz"))
       (KStr (lit "auth")) (KStr (lit "token")) false
     = Raise no_temporary_settings.
Proof.
  assert (Habsent : no_session_state blob_tidal (KStr (lit "qobuz"))).
  { eapply module_absent; reflexivity. }
  split; [exact Habsent |].
  destruct (no_session_state_raises disk_tidal (lit "settings.bin") blob_tidal
              (KStr (lit "qobuz")) (KStr (lit "auth")) (KStr (lit "token"))
              (VStr (lit "xyz")) eq_refl Habsent) as (e & Hset & Hread & Hwhich).
  destruct (Hwhich eq_refl) as [-> _].
  split; [exact Hset | exact (Hread eq_refl)].
Defined.

(** C8, as stated, fails for [read_temporary_setting]: [qobuz] is not among
    the modules, and a read that names no root setting returns [None]. *)
Lemma read_absent_module_returns_none :
  no_session_state blob_tidal (KStr (lit "qobuz"))
  /\ read_temporary_setting disk_tidal (lit "settings.bin") (KStr (lit "qobuz"))
       KNone KNone false = Ok VNone.
Proof. split; [eapply module_absent; reflexivity | reflexivity]. Qed.

End SettingsFacts.

(** ** Tag inspector *)
Module TagInspectorFacts.
Import TagInspector.

Lemma prints_only_ret {A} (a : A) : prints_only (mret a).
Proof. intros w. split; reflexivity. Qed.

Lemma prints_only_raise {A} (e : exn) : prints_only (raise e : M A).
Proof. intros w. split; reflexivity. Qed.

Lemma prints_only_print (line : str) : prints_only (print line).
Proof. intros w. split; reflexivity. Qed.

Lemma prints_only_say (E : env) (line : str) : prints_only (say E line).
Proof.
  intros w. unfold say, print_with. destruct (print_fault E (stdout w) line); split; reflexivity.
Qed.

Lemma prints_only_lift {A} (r : result A) : prints_only (lift r).
Proof. destruct r; [apply prints_only_ret | apply prints_only_raise]. Qed.

Lemma prints_only_bind {A B} (m : M A) (f : A -> M B) :
  prints_only m -> (forall a, prints_only (f a)) -> prints_only (m ≫= f).
Proof.
  intros Hm Hf w. unfold mbind, M_bind. specialize (Hm w).
  destruct (m w) as [[a | e] w1]; cbn [snd] in *.
  - destruct (Hf a w1) as [Hfs Hcalls]. rewrite Hfs, Hcalls. exact Hm.
  - exact Hm.
Qed.

Lemma prints_only_try_except {A} (m : M A) (C : exn -> bool) (h : exn -> M A) :
  prints_only m -> (forall e, prints_only (h e)) -> prints_only (try_except m C h).
Proof.
  intros Hm Hh w. unfold try_except. specialize (Hm w).
  destruct (m w) as [[a | e] w1]; cbn [snd] in *; [exact Hm |].
  destruct (C e); [| exact Hm].
  destruct (Hh e w1) as [Hfs Hcalls]. rewrite Hfs, Hcalls. exact Hm.
Qed.

Lemma prints_only_path_exists (p : str) : prints_only (path_exists p).
Proof. intros w. split; reflexivity. Qed.

Create HintDb prints_db discriminated.
#[local] Hint Resolve prints_only_ret prints_only_raise prints_only_print prints_only_say
  prints_only_lift prints_only_path_exists : prints_db.

Ltac prints :=
  repeat first
    [ solve [auto 1 with prints_db nocore]
    | apply prints_only_bind; [| intros ?]
    | apply prints_only_try_except; [| intros ?]
    | match goal with
      | |- prints_only (if ?b then _ else _) => destruct b
      | |- prints_only (match ?x with _ => _ end) => destruct x
      end ].

Lemma prints_only_report_key (E : env) (a : audio) (key : str) (decode : bool) :
  prints_only (report_key E a key decode).
Proof. unfold report_key. prints. Qed.

Lemma prints_only_scan_keys (E : env) (a : audio) (ks : list str) :
  prints_only (scan_keys E a ks).
Proof. induction ks as [| key rest IH]; cbn [scan_keys]; prints. Qed.

Lemma prints_only_other_tags (E : env) (a : audio) (tags : list (str * str)) :
  prints_only (other_tags E a tags).
Proof. induction tags as [| [tag capitalized] rest IH]; cbn [other_tags]; prints. Qed.

#[local] Hint Resolve prints_only_report_key prints_only_scan_keys
  prints_only_other_tags : prints_db.

Lemma prints_only_inspect (E : env) (file_path : str) (a : audio) :
  prints_only (inspect E file_path a).
Proof. unfold inspect. prints. Qed.

#[local] Hint Resolve prints_only_inspect : prints_db.

Lemma prints_only_check_md5_tag (E : env) (file_path : str) :
  prints_only (check_md5_tag E file_path).
Proof. unfold check_md5_tag. prints. Qed.

(** *** What a run that returns went through *)

Lemma bind_ok {A B} (m : M A) (f : A -> M B) (w w' : world) (b : B) :
  (m ≫= f) w = (Ok b, w') -> exists a w1, m w = (Ok a, w1) /\ f a w1 = (Ok b, w').
Proof.
  unfold mbind, M_bind. destruct (m w) as [[a | e] w1]; [eauto | discriminate].
Qed.

Lemma lift_ok {A} (r : result A) (w w' : world) (a : A) :
  lift r w = (Ok a, w') -> r = Ok a /\ w' = w.
Proof. destruct r; intros [= <- <-]; split; reflexivity. Qed.

Lemma ret_ok {A} (a b : A) (w w' : world) :
  (mret a : M A) w = (Ok b, w') -> b = a /\ w' = w.
Proof. intros [= <- <-]. split; reflexivity. Qed.

(** A run step by step: [H] says that a computation returned. *)
Ltac steps H :=
  repeat first
    [ apply ret_ok in H as [? ?]; subst
    | apply lift_ok in H as [? ?]; subst
    | let a := fresh "a" in let w1 := fresh "w1" in let H1 := fresh "Hstep" in
      apply bind_ok in H as (a & w1 & H1 & H);
      first [ apply lift_ok in H1 as [? ?]; subst
            | apply ret_ok in H1 as [? ?]; subst
            | idtac ] ].

Lemma report_key_found (E : env) (a : audio) (key : str) (decode : bool) (w w' : world)
    (b : bool) :
  report_key E a key decode w = (Ok b, w') -> has_key a key = Ok b.
Proof.
  unfold report_key. intros Hrun.
  apply bind_ok in Hrun as (present & w1 & Hkey & Hrun). apply lift_ok in Hkey as [Hkey ->].
  destruct present; steps Hrun; exact Hkey.
Qed.

Lemma scan_keys_found (E : env) (a : audio) (ks : list str) (w w' : world) (b : bool) :
  scan_keys E a ks w = (Ok b, w') ->
  b = existsb (fun key => is_substring (lit "MD5") (upper key)) ks.
Proof.
  revert w. induction ks as [| key rest IH]; intros w; cbn [scan_keys existsb].
  - intros [= <- _]. reflexivity.
  - destruct (is_substring (lit "MD5") (upper key)); [| apply IH].
    intros Hrun. steps Hrun. reflexivity.
Qed.

Lemma md5_present_flac (a : audio) (tag : bool) :
  kind_of a = IsFLAC -> has_key a (lit "MD5") = Ok tag ->
  md5_present a = Ok (tag || negb (info_md5_signature a =? 0)).
Proof. intros Hk Hkey. unfold md5_present. rewrite Hk, Hkey. reflexivity. Qed.

Lemma md5_present_other (a : audio) (ks : list str) :
  kind_of a = IsOther -> keys a = Ok ks ->
  md5_present a = Ok (existsb (fun key => is_substring (lit "MD5") (upper key)) ks).
Proof. intros Hk Hkeys. unfold md5_present. rewrite Hk, Hkeys. reflexivity. Qed.

(** What lines 29 to 74 leave in [md5_found]. *)
Lemma verdict_found (E : env) (a : audio) (w w' : world) (b : bool) :
  match kind_of a with
  | IsFLAC =>
      found_tag ← report_key E a (lit "MD5") false;
      if negb (info_md5_signature a =? 0) && negb (info_md5_signature a =? 0) then
        say E (lit "MD5 of unencoded content: " ++ format_032x (info_md5_signature a));;
        mret true
      else
        say E (lit "MD5 of unencoded content: 00000000000000000000000000000000 (unset)");;
        mret found_tag
  | IsMP3 => report_key E a (lit "TXXX:MD5") false
  | IsMP4 => report_key E a (lit "----:com.apple.itunes:MD5") true
  | IsOther =>
      ks ← lift (keys a);
      found ← scan_keys E a ks;
      (if found : bool then mret tt else say E (lit "MD5 Tag: Not found"));;
      mret found
  end w = (Ok b, w') ->
  md5_present a = Ok b.
Proof.
  destruct (kind_of a) eqn:Hkind; intros Hrun.
  - apply bind_ok in Hrun as (tag & w1 & Hkey & Hrun). apply report_key_found in Hkey.
    rewrite (md5_present_flac a tag Hkind Hkey).
    destruct (info_md5_signature a =? 0); cbn [negb andb] in *; steps Hrun;
      rewrite ?orb_true_r, ?orb_false_r; reflexivity.
  - apply report_key_found in Hrun. unfold md5_present. rewrite Hkind. exact Hrun.
  - apply report_key_found in Hrun. unfold md5_present. rewrite Hkind. exact Hrun.
  - apply bind_ok in Hrun as (ks & w1 & Hkeys & Hrun). apply lift_ok in Hkeys as [Hkeys ->].
    apply bind_ok in Hrun as (found & w2 & Hscan & Hrun). apply scan_keys_found in Hscan.
    rewrite (md5_present_other a ks Hkind Hkeys). steps Hrun. congruence.
Qed.

(** When the inspection returns, it returns whether an MD5 tag or checksum
    is there. *)
Lemma inspect_found (E : env) (file_path : str) (a : audio) (w w' : world) (b : bool) :
  inspect E file_path a w = (Ok b, w') -> md5_present a = Ok b.
Proof.
  unfold inspect. intros Hrun.
  apply bind_ok in Hrun as (? & w1 & _ & Hrun).
  apply bind_ok in Hrun as (? & w2 & _ & Hrun).
  apply bind_ok in Hrun as (? & w3 & _ & Hrun).
  apply bind_ok in Hrun as (found & w4 & Hverdict & Hrun).
  apply verdict_found in Hverdict.
  apply bind_ok in Hrun as (? & w5 & _ & Hrun).
  apply bind_ok in Hrun as (? & w6 & _ & Hrun).
  apply ret_ok in Hrun as [-> _]. exact Hverdict.
Qed.

(** *** An inspection that completes *)












(** The sample files answer what they are asked, and the call returns
    [True] for the FLAC file with a checksum and for the MP3 file with the
    tag, and [False] for the FLAC file without either; on a console whose
    stream is closed the refusal of the first print is caught, and the
    refusal of the handler's print leaves the call. *)
Example check_md5_tag_runs :
  answers flac_signed /\ answers flac_unsigned /\ answers mp3_tagged
  /\ (check_md5_tag E_flac (lit "song.flac") w_song).1 = Ok (Some true)
  /\ (check_md5_tag E_mp3 (lit "song.flac") w_song).1 = Ok (Some true)
  /\ (check_md5_tag E_flac_unsigned (lit "song.flac") w_song).1 = Ok (Some false)
  /\ (check_md5_tag E_flac_closed (lit "song.flac") w_song).1
     = Raise (Exn ValueError 0 (lit "I/O operation on closed file.")).
Proof.
  assert (Hanswers : forall z, answers (Audio IsFLAC (lit "FLAC") (fun _ => Ok false)
            (fun _ => Raise (Exn KeyError 0 (lit "key"))) (Ok []) z)).
  { intros z. split_and!.
    - intros key. exists false. reflexivity.
    - intros key Hkey. discriminate Hkey.
    - exists []. split; [reflexivity |]. intros key []. }
  split; [apply Hanswers |]. split; [apply Hanswers |]. split.
  { split_and!.
    - intros key. eexists. reflexivity.
    - intros key Hkey. cbn [has_key item mp3_tagged] in *.
      destruct (bool_decide (key = lit "TXXX:MD5")); [| discriminate Hkey].
      eexists _, _. split; [reflexivity | discriminate].
    - eexists. split; [reflexivity |]. intros key [<- | []]. eexists. reflexivity. }
  split_and!; vm_compute; reflexivity.
Qed.

End TagInspectorFacts.

(** ** Byte limit of file names *)
Module ByteLimitFacts.
Import ByteLimit.

(** The base-64 digits of a code point, as linear facts. *)
Lemma base64_digits (c : Z) :
  (c = 64 * (c / 64) + c mod 64 /\ 0 <= c mod 64 < 64)
  /\ (c / 64 = 64 * (c / 4096) + c / 64 mod 64 /\ 0 <= c / 64 mod 64 < 64)
  /\ (c / 4096 = 64 * (c / 262144) + c / 4096 mod 64 /\ 0 <= c / 4096 mod 64 < 64).
Proof.
  replace (c / 4096) with (c / 64 / 64) by (rewrite Z.div_div by lia; reflexivity).
  replace (c / 262144) with (c / 64 / 64 / 64) by (rewrite !Z.div_div by lia; reflexivity).
  pose proof (Z.div_mod c 64). pose proof (Z.mod_pos_bound c 64).
  pose proof (Z.div_mod (c / 64) 64). pose proof (Z.mod_pos_bound (c / 64) 64).
  pose proof (Z.div_mod (c / 64 / 64) 64). pose proof (Z.mod_pos_bound (c / 64 / 64) 64).
  lia.
Qed.

Ltac compare_all :=
  repeat (match goal with
          | |- context [?a <? ?b] => destruct (Z.ltb_spec a b); try lia
          | |- context [?a <=? ?b] => destruct (Z.leb_spec a b); try lia
          | |- context [?a =? ?b] => destruct (Z.eqb_spec a b); try lia
          end; cbn [andb orb negb]).

Lemma encode_char_scalar (c : Z) : scalar c -> exists bs, encode_char c = Some bs.
Proof.
  intros Hc. unfold encode_char, scalar in *. compare_all; eauto.
Qed.

Lemma encode_char_length (c : Z) (bs : bytes) :
  encode_char c = Some bs -> (1 <= length bs <= 4)%nat.
Proof.
  unfold encode_char. compare_all; intros [= <-] || discriminate; cbn; lia.
Qed.

(** A whole character is read back, whatever follows. *)
Lemma decode_char (c : Z) (bs : bytes) :
  encode_char c = Some bs ->
  forall rest, decode_ignore (bs ++ rest) = c :: decode_ignore rest.
Proof.
  pose proof (base64_digits c) as Hdigits.
  unfold encode_char.
  destruct (Z.ltb_spec c 0); [discriminate |].
  destruct (Z.ltb_spec c 128).
  { intros [= <-] rest. cbn [app decode_ignore]. compare_all; reflexivity. }
  destruct (Z.ltb_spec c 2048).
  { intros [= <-] rest. cbn [app decode_ignore]. unfold continuation.
    compare_all; f_equal; lia. }
  destruct (Z.ltb_spec c 55296).
  { intros [= <-] rest. cbn [app decode_ignore]. unfold continuation.
    compare_all; f_equal; lia. }
  destruct (Z.ltb_spec c 57344); [discriminate |].
  destruct (Z.ltb_spec c 65536).
  { intros [= <-] rest. cbn [app decode_ignore]. unfold continuation.
    compare_all; f_equal; lia. }
  destruct (Z.ltb_spec c 1114112); [| discriminate].
  intros [= <-] rest. cbn [app decode_ignore]. unfold continuation.
  compare_all; f_equal; lia.
Qed.

(** A character cut by the end of the data is dropped. *)
Lemma decode_partial (c : Z) (bs : bytes) (n : nat) :
  encode_char c = Some bs -> (n < length bs)%nat -> decode_ignore (take n bs) = [].
Proof.
  pose proof (base64_digits c) as Hdigits.
  unfold encode_char.
  destruct (Z.ltb_spec c 0); [discriminate |].
  destruct (Z.ltb_spec c 128).
  { intros [= <-] Hn. destruct n as [| n]; [reflexivity | cbn in Hn; lia]. }
  destruct (Z.ltb_spec c 2048).
  { intros [= <-] Hn. destruct n as [| [| n]]; [reflexivity | | cbn in Hn; lia].
    cbn [take decode_ignore]. compare_all; reflexivity. }
  destruct (Z.ltb_spec c 55296).
  { intros [= <-] Hn. destruct n as [| [| [| n]]]; [reflexivity | | | cbn in Hn; lia];
      cbn [take decode_ignore]; unfold continuation; compare_all; reflexivity. }
  destruct (Z.ltb_spec c 57344); [discriminate |].
  destruct (Z.ltb_spec c 65536).
  { intros [= <-] Hn. destruct n as [| [| [| n]]]; [reflexivity | | | cbn in Hn; lia];
      cbn [take decode_ignore]; unfold continuation; compare_all; reflexivity. }
  destruct (Z.ltb_spec c 1114112); [| discriminate].
  intros [= <-] Hn. destruct n as [| [| [| [| n]]]]; [reflexivity | | | | cbn in Hn; lia];
    cbn [take decode_ignore]; unfold continuation; compare_all; reflexivity.
Qed.

Lemma encode_cons (c : Z) (rest : str) (bs : bytes) :
  encode (c :: rest) = Ok bs ->
  exists bc br, encode_char c = Some bc /\ encode rest = Ok br /\ bs = bc ++ br.
Proof.
  cbn [encode]. destruct (encode_char c) as [bc |]; [| discriminate].
  destruct (encode rest) as [br | e]; [| discriminate].
  intros [= <-]. eauto.
Qed.

Lemma encode_scalar (s : str) : Forall scalar s -> exists bs, encode s = Ok bs.
Proof.
  induction 1 as [| c rest Hc _ [br IH]]; [exists []; reflexivity |].
  destruct (encode_char_scalar c Hc) as [bc Hbc].
  exists (bc ++ br). cbn [encode]. rewrite Hbc, IH. reflexivity.
Qed.

(** Decoding the first [n] bytes of an encoded text, errors ignored, gives
    the characters that fit whole in [n] bytes. *)
Lemma decode_truncated (s : str) :
  forall bs n, encode s = Ok bs -> decode_ignore (take n bs) = fit n s.
Proof.
  induction s as [| c rest IH]; intros bs n Henc.
  - injection Henc as <-. rewrite take_nil. reflexivity.
  - destruct (encode_cons c rest bs Henc) as (bc & br & Hbc & Hbr & ->).
    cbn [fit]. rewrite Hbc.
    destruct (Nat.leb_spec (length bc) n) as [Hfits | Hcut].
    + rewrite take_app_ge by exact Hfits.
      rewrite (decode_char c bc Hbc). rewrite (IH br _ Hbr). reflexivity.
    + rewrite take_app_le by lia. apply (decode_partial c); assumption.
Qed.

Lemma fit_prefix (s : str) : forall n, exists rest, s = fit n s ++ rest.
Proof.
  induction s as [| c rest IH]; intros n; [exists []; reflexivity |].
  cbn [fit]. destruct (encode_char c) as [bc |]; [| eexists; reflexivity].
  destruct (length bc <=? n)%nat; [| eexists; reflexivity].
  destruct (IH (n - length bc)%nat) as [rest' Hrest].
  exists rest'. cbn [app]. f_equal. exact Hrest.
Qed.

(** What is kept encodes without error to the first bytes of the whole
    encoding, at most [n] of them. *)
Lemma fit_encode (s : str) :
  forall bs n, encode s = Ok bs ->
  exists bs', encode (fit n s) = Ok bs' /\ (length bs' <= n)%nat
    /\ bs' = take (length bs') bs.
Proof.
  induction s as [| c rest IH]; intros bs n Henc.
  - exists []. cbn. split; [reflexivity |]. split; [lia | reflexivity].
  - destruct (encode_cons c rest bs Henc) as (bc & br & Hbc & Hbr & ->).
    cbn [fit]. rewrite Hbc.
    destruct (Nat.leb_spec (length bc) n) as [Hfits | Hcut].
    + destruct (IH br (n - length bc)%nat Hbr) as (bs' & Hkeep & Hlen & Htake).
      exists (bc ++ bs'). cbn [encode]. rewrite Hbc, Hkeep.
      split; [reflexivity |]. rewrite length_app. split; [lia |].
      rewrite take_app_ge by lia. f_equal.
      replace (length bc + length bs' - length bc)%nat with (length bs') by lia.
      exact Htake.
    + exists []. cbn. split; [reflexivity |]. split; [lia | reflexivity].
Qed.

(** Nothing more would fit: either the whole text is kept, or the next
    character would pass the limit. *)
Lemma fit_longest (s : str) :
  forall bs n, encode s = Ok bs ->
  fit n s = s
  \/ exists c rest bc bs',
       s = fit n s ++ c :: rest /\ encode_char c = Some bc
       /\ encode (fit n s) = Ok bs' /\ (n < length bs' + length bc)%nat.
Proof.
  induction s as [| c rest IH]; intros bs n Henc; [left; reflexivity |].
  destruct (encode_cons c rest bs Henc) as (bc & br & Hbc & Hbr & ->).
  cbn [fit]. rewrite Hbc.
  destruct (Nat.leb_spec (length bc) n) as [Hfits | Hcut].
  - destruct (IH br (n - length bc)%nat Hbr)
      as [Hall | (c' & rest' & bc' & bs' & Hsplit & Hbc' & Hkeep & Hover)].
    + left. rewrite Hall. reflexivity.
    + right. exists c', rest', bc', (bc ++ bs'). split; [cbn [app]; f_equal; exact Hsplit |].
      split; [exact Hbc' |]. cbn [encode]. rewrite Hbc, Hkeep.
      split; [reflexivity |]. rewrite length_app. lia.
  - right. exists c, rest, bc, []. split; [reflexivity |]. split; [exact Hbc |].
    split; [reflexivity |]. cbn. lia.
Qed.

(** *** Paths *)

Lemma split_at_last_sep_no_sep (name : str) :
  no_sep name -> split_at_last_sep name = ([], name).
Proof.
  induction 1 as [| c rest Hc _ IH]; [reflexivity |].
  cbn [split_at_last_sep]. rewrite IH.
  destruct (Z.eqb_spec c 47); [contradiction | reflexivity].
Qed.

Lemma split_at_last_sep_spec (p : str) :
  (split_at_last_sep p).1 ++ (split_at_last_sep p).2 = p
  /\ no_sep (split_at_last_sep p).2.
Proof.
  induction p as [| c rest [IHapp IHtail]]; [split; [reflexivity | constructor] |].
  cbn [split_at_last_sep].
  destruct (split_at_last_sep rest) as [[| h0 head] tail]; cbn [fst snd app] in *.
  - subst tail. destruct (Z.eqb_spec c 47); cbn [fst snd app].
    + subst c. split; [reflexivity | exact IHtail].
    + split; [reflexivity | constructor; assumption].
  - split; [f_equal; exact IHapp | exact IHtail].
Qed.

Lemma split_at_last_sep_join (directory name : str) :
  no_sep name ->
  split_at_last_sep (directory ++ 47 :: name) = (directory ++ [47], name).
Proof.
  intros Hname. induction directory as [| c rest IH].
  - cbn [app split_at_last_sep]. rewrite (split_at_last_sep_no_sep name Hname).
    reflexivity.
  - cbn [app split_at_last_sep]. rewrite IH.
    destruct rest; reflexivity.
Qed.

Lemma rstrip_sep_snoc (s : str) : rstrip_sep (s ++ [47]) = rstrip_sep s.
Proof.
  induction s as [| c rest IH]; [reflexivity |].
  cbn [app rstrip_sep]. rewrite IH. reflexivity.
Qed.

Lemma rstrip_sep_idempotent (s : str) : rstrip_sep (rstrip_sep s) = rstrip_sep s.
Proof.
  induction s as [| c rest IH]; [reflexivity |].
  cbn [rstrip_sep]. destruct (rstrip_sep rest) as [| r0 r] eqn:Hrest.
  - destruct (Z.eqb_spec c 47) as [| Hc]; [reflexivity |].
    cbn [rstrip_sep]. destruct (Z.eqb_spec c 47); [contradiction | reflexivity].
  - cbn [rstrip_sep] in *. rewrite IH. reflexivity.
Qed.

Lemma all_sep_snoc (s : str) : all_sep (s ++ [47]) = all_sep s.
Proof. unfold all_sep. rewrite forallb_app. cbn. apply andb_true_r. Qed.

(** The directory part [os.path.split] returns, when it is not made of
    slashes only, has no slash at its end. *)
Lemma split_directory_stripped (p directory filename : str) :
  split p = (directory, filename) -> all_sep directory = false ->
  rstrip_sep directory = directory.
Proof.
  unfold split. destruct (split_at_last_sep p) as [head tail].
  destruct head as [| h0 head']; cbn [is_empty negb andb].
  - intros [= <- _]. discriminate.
  - destruct (all_sep (h0 :: head')) eqn:Hall; cbn [negb].
    + intros [= <- _] Hno. congruence.
    + intros [= <- _] _. exact (rstrip_sep_idempotent (h0 :: head')).
Qed.

Lemma split_filename_no_sep (p directory filename : str) :
  split p = (directory, filename) -> no_sep filename.
Proof.
  unfold split. destruct (split_at_last_sep_spec p) as [_ Htail].
  destruct (split_at_last_sep p) as [head tail]. intros [= _ <-]. exact Htail.
Qed.

(** Splitting what [fix_byte_limit] joins. *)
Lemma split_join (directory name : str) :
  no_sep name ->
  (split (directory ++ [47] ++ name)).2 = name
  /\ (all_sep directory = false -> rstrip_sep directory = directory ->
      (split (directory ++ [47] ++ name)).1 = directory).
Proof.
  intros Hname. unfold split. cbn [app].
  rewrite (split_at_last_sep_join directory name Hname). split; [reflexivity |].
  intros Hall Hstripped. cbn [fst]. rewrite all_sep_snoc, Hall.
  destruct directory as [| d0 directory]; [discriminate |]. cbn [app is_empty negb andb].
  etransitivity; [exact (rstrip_sep_snoc (d0 :: directory)) | exact Hstripped].
Qed.

Lemma no_sep_prefix (s t : str) : no_sep (s ++ t) -> no_sep s.
Proof. unfold no_sep. rewrite Forall_app. tauto. Qed.

Lemma slice_to_nonneg (bs : bytes) (n : Z) : 0 <= n -> slice_to bs n = take (Z.to_nat n) bs.
Proof. intros Hn. unfold slice_to. destruct (Z.ltb_spec n 0); [lia | reflexivity]. Qed.

(** C10, as the code has it.  Let [directory] and [filename] be what
    [os.path.split] makes of the relative path, backslashes replaced, and
    let [filename] be well-formed text.  For a limit that is not negative,
    [fix_byte_limit] returns [directory], a slash and [name], where [name]
    is the longest prefix of [filename] made of whole characters that
    encodes to at most [byte_limit] bytes: it encodes without error, a
    character cut by the limit is dropped with all that follows, and the
    next character would not fit.  [name] is the file name component of the
    path returned and, when [directory] is not empty (nor made of slashes
    only), [directory] is its directory component. *)
Theorem fix_byte_limit_truncates
    (cwd path rel directory filename : str) (byte_limit : Z) :
  relpath cwd path = Ok rel ->
  split (replace_backslash rel) = (directory, filename) ->
  Forall scalar filename ->
  0 <= byte_limit ->
  exists name name_bytes,
    fix_byte_limit cwd path byte_limit = Ok (directory ++ [47] ++ name)
    /\ name = fit (Z.to_nat byte_limit) filename
    /\ encode name = Ok name_bytes
    /\ Z.of_nat (length name_bytes) <= byte_limit
    /\ (exists dropped, filename = name ++ dropped)
    /\ (name = filename
        \/ exists c rest bc,
             filename = name ++ c :: rest /\ encode_char c = Some bc
             /\ byte_limit < Z.of_nat (length name_bytes + length bc))
    /\ (split (directory ++ [47] ++ name)).2 = name
    /\ (all_sep directory = false ->
        (split (directory ++ [47] ++ name)).1 = directory).
Proof.
  intros Hrel Hsplit Hscalar Hlimit.
  destruct (encode_scalar filename Hscalar) as [bs Hbs].
  set (n := Z.to_nat byte_limit).
  destruct (fit_encode filename bs n Hbs) as (name_bytes & Hkeep & Hlen & _).
  destruct (fit_prefix filename n) as [dropped Hdropped].
  assert (Hname : no_sep (fit n filename)).
  { apply (no_sep_prefix _ dropped). rewrite <- Hdropped.
    eapply split_filename_no_sep. exact Hsplit. }
  destruct (split_join directory (fit n filename) Hname) as [Htail Hhead].
  exists (fit n filename), name_bytes. split_and!.
  - unfold fix_byte_limit. rewrite Hrel. unfold mbind at 1, result_bind at 1.
    rewrite Hsplit. rewrite Hbs. unfold mbind, result_bind.
    rewrite slice_to_nonneg by exact Hlimit.
    rewrite (decode_truncated filename bs _ Hbs). reflexivity.
  - reflexivity.
  - exact Hkeep.
  - unfold n in Hlen. lia.
  - exists dropped. exact Hdropped.
  - destruct (fit_longest filename bs n Hbs)
      as [Hall | (c & rest & bc & bs' & Hcut & Hbc & Hkeep' & Hover)].
    + left. exact Hall.
    + right. exists c, rest, bc. split; [exact Hcut |]. split; [exact Hbc |].
      assert (bs' = name_bytes) as -> by congruence. unfold n in Hover. lia.
  - exact Htail.
  - intros Hall. apply Hhead; [exact Hall |].
    eapply split_directory_stripped; eassumption.
Qed.

Lemma fix_byte_limit_truncates_witness :
  fix_byte_limit (lit "/home/u") (lit "d/" ++ [233; 8364; 97]) 4 = Ok (lit "d/" ++ [233])
  /\ encode [233] = Ok [195; 169].
Proof.
  destruct (fix_byte_limit_truncates (lit "/home/u") (lit "d/" ++ [233; 8364; 97])
              (lit "d/" ++ [233; 8364; 97]) (lit "d") [233; 8364; 97] 4)
    as (name & name_bytes & Hrun & -> & _);
    [reflexivity | reflexivity | repeat constructor; unfold scalar; lia | lia |].
  split; [exact Hrun | reflexivity].
Defined.

(** C10, as stated, fails for a negative limit: [bs[:-1]] drops the last
    byte, so the name returned for [d/abc] is [ab], two bytes long. *)
Lemma fix_byte_limit_negative_limit :
  fix_byte_limit (lit "/home/u") (lit "d/abc") (-1) = Ok (lit "d/ab")
  /\ split (lit "d/ab") = (lit "d", lit "ab")
  /\ encode (lit "ab") = Ok [97; 98]
  /\ ~ Z.of_nat (length [97; 98]) <= -1.
Proof. split_and!; [reflexivity | reflexivity | reflexivity | cbn; lia]. Qed.

(** A name without directory comes back under the root: the empty directory
    part is joined with a slash all the same. *)
Example fix_byte_limit_bare_name :
  fix_byte_limit (lit "/home/u") (lit "a.txt") 250 = Ok (lit "/a.txt").
Proof. reflexivity. Qed.

End ByteLimitFacts.

(** ** Hexadecimal strings, continued *)
Module PyMore.
Import PyFacts.

Lemma hex_digits_long (fuel k : nat) :
  forall z, 16 ^ Z.of_nat k <= z < 16 ^ Z.of_nat fuel ->
            (k < length (hex_digits fuel z))%nat.
Proof.
  revert k. induction fuel as [| fuel IH]; intros k z [Hlo Hhi].
  - pose proof (Z.pow_pos_nonneg 16 (Z.of_nat k)). cbn in Hhi. lia.
  - cbn [hex_digits].
    assert (0 < 16 ^ Z.of_nat k) by (apply Z.pow_pos_nonneg; lia).
    destruct (Z.leb_spec z 0) as [Hle | Hpos]; [lia |].
    rewrite length_app. cbn [length].
    destruct k as [| k]; [lia |].
    rewrite Nat2Z.inj_succ, Z.pow_succ_r in Hlo, Hhi by lia.
    specialize (IH k (z / 16)).
    assert (16 ^ Z.of_nat k <= z / 16) by (apply Z.div_le_lower_bound; lia).
    assert (z / 16 < 16 ^ Z.of_nat fuel) by (apply Z.div_lt_upper_bound; lia).
    lia.
Qed.

(** A string [f"{z:032x}"] of 32 characters that [bytes.fromhex] accepts is
    the image of a 128-bit number. *)
Lemma format_032x_accepted (z : Z) (bs : bytes) :
  length (format_032x z) = 32%nat -> fromhex (format_032x z) = Ok bs ->
  0 <= z < 2 ^ 128.
Proof.
  intros Hlen Hhex. unfold format_032x in *.
  destruct (Z.ltb_spec z 0) as [Hneg | Hnn].
  - exfalso. cbn [fromhex] in Hhex. change (is_space 45) with false in Hhex.
    cbn match in Hhex. destruct (zfill 31 (hex (- z))); discriminate.
  - split; [exact Hnn |].
    destruct (Z.lt_ge_cases z (2 ^ 128)) as [Hlt | Hge]; [exact Hlt | exfalso].
    unfold zfill in Hlen. rewrite length_app, repeat_length in Hlen.
    unfold hex in Hlen. destruct (Z.leb_spec z 0) as [Hle | Hpos]; [lia |].
    pose proof (hex_digits_long (S (Z.to_nat (Z.log2 z))) 32 z) as Hlong.
    change (16 ^ Z.of_nat 32) with (2 ^ 128) in Hlong.
    pose proof (hex_fuel_enough z Hpos). lia.
Qed.

End PyMore.

(** ** Checksum utilities, continued *)
Module ChecksumMore.
Import Checksum ChecksumSpec PyFacts ChecksumFacts.

Ltac run_all :=
  unfold FLAC, save, NamedTemporaryFile, subprocess_run, os_unlink, path_exists, sleep,
    emit, print, set_fs, raise, try_except, try_finally, mbind, M_bind, mret, M_ret;
  cbn [fs stdout calls].

(** When nothing fails, [calculate_unencoded_md5] returns the MD5 of the raw
    samples ffmpeg wrote, the temporary file is gone and every other file is
    as before. *)
Theorem calculate_unencoded_md5_returns_digest
    (E : env) (file_path : str) (w : world) (f : flac) (t : str) (fc : str * str)
    (raw : bytes) :
  flac_load E file_path = Ok f ->
  mktemp E (lit ".raw") = Ok t ->
  raw_format (bits_per_sample f) = Some fc ->
  ffmpeg E (raw_argv file_path fc f t) = Ok raw ->
  open_fault E t = None ->
  (forall k, read_fault E t k = None) ->
  unlink_fault E t 0 = None ->
  exists w',
    calculate_unencoded_md5 E file_path w = (Ok (Hashlib.md5_hex raw), w')
    /\ length (Hashlib.md5_hex raw) = 32%nat
    /\ fs w' = delete t (fs w)
    /\ stdout w' = stdout w.
Proof.
  intros Hload Hmk Hfmt Hrun Hopen Hread Hunlink.
  unfold calculate_unencoded_md5, extract_and_hash. run_all.
  rewrite Hload, Hmk. cbn [fs stdout calls]. rewrite Hfmt. cbn beta iota.
  rewrite Hrun. cbn [fs stdout calls].
  match goal with
  | |- context [hash_file E t ?w1] =>
      rewrite (hash_file_ok E t w1 raw); [| cbn [fs]; apply lookup_insert_eq | exact Hopen | exact Hread]
  end.
  cbn [fs stdout calls range3 remove_with_retries]. run_all.
  rewrite bool_decide_eq_true_2 by (rewrite lookup_insert_eq; eauto).
  rewrite Hunlink. cbn [fs stdout calls].
  eexists. split; [reflexivity |]. split; [apply md5_hex_length |]. cbn [fs stdout].
  split; [| reflexivity]. rewrite !delete_insert_eq. reflexivity.
Qed.

Lemma calculate_unencoded_md5_returns_digest_witness :
  exists w',
    calculate_unencoded_md5 E_quiet (lit "a.flac") w_one
      = (Ok (lit "08d6c05a21512a79a1dfeb9d2a8f262f"), w')
    /\ fs w' = delete (lit "/tmp/tmp0.raw") (fs w_one).
Proof.
  destruct (calculate_unencoded_md5_returns_digest E_quiet (lit "a.flac") w_one
              (Flac 44100 2 16 0) (lit "/tmp/tmp0.raw") (lit "s16le", lit "pcm_s16le")
              [1; 2; 3; 4])
    as (w' & Hrun & _ & Hfs & _);
    [reflexivity | reflexivity | reflexivity | reflexivity | reflexivity
    | intros k; reflexivity | reflexivity |].
  exists w'. split; [exact Hrun | exact Hfs].
Defined.

Lemma set_stores
    (E : env) (file_path : str) (w : world) (f : flac) (z : Z) (content : bytes) :
  flac_load E file_path = Ok f ->
  0 <= z < 2 ^ 128 ->
  flac_save E file_path (Flac (sample_rate f) (channels f) (bits_per_sample f) z)
    = Ok content ->
  set_flac_md5_signature E file_path (format_032x z) w =
    (Ok true,
     World (<[file_path := content]> (fs w)) (stdout w)
       (EvFlacSave file_path z :: EvFlacLoad file_path :: calls w)).
Proof.
  intros Hload Hz Hsave.
  destruct (format_032x_read_back z Hz) as (bs & Hbs & Hnum).
  unfold set_flac_md5_signature. run_all.
  rewrite Hload, (format_032x_length z Hz), Hbs. cbn [Nat.eqb fs stdout calls md5_signature].
  rewrite Hnum, Hsave. reflexivity.
Qed.

(** Writing a 128-bit number in the form [f"{z:032x}"] stores that very
    number: the file is loaded, saved once with [md5_signature = z], and the
    call returns [True]. *)
Theorem set_flac_md5_signature_stores_number
    (E : env) (file_path : str) (w : world) (f : flac) (z : Z) (content : bytes) :
  flac_load E file_path = Ok f ->
  0 <= z < 2 ^ 128 ->
  flac_save E file_path (Flac (sample_rate f) (channels f) (bits_per_sample f) z)
    = Ok content ->
  set_flac_md5_signature E file_path (format_032x z) w =
    (Ok true,
     World (<[file_path := content]> (fs w)) (stdout w)
       (EvFlacSave file_path z :: EvFlacLoad file_path :: calls w)).
Proof.
  intros Hload Hz Hsave.
  destruct (format_032x_read_back z Hz) as (bs & Hbs & Hnum).
  unfold set_flac_md5_signature. run_all.
  rewrite Hload, (format_032x_length z Hz), Hbs. cbn [Nat.eqb fs stdout calls md5_signature].
  rewrite Hnum, Hsave. reflexivity.
Qed.

Lemma set_flac_md5_signature_stores_number_witness :
  set_flac_md5_signature E_quiet (lit "a.flac") (format_032x 255) w_one =
    (Ok true,
     World (<[lit "a.flac" := lit "fLaC"]> (fs w_one)) []
       [EvFlacSave (lit "a.flac") 255; EvFlacLoad (lit "a.flac")]).
Proof.
  apply (set_flac_md5_signature_stores_number E_quiet (lit "a.flac") w_one
           (Flac 44100 2 16 0) 255 (lit "fLaC"));
    [reflexivity | split; [discriminate | reflexivity] | reflexivity].
Defined.

Lemma set_spec (E : env) (file_path md5_hash : str) (w : world) :
  exists r w',
    set_flac_md5_signature E file_path md5_hash w = (r, w')
    /\ (r <> Ok true -> fs w' = fs w)
    /\ (r = Ok true ->
        exists f md5_bytes content,
          flac_load E file_path = Ok f
          /\ length md5_hash = 32%nat
          /\ fromhex md5_hash = Ok md5_bytes
          /\ flac_save E file_path
               (Flac (sample_rate f) (channels f) (bits_per_sample f)
                  (int_from_bytes_big md5_bytes)) = Ok content
          /\ fs w' = <[file_path := content]> (fs w))
    /\ (calls w' = EvFlacLoad file_path :: calls w
        \/ exists bs, length md5_hash = 32%nat /\ fromhex md5_hash = Ok bs
             /\ calls w' = EvFlacSave file_path (int_from_bytes_big bs)
                             :: EvFlacLoad file_path :: calls w).
Proof.
  unfold set_flac_md5_signature. run_all.
  destruct (flac_load E file_path) as [f | e] eqn:Hload.
  - destruct (Nat.eqb_spec (length md5_hash) 32) as [Hlen | Hlen].
    + destruct (fromhex md5_hash) as [bs | e] eqn:Hhex.
      * cbn [fs stdout calls md5_signature].
        destruct (flac_save E file_path _) as [content | e] eqn:Hsave.
        -- eexists _, _. split; [reflexivity |]. split_and!; try done.
           ++ intros _. exists f, bs, content. split_and!; done.
           ++ right. eauto.
        -- destruct (is_Exception e) eqn:He; eexists _, _; (split; [reflexivity |]);
             split_and!; try done; right; eauto.
      * destruct (is_Exception e) eqn:He; eexists _, _; (split; [reflexivity |]);
          split_and!; try done; left; reflexivity.
    + eexists _, _. split; [reflexivity |]. split_and!; try done. left; reflexivity.
  - destruct (is_Exception e) eqn:He; eexists _, _; (split; [reflexivity |]);
      split_and!; try done; left; reflexivity.
Qed.


Lemma cleanup_saves (t : str) (evc rest : list event) :
  Forall (fun ev => ev = EvUnlink t \/ ev = EvSleep) evc ->
  List.filter is_save (evc ++ rest) = List.filter is_save rest
  /\ forall p z, In (EvFlacSave p z) (evc ++ rest) -> In (EvFlacSave p z) rest.
Proof.
  induction 1 as [| ev evc [-> | ->] _ [IHf IHin]]; cbn [app List.filter is_save].
  - split; [reflexivity | tauto].
  - split; [exact IHf |]. intros p z [Hd | Hin]; [discriminate | auto].
  - split; [exact IHf |]. intros p z [Hd | Hin]; [discriminate | auto].
Qed.

Lemma format_032x_stored (z : Z) (bs : bytes) :
  length (format_032x z) = 32%nat -> fromhex (format_032x z) = Ok bs ->
  int_from_bytes_big bs = z.
Proof.
  intros Hlen Hhex.
  destruct (format_032x_read_back z (PyMore.format_032x_accepted z bs Hlen Hhex))
    as (bs' & Hbs' & Hnum).
  congruence.
Qed.

Ltac exists_now c :=
  lazymatch goal with
  | |- exists r w' evs, (?r0, World ?f0 ?o0 ?cs) = _ /\ _ =>
      let p := events_since cs c in
      exists r0, (World f0 o0 cs), p
  end;
  split; [reflexivity |]; split; [reflexivity |].

Ltac cleanup c :=
  match goal with
  | |- context [remove_with_retries ?E ?t range3 ?w1] =>
      let rc := fresh "rc" in let fc := fresh "fc" in let evc := fresh "evc" in
      let Hc := fresh "Hc" in let Hevc := fresh "Hevc" in
      destruct (remove_with_retries_spec E t w1) as (rc & fc & evc & Hc & _ & Hevc & _);
      rewrite Hc; cbn [fs stdout calls] in *;
      destruct rc as [[] | ?]; cbn beta iota;
      repeat match goal with
      | |- context [if is_Exception ?e then _ else _] => destruct (is_Exception e)
      end;
      lazymatch goal with
      | |- exists r w' evs, (?r0, World ?f0 ?o0 (evc ++ ?cs)) = _ /\ _ =>
          let p := events_since cs c in
          exists r0, (World f0 o0 (evc ++ cs)), (evc ++ p);
          split; [reflexivity |]; split; [cbn [calls]; rewrite <- app_assoc; reflexivity |];
          destruct (cleanup_saves t evc p Hevc) as [Hfilter Hin]; rewrite Hfilter;
          split; [cbn; lia |];
          let q := fresh "q" in let z := fresh "z" in let H := fresh "H" in
          intros q z H; apply Hin in H; cbn [In] in H
      end
  end.

Ltac no_save :=
  repeat match goal with
  | H : _ \/ _ |- _ => destruct H as [H | H]
  | H : False |- _ => destruct H
  | H : _ = EvFlacSave _ _ |- _ => try discriminate H
  end.

(** Whatever the collaborators do, [fix_flac_md5_signature] asks mutagen to
    save at most once, and what it then stores in [file_path] is the nonzero
    checksum mutagen read from the re-encoded temporary file. *)
Theorem fix_flac_md5_signature_saves_reencoded_checksum
    (E : env) (file_path : str) (w : world) :
  exists r w' evs,
    fix_flac_md5_signature E file_path w = (r, w')
    /\ calls w' = evs ++ calls w
    /\ (length (List.filter is_save evs) <= 1)%nat
    /\ forall p z, In (EvFlacSave p z) evs ->
         p = file_path
         /\ exists f0 t ft,
              flac_load E file_path = Ok f0 /\ md5_signature f0 = 0
              /\ mktemp E (lit ".flac") = Ok t
              /\ flac_load E t = Ok ft /\ md5_signature ft = z /\ z <> 0.
Proof.
  destruct w as [f o c].
  unfold fix_flac_md5_signature. run_all.
  destruct (flac_load E file_path) as [f0 | e] eqn:Hload; cbn [fs stdout calls].
  2: { destruct (is_Exception e); exists_now c; (split; [cbn; lia |]);
       intros q z H; cbn [In] in H; no_save. }
  destruct (Z.eqb_spec (md5_signature f0) 0) as [Hzero | Hsig]; cbn [negb andb].
  2: { exists_now c. split; [cbn; lia |]. intros q z H; cbn [In] in H; no_save. }
  destruct (mktemp E (lit ".flac")) as [t | e] eqn:Hmk; cbn [fs stdout calls].
  2: { destruct (is_Exception e); exists_now c; (split; [cbn; lia |]);
       intros q z H; cbn [In] in H; no_save. }
  match goal with
  | |- context [ffmpeg E ?argv] => destruct (ffmpeg E argv) as [reencoded | e] eqn:Hrun
  end; cbn [fs stdout calls].
  2: { cleanup c; no_save. }
  destruct (flac_load E t) as [ft | e] eqn:Hloadt; cbn [fs stdout calls].
  2: { cleanup c; no_save. }
  destruct (Z.eqb_spec (md5_signature ft) 0) as [Hzt | Hsigt]; cbn [negb andb].
  { cleanup c; no_save. }
  match goal with
  | |- context [set_flac_md5_signature E file_path ?h ?w1] =>
      destruct (set_spec E file_path h w1) as (r & [f2 o2 c2] & Hset & _ & _ & Hcalls);
      rewrite Hset
  end.
  cbn [fs stdout calls] in Hcalls.
  destruct Hcalls as [-> | (bs & Hlen & Hhex & ->)].
  - destruct r as [[|] | e]; cleanup c; no_save.
  - pose proof (format_032x_stored _ _ Hlen Hhex) as Hnum.
    destruct r as [[|] | e]; cleanup c; no_save.
    all: injection H as <- <-; (split; [reflexivity |]);
      exists f0, t, ft; split_and!; congruence.
Qed.

Ltac cleanup_in H :=
  match type of H with
  | context [remove_with_retries ?E ?t range3 ?w1] =>
      let rc := fresh "rc" in let fc := fresh "fc" in let evc := fresh "evc" in
      let Hc := fresh "Hc" in let Hframe := fresh "Hframe" in
      destruct (remove_with_retries_spec E t w1) as (rc & fc & evc & Hc & Hframe & _);
      rewrite Hc in H; cbn [fs stdout calls] in *;
      destruct rc as [[] | ?]; cbn beta iota in H;
      repeat match type of H with
      | context [if is_Exception ?e then _ else _] => destruct (is_Exception e)
      end;
      try discriminate H
  end.

(** A checksum that [fix_flac_md5_signature] returns is never the zero one,
    and it is the one the file carries afterwards: either mutagen read it
    from the file and nothing was changed, or it was read from the
    re-encoded copy and saved in the file. *)
Theorem fix_flac_md5_signature_returns_stored
    (E : env) (file_path : str) (w w' : world) (h : str) :
  fix_flac_md5_signature E file_path w = (Ok h, w') ->
  exists f0 z,
    flac_load E file_path = Ok f0 /\ z <> 0 /\ h = format_032x z
    /\ (md5_signature f0 = z /\ fs w' = fs w
        \/ md5_signature f0 = 0 /\ 0 < z < 2 ^ 128 /\ length h = 32%nat
           /\ exists t ft content,
                mktemp E (lit ".flac") = Ok t
                /\ flac_load E t = Ok ft /\ md5_signature ft = z
                /\ flac_save E file_path
                     (Flac (sample_rate f0) (channels f0) (bits_per_sample f0) z)
                   = Ok content
                /\ (t <> file_path -> fs w' !! file_path = Some content)).
Proof.
  destruct w as [f o c].
  unfold fix_flac_md5_signature. run_all. intros H.
  destruct (flac_load E file_path) as [f0 | e] eqn:Hload; cbn [fs stdout calls] in H.
  2: { destruct (is_Exception e); discriminate H. }
  exists f0.
  destruct (Z.eqb_spec (md5_signature f0) 0) as [Hzero | Hsig]; cbn [negb andb] in H.
  2: { injection H as <- <-. exists (md5_signature f0). split_and!; try done.
       left. split; reflexivity. }
  destruct (mktemp E (lit ".flac")) as [t | e] eqn:Hmk; cbn [fs stdout calls] in H.
  2: { destruct (is_Exception e); discriminate H. }
  match type of H with
  | context [ffmpeg E ?argv] => destruct (ffmpeg E argv) as [reencoded | e] eqn:Hrun
  end; cbn [fs stdout calls] in H.
  2: { cleanup_in H. }
  destruct (flac_load E t) as [ft | e] eqn:Hloadt; cbn [fs stdout calls] in H.
  2: { cleanup_in H. }
  destruct (Z.eqb_spec (md5_signature ft) 0) as [Hzt | Hsigt]; cbn [negb andb] in H.
  { cleanup_in H. }
  match type of H with
  | context [set_flac_md5_signature E file_path ?h ?w1] =>
      destruct (set_spec E file_path h w1)
        as (r & [f2 o2 c2] & Hset & _ & Hsaved & _);
      rewrite Hset in H
  end.
  destruct r as [[|] | e]; cleanup_in H.
  injection H as <- <-.
  destruct (Hsaved eq_refl) as (f0' & bs & content & Hload' & Hlen & Hhex & Hsave & Hfs).
  assert (f0' = f0) as -> by congruence.
  pose proof (PyMore.format_032x_accepted _ _ Hlen Hhex) as Hrange.
  rewrite (format_032x_stored _ _ Hlen Hhex) in Hsave.
  exists (md5_signature ft). split_and!; try done.
  right. split_and!; try done; try lia.
  exists t, ft, content. split_and!; try done.
  intros Hne. rewrite Hframe by congruence. cbn [fs] in Hfs. rewrite Hfs.
  apply lookup_insert_eq.
Qed.

Lemma fix_flac_md5_signature_returns_stored_witness :
  exists f0 z,
    flac_load E_unsigned (lit "a.flac") = Ok f0 /\ z <> 0
    /\ lit "000000000000000000000000000000ff" = format_032x z
    /\ (md5_signature f0 = z
          /\ fs (fix_flac_md5_signature E_unsigned (lit "a.flac") w_one).2 = fs w_one
        \/ md5_signature f0 = 0 /\ 0 < z < 2 ^ 128
           /\ length (lit "000000000000000000000000000000ff") = 32%nat
           /\ exists t ft content,
                mktemp E_unsigned (lit ".flac") = Ok t
                /\ flac_load E_unsigned t = Ok ft /\ md5_signature ft = z
                /\ flac_save E_unsigned (lit "a.flac")
                     (Flac (sample_rate f0) (channels f0) (bits_per_sample f0) z)
                   = Ok content
                /\ (t <> lit "a.flac" ->
                    fs (fix_flac_md5_signature E_unsigned (lit "a.flac") w_one).2
                      !! lit "a.flac" = Some content)).
Proof.
  apply (fix_flac_md5_signature_returns_stored E_unsigned (lit "a.flac") w_one).
  vm_compute. reflexivity.
Defined.

(** The repair: a file without stored checksum is re-encoded, the checksum
    mutagen reads from the re-encoded file is saved in the original and
    returned as 32 hexadecimal digits, and the temporary file is removed. *)
Theorem fix_flac_md5_signature_repairs
    (E : env) (file_path : str) (w : world) (f0 ft : flac) (t : str)
    (reencoded content : bytes) :
  flac_load E file_path = Ok f0 ->
  md5_signature f0 = 0 ->
  mktemp E (lit ".flac") = Ok t ->
  t <> file_path ->
  ffmpeg E (reencode_argv file_path t) = Ok reencoded ->
  flac_load E t = Ok ft ->
  0 < md5_signature ft < 2 ^ 128 ->
  flac_save E file_path
    (Flac (sample_rate f0) (channels f0) (bits_per_sample f0) (md5_signature ft))
    = Ok content ->
  unlink_fault E t 0 = None ->
  exists w',
    fix_flac_md5_signature E file_path w = (Ok (format_032x (md5_signature ft)), w')
    /\ fs w' = <[file_path := content]> (delete t (fs w))
    /\ stdout w' = stdout w.
Proof.
  intros Hload Hzero Hmk Hne Hrun Hloadt Hsig Hsave Hunlink.
  unfold reencode_argv in Hrun.
  unfold fix_flac_md5_signature. run_all.
  rewrite Hload. cbn [fs stdout calls]. rewrite Hzero. cbn [Z.eqb negb andb].
  rewrite Hmk. cbn [fs stdout calls]. rewrite Hrun. cbn [fs stdout calls].
  rewrite Hloadt. cbn [fs stdout calls].
  destruct (Z.eqb_spec (md5_signature ft) 0) as [Hz | _]; [lia |]. cbn [negb andb].
  rewrite (set_stores E file_path _ f0 (md5_signature ft) content
             Hload ltac:(lia) Hsave).
  cbn [fs stdout calls range3 remove_with_retries]. run_all.
  rewrite bool_decide_eq_true_2
    by (rewrite lookup_insert_ne, lookup_insert_eq by congruence; eauto).
  rewrite Hunlink. cbn [fs stdout calls].
  eexists. split; [reflexivity |]. cbn [fs stdout]. split; [| reflexivity].
  rewrite delete_insert_ne by congruence. rewrite !delete_insert_eq. reflexivity.
Qed.

Lemma fix_flac_md5_signature_repairs_witness :
  exists w',
    fix_flac_md5_signature E_unsigned (lit "a.flac") w_one
      = (Ok (lit "000000000000000000000000000000ff"), w')
    /\ fs w' = <[lit "a.flac" := lit "fLaC"]> (delete (lit "/tmp/tmp0.flac") (fs w_one))
    /\ stdout w' = [].
Proof.
  apply (fix_flac_md5_signature_repairs E_unsigned (lit "a.flac") w_one
           (Flac 44100 2 16 0) (Flac 44100 2 16 255) (lit "/tmp/tmp0.flac")
           [1; 2; 3; 4] (lit "fLaC"));
    [reflexivity | reflexivity | reflexivity | discriminate | reflexivity | reflexivity
    | split; reflexivity | reflexivity | reflexivity].
Defined.

End ChecksumMore.

(** ** Hashing and cleaning of names *)
Module NamesFacts.
Import Checksum ByteLimit Names ChecksumFacts ByteLimitFacts.

Lemma encode_char_some_scalar (c : Z) (bs : bytes) : encode_char c = Some bs -> scalar c.
Proof.
  unfold encode_char, scalar.
  repeat match goal with
  | |- context [?a <? ?b] => destruct (Z.ltb_spec a b)
  end; intros Hsome; try discriminate Hsome; lia.
Qed.

Lemma encode_ok_scalar (s : str) (bs : bytes) : encode s = Ok bs -> Forall scalar s.
Proof.
  revert bs. induction s as [| c rest IH]; intros bs; [constructor |].
  cbn [encode]. destruct (encode_char c) as [bc |] eqn:Hc; [| discriminate].
  destruct (encode rest) as [bs' | e]; [| discriminate]. intros _.
  constructor; [eapply encode_char_some_scalar; exact Hc | eapply IH; reflexivity].
Qed.

(** Hashing a string is hashing a file that holds its UTF-8 encoding: for a
    readable file, [calculate_file_md5] returns what [hash_string] returns
    for the text, and leaves the disk as it was. *)
Theorem hash_string_agrees_with_file_md5
    (E : env) (file_path : str) (w : world) (input_str : str) (data : bytes) :
  encode input_str = Ok data ->
  fs w !! file_path = Some data ->
  open_fault E file_path = None ->
  (forall k, read_fault E file_path k = None) ->
  exists w',
    calculate_file_md5 E file_path w = (hash_string input_str (lit "MD5"), w')
    /\ fs w' = fs w /\ stdout w' = stdout w.
Proof.
  intros Henc Hfile Hopen Hread.
  unfold calculate_file_md5, try_except, mbind, M_bind.
  rewrite (hash_file_ok E file_path w data Hfile Hopen Hread).
  unfold hash_string. rewrite bool_decide_eq_true_2 by reflexivity.
  rewrite Henc. eexists. split; [reflexivity |]. split; reflexivity.
Qed.

Lemma hash_string_agrees_with_file_md5_witness :
  exists w',
    calculate_file_md5 E_quiet (lit "a.flac") w_one = (hash_string (lit "fLaC") (lit "MD5"), w')
    /\ fs w' = fs w_one /\ stdout w' = stdout w_one.
Proof.
  apply (hash_string_agrees_with_file_md5 E_quiet (lit "a.flac") w_one (lit "fLaC")
           (lit "fLaC"));
    [reflexivity | reflexivity | reflexivity | intros k; reflexivity].
Defined.

(** [hash_string] returns exactly when the hash type is the string [MD5] and
    the text has no lone surrogate, and what it returns has 32 characters. *)
Theorem hash_string_returns_iff (input_str hash_type : str) :
  (exists h, hash_string input_str hash_type = Ok h /\ length h = 32%nat)
  <-> hash_type = lit "MD5" /\ Forall scalar input_str.
Proof.
  unfold hash_string. split.
  - intros (h & Hrun & _). destruct (decide (hash_type = lit "MD5")) as [-> | Hne].
    + split; [reflexivity |]. rewrite bool_decide_eq_true_2 in Hrun by reflexivity.
      destruct (encode input_str) as [data | e] eqn:Henc; [| discriminate].
      eapply encode_ok_scalar; exact Henc.
    + rewrite bool_decide_eq_false_2 in Hrun by exact Hne. discriminate.
  - intros [-> Hs]. rewrite bool_decide_eq_true_2 by reflexivity.
    destruct (encode_scalar input_str Hs) as [data ->].
    eexists. split; [reflexivity |]. apply md5_hex_length.
Qed.

Example sub_trailing_blanks_before_line_feed :
  sub_trailing_blanks (lit "a " ++ [9; 10]) = lit "a" ++ [10]
  /\ sub_trailing_blanks (lit "a " ++ [10; 10]) = lit "a " ++ [10; 10]
  /\ sanitise_name (lit "a: b/c*?<>|$" ++ [34; 92; 32; 9; 10]) = lit "a -  bc".
Proof. split_and!; reflexivity. Qed.

Lemma rstrip_by_nil (strip : Z -> bool) (s : str) :
  rstrip_by strip s = [] -> forallb strip s = true.
Proof.
  induction s as [| c rest IH]; [reflexivity |]. cbn [rstrip_by forallb].
  destruct (rstrip_by strip rest); [| discriminate].
  destruct (strip c); [intros _; apply IH; reflexivity | discriminate].
Qed.

(** What is left after stripping does not end in a stripped character. *)
Lemma rstrip_by_last (strip : Z -> bool) (s : str) (c : Z) :
  last (rstrip_by strip s) = Some c -> strip c = false.
Proof.
  induction s as [| c0 rest IH]; [discriminate |]. cbn [rstrip_by].
  destruct (rstrip_by strip rest) as [| r0 rest'] eqn:Hrest.
  - destruct (strip c0) eqn:Hc0; [discriminate |]. intros [= <-]. exact Hc0.
  - rewrite last_cons. destruct (last (r0 :: rest')) as [c1 |] eqn:Hlast.
    + intros [= <-]. apply IH. reflexivity.
    + apply last_None in Hlast. discriminate.
Qed.

Lemma rstrip_by_id (strip : Z -> bool) (s : str) :
  (forall c, last s = Some c -> strip c = false) -> rstrip_by strip s = s.
Proof.
  induction s as [| c0 rest IH]; [reflexivity |]. intros Hlast. cbn [rstrip_by].
  destruct rest as [| r0 rest'].
  - cbn [rstrip_by]. rewrite (Hlast c0 eq_refl). reflexivity.
  - rewrite IH.
    + reflexivity.
    + intros c Hc. apply Hlast. rewrite last_cons, Hc. reflexivity.
Qed.

Lemma blank_whitespace (c : Z) : is_whitespace c = false -> blank c = false /\ c <> 10.
Proof.
  unfold is_whitespace, blank. intros H. split.
  - destruct (Z.eqb_spec c 32) as [-> | _]; [discriminate H |].
    destruct (Z.eqb_spec c 9) as [-> | _]; [discriminate H | reflexivity].
  - intros ->. discriminate H.
Qed.

Lemma sub_forbidden_clean (s : str) :
  Forall (fun c => forbidden c = false) (sub_forbidden s).
Proof.
  unfold sub_forbidden. apply Forall_forall. intros c Hc.
  apply list_elem_of_In, filter_In in Hc. destruct Hc as [_ Hc].
  apply negb_true_iff. exact Hc.
Qed.

Lemma sub_forbidden_id (s : str) :
  Forall (fun c => forbidden c = false) s -> sub_forbidden s = s.
Proof.
  unfold sub_forbidden. induction 1 as [| c rest Hc _ IH]; [reflexivity |].
  cbn [List.filter]. rewrite Hc. cbn [negb]. rewrite IH. reflexivity.
Qed.

Lemma sub_colon_id (s : str) : Forall (fun c => c <> 58) s -> sub_colon s = s.
Proof.
  unfold sub_colon. induction 1 as [| c rest Hc _ IH]; [reflexivity |].
  cbn [flat_map]. destruct (Z.eqb_spec c 58); [contradiction |].
  rewrite IH. reflexivity.
Qed.

(** After [str.rstrip()] the first substitution finds nothing to remove:
    the name is what the two other substitutions make of the stripped
    string. *)
Theorem sanitise_name_first_sub_is_idle (name : str) :
  sub_trailing_blanks (rstrip name) = rstrip name
  /\ sanitise_name name = sub_colon (sub_forbidden (rstrip name)).
Proof.
  assert (Hidle : sub_trailing_blanks (rstrip name) = rstrip name).
  { unfold sub_trailing_blanks, rstrip.
    destruct (last (rstrip_by is_whitespace name)) as [c |] eqn:Hlast.
    - pose proof (rstrip_by_last _ _ _ Hlast) as Hc.
      destruct (blank_whitespace c Hc) as [Hblank Hlf].
      destruct (Z.eqb_spec c 10); [contradiction |].
      apply rstrip_by_id. intros c' Hc'. congruence.
    - apply last_None in Hlast. symmetry. exact Hlast. }
  split; [exact Hidle |].
  unfold sanitise_name. rewrite Hidle. destruct name; reflexivity.
Qed.

(** No character that a file name may not hold is left: neither one of the
    nine deleted characters nor a colon. *)
Theorem sanitise_name_is_clean (name : str) :
  Forall (fun c => forbidden c = false /\ c <> 58) (sanitise_name name).
Proof.
  unfold sanitise_name. destruct (is_empty name); [constructor |].
  generalize (sub_forbidden_clean (sub_trailing_blanks (rstrip name))).
  generalize (sub_forbidden (sub_trailing_blanks (rstrip name))). intros s.
  unfold sub_colon. induction 1 as [| c rest Hc _ IH]; [constructor |].
  cbn [flat_map]. apply Forall_app. split; [| exact IH].
  destruct (Z.eqb_spec c 58) as [-> | Hne].
  - repeat constructor; discriminate.
  - repeat constructor; assumption.
Qed.

(** A name that holds none of those characters and does not end in white
    space is returned as it is. *)
Theorem sanitise_name_keeps_clean_names (name : str) :
  Forall (fun c => forbidden c = false /\ c <> 58) name ->
  (forall c, last name = Some c -> is_whitespace c = false) ->
  sanitise_name name = name.
Proof.
  intros Hclean Hlast. unfold sanitise_name. destruct name as [| c0 rest]; [reflexivity |].
  cbn [is_empty].
  assert (Hstrip : rstrip (c0 :: rest) = c0 :: rest) by (apply rstrip_by_id; exact Hlast).
  rewrite Hstrip.
  assert (Hidle : sub_trailing_blanks (c0 :: rest) = c0 :: rest).
  { unfold sub_trailing_blanks.
    destruct (last (c0 :: rest)) as [c |] eqn:Hl; [| apply last_None in Hl; discriminate].
    destruct (blank_whitespace c (Hlast c eq_refl)) as [Hblank Hlf].
    destruct (Z.eqb_spec c 10); [contradiction |].
    apply rstrip_by_id. intros c' Hc'. congruence. }
  rewrite Hidle, sub_forbidden_id, sub_colon_id; [reflexivity | |].
  - eapply Forall_impl; [exact Hclean |]. intros c [_ Hc]. exact Hc.
  - eapply Forall_impl; [exact Hclean |]. intros c [Hc _]. exact Hc.
Qed.

Lemma sanitise_name_keeps_clean_names_witness :
  sanitise_name (lit "01 - Intro (live).flac") = lit "01 - Intro (live).flac".
Proof.
  apply sanitise_name_keeps_clean_names.
  - repeat constructor; discriminate.
  - intros c [= <-]. reflexivity.
Defined.

End NamesFacts.

(** ** Downloads *)
Module TempFacts.
Import Downloader Temp.

Ltac run_download :=
  unfold open_wb, f_write, get_fs, set_fs, emit, print, raise, path_exists,
    mbind, M_bind, mret, M_ret;
  cbn [fs stdout calls].

(** The loop over the chunks, on a machine that refuses no write. *)
Lemma write_chunks_spec (E : env) (path : str) (with_bar : bool)
    (chunks : list (result bytes)) :
  (forall k, write_fault E path k = None) ->
  forall (k : nat) (w : world) (content : bytes),
    fs w !! path = Some content ->
    exists evs,
      write_chunks E path with_bar k chunks w =
        (match first_error chunks with
         | None => Ok tt
         | Some e => Raise e
         end,
         World (<[path := content ++ written chunks]> (fs w)) (stdout w) (evs ++ calls w)).
Proof.
  intros Hwrite. induction chunks as [| [chunk | e] rest IH]; intros k w content Hfile.
  - exists []. cbn [write_chunks first_error written app].
    rewrite app_nil_r, insert_id by exact Hfile. destruct w; reflexivity.
  - destruct chunk as [| b chunk].
    + cbn [write_chunks first_error written app]. apply IH. exact Hfile.
    + cbn [write_chunks first_error written]. run_download.
      rewrite Hwrite. cbn [fs stdout calls]. rewrite Hfile.
      destruct with_bar; cbn [fs stdout calls].
      * match goal with
        | |- context [write_chunks _ _ _ _ _ ?w1] =>
            destruct (IH (S k) w1 (content ++ b :: chunk)) as [evs Hrest];
              [cbn [fs]; apply lookup_insert_eq |];
            rewrite Hrest
        end.
        cbn [fs stdout calls]. rewrite insert_insert_eq, <- app_assoc.
        exists (evs ++ [EvBar (Z.of_nat (length (b :: chunk))); EvWrite path (b :: chunk)]).
        rewrite <- app_assoc. reflexivity.
      * match goal with
        | |- context [write_chunks _ _ _ _ _ ?w1] =>
            destruct (IH (S k) w1 (content ++ b :: chunk)) as [evs Hrest];
              [cbn [fs]; apply lookup_insert_eq |];
            rewrite Hrest
        end.
        cbn [fs stdout calls]. rewrite insert_insert_eq, <- app_assoc.
        exists (evs ++ [EvWrite path (b :: chunk)]). rewrite <- app_assoc. reflexivity.
  - exists []. cbn [write_chunks first_error written app].
    rewrite app_nil_r, insert_id by exact Hfile. destruct w; reflexivity.
Qed.

(** The [try] block up to the resizing, on a machine that refuses neither
    [open] nor a write. *)
Lemma transfer_spec (E : env) (r : response) (total : option Z) (file_location : str)
    (enable_progress_bar : bool) (indent_level : Z) (w : world) :
  open_fault E file_location = None ->
  (forall k, write_fault E file_location k = None) ->
  exists evs,
    (open_wb E file_location;;
     (if enable_progress_bar && total_truthy total
      then emit (EvBarNew (make_bar E indent_level)) else mret tt);;
     write_chunks E file_location (enable_progress_bar && total_truthy total) 0 (body r)) w =
      (match first_error (body r) with
       | None => Ok tt
       | Some e => Raise e
       end,
       World (<[file_location := written (body r)]> (fs w)) (stdout w) (evs ++ calls w)).
Proof.
  intros Hopen Hwrite. run_download. rewrite Hopen. cbn [fs stdout calls].
  destruct (enable_progress_bar && total_truthy total); cbn [fs stdout calls].
  all: match goal with
       | |- context [write_chunks _ _ ?b _ _ ?w1] =>
           destruct (write_chunks_spec E file_location b (body r) Hwrite 0%nat w1 [])
             as [evs Hrun]; [cbn [fs]; apply lookup_insert_eq |]; rewrite Hrun
       end.
  all: cbn [fs stdout calls app]; rewrite insert_insert_eq.
  - exists (evs ++ [EvBarNew (make_bar E indent_level)]). rewrite <- app_assoc. reflexivity.
  - exists evs. reflexivity.
Qed.

Lemma seq_assoc {A} (m1 m2 m3 : M unit) (m4 : M A) (w : world) :
  (m1;; m2;; m3;; m4) w = ((m1;; m2;; m3);; m4) w.
Proof.
  unfold mbind, M_bind.
  destruct (m1 w) as [[[] | e1] w1]; [| reflexivity].
  destruct (m2 w1) as [[[] | e2] w2]; [| reflexivity].
  destruct (m3 w2) as [[[] | e3] w3]; reflexivity.
Qed.

(** The whole [try] block, on such a machine: a chunk that raises ends it
    with what was written so far; otherwise the file ends up resized, or as
    written when the resizing raises. *)
Lemma download_body_spec (E : env) (r : response) (total : option Z) (file_location : str)
    (enable_progress_bar : bool) (indent_level : Z) (artwork_settings : option artwork)
    (w : world) :
  open_fault E file_location = None ->
  (forall k, write_fault E file_location k = None) ->
  exists evs,
    download_body E r total file_location enable_progress_bar indent_level
      artwork_settings w =
      match first_error (body r) with
      | Some e =>
          (Raise e,
           World (<[file_location := written (body r)]> (fs w)) (stdout w) (evs ++ calls w))
      | None =>
          match resized E artwork_settings (written (body r)) with
          | Ok final =>
              (Ok tt, World (<[file_location := final]> (fs w)) (stdout w) (evs ++ calls w))
          | Raise e =>
              (Raise e,
               World (<[file_location := written (body r)]> (fs w)) (stdout w)
                 (evs ++ calls w))
          end
      end.
Proof.
  intros Hopen Hwrite.
  destruct (transfer_spec E r total file_location enable_progress_bar indent_level w
              Hopen Hwrite) as [evs Hrun].
  unfold download_body. rewrite seq_assoc. unfold mbind at 1, M_bind at 1. rewrite Hrun.
  destruct (first_error (body r)) as [e |]; [exists evs; reflexivity |].
  unfold resized. destruct artwork_settings as [a |]; [| exists evs; reflexivity].
  destruct (should_resize a); [| exists evs; reflexivity].
  unfold resize_in_place. run_download. rewrite lookup_insert_eq.
  destruct (image_resize E _ _ _ _) as [final | e]; cbn [fs stdout calls].
  - rewrite insert_insert_eq. exists (EvImageSave file_location :: evs). reflexivity.
  - exists (EvImageSave file_location :: evs). reflexivity.
Qed.

Ltac start_download Hfree Hget Htotal :=
  unfold download_file, silentremove, try_except, os_remove, path_exists, print_with;
  unfold get_fs, set_fs, emit, print, raise, mbind, M_bind, mret, M_ret;
  rewrite bool_decide_eq_false_2 by (rewrite Hfree; intros [? ?]; discriminate);
  rewrite Hget, Htotal; cbn [fs stdout calls].

Lemma download_file_ok
    (E : env) (url file_location : str) (headers : list (str * str))
    (enable_progress_bar : bool) (indent_level : Z)
    (artwork_settings : option artwork) (w : world)
    (r : response) (total : option Z) (final : bytes) :
  fs w !! file_location = None ->
  http_get E url headers = Ok r ->
  read_total r = Ok total ->
  open_fault E file_location = None ->
  (forall k, write_fault E file_location k = None) ->
  first_error (body r) = None ->
  resized E artwork_settings (written (body r)) = Ok final ->
  exists w',
    download_file E url file_location headers enable_progress_bar indent_level
      artwork_settings w = (Ok tt, w')
    /\ fs w' = <[file_location := final]> (fs w)
    /\ stdout w' = stdout w.
Proof.
  intros Hfree Hget Htotal Hopen Hwrite Hchunks Hresized.
  start_download Hfree Hget Htotal.
  match goal with
  | |- context [download_body _ _ _ _ _ _ _ ?w1] =>
      destruct (download_body_spec E r total file_location enable_progress_bar
                  indent_level artwork_settings w1 Hopen Hwrite) as [evs Hrun]
  end.
  rewrite Hrun, Hchunks, Hresized. eexists. split; [reflexivity |]. split; reflexivity.
Qed.

(** A download that meets no failure: whether or not a progress bar is
    asked for, the file holds the chunks received, in order, resized when
    the artwork settings ask for it; nothing else changes and nothing is
    printed. *)
Theorem download_file_writes_body
    (E : env) (url file_location : str) (headers : list (str * str))
    (enable_progress_bar : bool) (indent_level : Z)
    (artwork_settings : option artwork) (w : world)
    (r : response) (total : option Z) (final : bytes) :
  fs w !! file_location = None ->
  http_get E url headers = Ok r ->
  read_total r = Ok total ->
  open_fault E file_location = None ->
  (forall k, write_fault E file_location k = None) ->
  first_error (body r) = None ->
  resized E artwork_settings (written (body r)) = Ok final ->
  exists w',
    download_file E url file_location headers enable_progress_bar indent_level
      artwork_settings w = (Ok tt, w')
    /\ fs w' = <[file_location := final]> (fs w)
    /\ stdout w' = stdout w.
Proof.
  intros Hfree Hget Htotal Hopen Hwrite Hchunks Hresized.
  start_download Hfree Hget Htotal.
  match goal with
  | |- context [download_body _ _ _ _ _ _ _ ?w1] =>
      destruct (download_body_spec E r total file_location enable_progress_bar
                  indent_level artwork_settings w1 Hopen Hwrite) as [evs Hrun]
  end.
  rewrite Hrun, Hchunks, Hresized. eexists. split; [reflexivity |]. split; reflexivity.
Qed.

Lemma download_file_writes_body_witness :
  exists w',
    download_file E_served (lit "http://host/cover") (lit "cover.jpg") [] true 2 None
      w_empty = (Ok tt, w')
    /\ fs w' = <[lit "cover.jpg" := [1; 2; 3]]> (fs w_empty)
    /\ stdout w' = stdout w_empty.
Proof.
  apply (download_file_writes_body E_served (lit "http://host/cover") (lit "cover.jpg") []
           true 2 None w_empty (Response (Some (Ok 3)) [Ok [1; 2]; Ok []; Ok [3]])
           (Some 3));
    [reflexivity | reflexivity | reflexivity | reflexivity | intros k; reflexivity
    | reflexivity | reflexivity].
Defined.

(** A download that breaks, by anything but an interrupt, raises what the
    chunk raised and leaves the part received at the destination; a second
    call then finds a file there and returns without a request, so the part
    stands for the whole. *)
Theorem download_file_error_leaves_part
    (E : env) (url file_location : str) (headers : list (str * str))
    (enable_progress_bar : bool) (indent_level : Z)
    (artwork_settings : option artwork) (w : world)
    (r : response) (total : option Z) (e : exn) :
  fs w !! file_location = None ->
  http_get E url headers = Ok r ->
  read_total r = Ok total ->
  open_fault E file_location = None ->
  (forall k, write_fault E file_location k = None) ->
  first_error (body r) = Some e ->
  is_KeyboardInterrupt e = false ->
  exists w',
    download_file E url file_location headers enable_progress_bar indent_level
      artwork_settings w = (Raise e, w')
    /\ fs w' = <[file_location := written (body r)]> (fs w)
    /\ stdout w' = stdout w
    /\ download_file E url file_location headers enable_progress_bar indent_level
         artwork_settings w' = (Ok tt, w').
Proof.
  intros Hfree Hget Htotal Hopen Hwrite Hchunks Hother.
  start_download Hfree Hget Htotal.
  match goal with
  | |- context [download_body _ _ _ _ _ _ _ ?w1] =>
      destruct (download_body_spec E r total file_location enable_progress_bar
                  indent_level artwork_settings w1 Hopen Hwrite) as [evs Hrun]
  end.
  rewrite Hrun, Hchunks, Hother. eexists. split; [reflexivity |].
  split; [reflexivity |]. split; [reflexivity |].
  unfold download_file, path_exists, mbind, M_bind, mret, M_ret. cbn [fs].
  rewrite bool_decide_eq_true_2 by (rewrite lookup_insert_eq; eauto). reflexivity.
Qed.

Lemma download_file_error_leaves_part_witness :
  exists w',
    download_file E_broken_pipe (lit "http://host/cover") (lit "cover.jpg") [] false 0 None
      w_empty = (Raise connection_reset, w')
    /\ fs w' = <[lit "cover.jpg" := [1; 2; 3]]> (fs w_empty)
    /\ stdout w' = stdout w_empty
    /\ download_file E_broken_pipe (lit "http://host/cover") (lit "cover.jpg") [] false 0
         None w' = (Ok tt, w').
Proof.
  apply (download_file_error_leaves_part E_broken_pipe (lit "http://host/cover")
           (lit "cover.jpg") [] false 0 None w_empty
           (Response None [Ok [1; 2]; Ok [3]; Raise connection_reset; Ok [4]]) None);
    [reflexivity | reflexivity | reflexivity | reflexivity | intros k; reflexivity
    | reflexivity | reflexivity].
Defined.

(** An interrupt while the chunks arrive leaves no trace on the disk when
    the console prints the notice and the system lets the file be removed:
    the disk is as it was before the call, one line announces the removal,
    and [KeyboardInterrupt] is raised. *)
Theorem download_file_interrupt_restores_disk
    (E : env) (url file_location : str) (headers : list (str * str))
    (enable_progress_bar : bool) (indent_level : Z)
    (artwork_settings : option artwork) (w : world)
    (r : response) (total : option Z) (e : exn) :
  fs w !! file_location = None ->
  http_get E url headers = Ok r ->
  read_total r = Ok total ->
  open_fault E file_location = None ->
  (forall k, write_fault E file_location k = None) ->
  first_error (body r) = Some e ->
  is_KeyboardInterrupt e = true ->
  print_fault E (stdout w) (deleting_message file_location) = None ->
  remove_fault E file_location = None ->
  exists w',
    download_file E url file_location headers enable_progress_bar indent_level
      artwork_settings w = (Raise (Exn KeyboardInterrupt 0 []), w')
    /\ fs w' = fs w
    /\ stdout w' = deleting_message file_location :: stdout w.
Proof.
  intros Hfree Hget Htotal Hopen Hwrite Hchunks Hint Hprint Hremove.
  start_download Hfree Hget Htotal.
  match goal with
  | |- context [download_body _ _ _ _ _ _ _ ?w1] =>
      destruct (download_body_spec E r total file_location enable_progress_bar
                  indent_level artwork_settings w1 Hopen Hwrite) as [evs Hrun]
  end.
  rewrite Hrun, Hchunks, Hint. cbn [fs stdout calls].
  rewrite bool_decide_eq_true_2 by (rewrite lookup_insert_eq; eauto).
  cbn [fs stdout calls]. rewrite Hprint. cbn [fs stdout calls].
  rewrite lookup_insert_eq, Hremove. cbn [fs stdout calls].
  eexists. split; [reflexivity |]. cbn [fs stdout]. split; [| reflexivity].
  rewrite delete_insert_eq. apply delete_id. exact Hfree.
Qed.

Lemma download_file_interrupt_restores_disk_witness :
  exists w',
    download_file E_interrupted (lit "http://host/cover") (lit "cover.jpg") [] false 0 None
      w_empty = (Raise (Exn KeyboardInterrupt 0 []), w')
    /\ fs w' = fs w_empty
    /\ stdout w' = deleting_message (lit "cover.jpg") :: stdout w_empty.
Proof.
  apply (download_file_interrupt_restores_disk E_interrupted (lit "http://host/cover")
           (lit "cover.jpg") [] false 0 None w_empty
           (Response None [Ok [1; 2]; Ok [3]; Raise interrupt; Ok [4]]) None interrupt);
    [reflexivity | reflexivity | reflexivity | reflexivity | intros k; reflexivity
    | reflexivity | reflexivity | reflexivity | reflexivity].
Defined.



Lemma hex_digit_inj (d1 d2 : Z) :
  0 <= d1 < 16 -> 0 <= d2 < 16 -> hex_digit d1 = hex_digit d2 -> d1 = d2.
Proof.
  intros H1 H2 Heq. apply (f_equal hex_value) in Heq.
  rewrite !PyFacts.hex_value_digit in Heq by assumption. congruence.
Qed.

Lemma hex_byte_inj (b1 b2 : Z) :
  0 <= b1 < 256 -> 0 <= b2 < 256 -> Hashlib.hex_byte b1 = Hashlib.hex_byte b2 -> b1 = b2.
Proof.
  intros H1 H2. unfold Hashlib.hex_byte. intros [= Hhi Hlo].
  apply hex_digit_inj in Hhi; [| apply Z.mod_pos_bound; lia | apply Z.mod_pos_bound; lia].
  apply hex_digit_inj in Hlo; [| apply Z.mod_pos_bound; lia | apply Z.mod_pos_bound; lia].
  rewrite !Z.mod_small in Hhi by (split; [apply Z.div_pos; lia | apply Z.div_lt_upper_bound; lia]).
  pose proof (Z.div_mod b1 16). pose proof (Z.div_mod b2 16). lia.
Qed.

Lemma bytes_hex_inj (r1 : bytes) :
  forall r2, Forall (fun b => 0 <= b < 256) r1 -> Forall (fun b => 0 <= b < 256) r2 ->
             bytes_hex r1 = bytes_hex r2 -> r1 = r2.
Proof.
  unfold bytes_hex.
  induction r1 as [| b1 r1 IH]; intros [| b2 r2] H1 H2; cbn [flat_map]; try discriminate.
  - reflexivity.
  - inversion H1; inversion H2; subst. unfold Hashlib.hex_byte at 1 3. cbn [app].
    intros [= Hhi Hlo Hrest]. f_equal.
    + apply hex_byte_inj; [assumption | assumption |]. unfold Hashlib.hex_byte. congruence.
    + apply IH; assumption.
Qed.

Lemma bytes_hex_length (r : bytes) : length (bytes_hex r) = (2 * length r)%nat.
Proof.
  unfold bytes_hex. induction r as [| b r IH]; [reflexivity |].
  cbn [flat_map length app Hashlib.hex_byte]. rewrite IH. lia.
Qed.

Lemma save_to_temp_ok (E : env) (random input : bytes) (w : world) :
  open_fault E (create_temp_filename random) = None ->
  write_fault E (create_temp_filename random) 0 = None ->
  save_to_temp E random input w =
    (Ok (create_temp_filename random),
     World (<[create_temp_filename random := input]> (fs w)) (stdout w)
       (EvWrite (create_temp_filename random) input :: calls w)).
Proof.
  intros Hopen Hwrite. unfold save_to_temp. run_download.
  rewrite Hopen. cbn [fs stdout calls]. rewrite Hwrite. cbn [fs stdout calls].
  rewrite lookup_insert_eq, insert_insert_eq. reflexivity.
Qed.

(** Two saves whose random bytes differ go to two files, each named [temp/]
    and 32 hexadecimal digits, and each file holds afterwards what was
    saved in it. *)
Theorem save_to_temp_keeps_both
    (E : env) (random1 random2 input1 input2 : bytes) (w : world) :
  length random1 = 16%nat -> length random2 = 16%nat ->
  Forall (fun b => 0 <= b < 256) random1 ->
  Forall (fun b => 0 <= b < 256) random2 ->
  random1 <> random2 ->
  (forall p, open_fault E p = None) ->
  (forall p, write_fault E p 0 = None) ->
  exists location1 location2 w1 w2,
    save_to_temp E random1 input1 w = (Ok location1, w1)
    /\ save_to_temp E random2 input2 w1 = (Ok location2, w2)
    /\ length location1 = 37%nat /\ length location2 = 37%nat
    /\ location1 <> location2
    /\ fs w2 !! location1 = Some input1
    /\ fs w2 !! location2 = Some input2.
Proof.
  intros Hlen1 Hlen2 Hb1 Hb2 Hne Hopen Hwrite.
  assert (Hdiff : create_temp_filename random1 <> create_temp_filename random2).
  { unfold create_temp_filename. intros Heq. apply app_inv_head in Heq.
    apply Hne. apply bytes_hex_inj; assumption. }
  eexists _, _, _, _.
  split; [apply save_to_temp_ok; [apply Hopen | apply Hwrite] |].
  split; [apply save_to_temp_ok; [apply Hopen | apply Hwrite] |].
  cbn [fs]. unfold create_temp_filename at 1 2.
  rewrite !length_app, !bytes_hex_length, Hlen1, Hlen2.
  split_and!; try reflexivity.
  - exact Hdiff.
  - rewrite lookup_insert_ne by congruence. apply lookup_insert_eq.
  - apply lookup_insert_eq.
Qed.

Lemma save_to_temp_keeps_both_witness :
  exists location1 location2 w1 w2,
    save_to_temp E_served (repeat 0 16) [1] w_empty = (Ok location1, w1)
    /\ save_to_temp E_served (repeat 255 16) [2] w1 = (Ok location2, w2)
    /\ length location1 = 37%nat /\ length location2 = 37%nat
    /\ location1 <> location2
    /\ fs w2 !! location1 = Some [1]
    /\ fs w2 !! location2 = Some [2].
Proof.
  apply (save_to_temp_keeps_both E_served (repeat 0 16) (repeat 255 16) [1] [2] w_empty);
    [reflexivity | reflexivity | repeat constructor; lia | repeat constructor; lia
    | discriminate | intros p; reflexivity | intros p; reflexivity].
Defined.

(** [download_to_temp] returns the name it made up, [temp/] and the
    hexadecimal digits, with a dot and the extension when one is given, and
    after a download that meets no failure the file of that name holds the
    chunks received. *)
Theorem download_to_temp_holds_body
    (E : env) (random : bytes) (url : str) (headers : list (str * str)) (extension : str)
    (enable_progress_bar : bool) (indent_level : Z) (w : world)
    (r : response) (total : option Z) (location : str) :
  location = create_temp_filename random
             ++ (if ByteLimit.is_empty extension then [] else [46] ++ extension) ->
  fs w !! location = None ->
  http_get E url headers = Ok r ->
  read_total r = Ok total ->
  open_fault E location = None ->
  (forall k, write_fault E location k = None) ->
  first_error (body r) = None ->
  exists w',
    download_to_temp E random url headers extension enable_progress_bar indent_level w
      = (Ok location, w')
    /\ fs w' = <[location := written (body r)]> (fs w)
    /\ stdout w' = stdout w.
Proof.
  intros -> Hfree Hget Htotal Hopen Hwrite Hchunks.
  destruct (download_file_ok E url _ headers enable_progress_bar indent_level None w r
              total (written (body r)) Hfree Hget Htotal Hopen Hwrite Hchunks eq_refl)
    as (w' & Hrun & Hfs & Hout).
  exists w'. unfold download_to_temp, mbind, M_bind. rewrite Hrun.
  split; [reflexivity |]. split; assumption.
Qed.

Lemma download_to_temp_holds_body_witness :
  exists w',
    download_to_temp E_served [171; 205] (lit "http://host/cover") [] (lit "jpg") false 0
      w_empty = (Ok (lit "temp/abcd.jpg"), w')
    /\ fs w' = <[lit "temp/abcd.jpg" := [1; 2; 3]]> (fs w_empty)
    /\ stdout w' = stdout w_empty.
Proof.
  apply (download_to_temp_holds_body E_served [171; 205] (lit "http://host/cover") []
           (lit "jpg") false 0 w_empty (Response (Some (Ok 3)) [Ok [1; 2]; Ok []; Ok [3]])
           (Some 3) (lit "temp/abcd.jpg"));
    [reflexivity | reflexivity | reflexivity | reflexivity | reflexivity
    | intros k; reflexivity | reflexivity].
Defined.

End TempFacts.

(** ** Temporary settings store, continued *)
Module SettingsMore.
Import Settings SettingsSpec SettingsFacts.

(** A read of the selected session of a module is a read of that
    dictionary. *)
Lemma read_of_session (disk : gmap str value) (settings_location : str) (blob : value)
    (module root_setting setting : key) (session : list (key * value)) :
  disk !! settings_location = Some blob ->
  selected_session blob module session ->
  read_temporary_setting disk settings_location module root_setting setting false
    = read_session session root_setting setting.
Proof.
  intros Hdisk Hshape.
  destruct (session_of_selected blob module session Hshape) as (ms & Hms & Hsession).
  unfold read_temporary_setting, read_session, pickle_load. unfold_bind.
  rewrite Hdisk. cbn beta iota. rewrite Hms. cbn beta iota. rewrite Hsession. cbn beta iota.
  destruct (truthy (VDict session) && key_truthy root_setting); [| reflexivity].
  unfold contains at 1 3. unfold getitem at 1 2 4.
  destruct (dict_get root_setting session) as [root |] eqn:Hroot.
  - rewrite bool_decide_eq_true_2 by eauto.
    destruct (key_truthy setting); [| reflexivity].
    destruct (contains root setting) as [[|] |]; reflexivity.
  - rewrite bool_decide_eq_false_2 by (intros [? ?]; discriminate).
    destruct (key_truthy setting); reflexivity.
Qed.


Lemma assign_under (session mapping : list (key * value)) (root_setting setting : key)
    (v : value) :
  dict_get root_setting session = Some (VDict mapping) ->
  assign (VDict session) root_setting setting v =
    Ok (VDict (dict_set root_setting
                 (if key_truthy setting then VDict (dict_set setting v mapping) else v)
                 session)).
Proof.
  intros Hroot. unfold assign. destruct (key_truthy setting); [| reflexivity].
  unfold getitem. unfold_bind. rewrite Hroot. reflexivity.
Qed.






(** The round trip in global mode, where the settings of the module are the
    session: what is written under a root setting that holds a dictionary is
    what a later read returns. *)
Theorem settings_round_trip_global
    (disk : gmap str value) (settings_location : str)
    (top modules module_settings mapping : list (key * value)) (M R K : key) (V : value) :
  disk !! settings_location = Some (VDict top) ->
  dict_get k_modules top = Some (VDict modules) ->
  dict_get M modules = Some (VDict module_settings) ->
  dict_get R module_settings = Some (VDict mapping) ->
  key_truthy R = true ->
  exists disk',
    set_temporary_setting disk settings_location M R K V true = Ok disk'
    /\ read_temporary_setting disk' settings_location M R K true = Ok V.
Proof.
  intros Hdisk Hmods Hmod Hroot HR.
  assert (Hms : module_settings_of (VDict top) M = Ok (VDict module_settings)).
  { unfold module_settings_of, getitem, contains. unfold_bind.
    rewrite Hmods. cbn beta iota. rewrite Hmod.
    rewrite bool_decide_eq_true_2 by eauto. reflexivity. }
  eexists. split.
  - unfold set_temporary_setting, pickle_load. unfold_bind.
    rewrite Hdisk. cbn beta iota. rewrite Hms. cbn beta iota.
    unfold session_of. rewrite (dict_truthy _ _ _ Hroot). cbn beta iota.
    rewrite (dict_truthy _ _ _ Hroot). cbn [negb].
    rewrite (assign_under module_settings mapping R K V Hroot). cbn beta iota.
    unfold with_session, getitem, setitem. unfold_bind. rewrite Hmods. reflexivity.
  - unfold read_temporary_setting, pickle_load. unfold_bind.
    rewrite lookup_insert_eq. cbn beta iota.
    unfold module_settings_of, getitem, contains. unfold_bind.
    rewrite !dict_get_set_eq. cbn beta iota.
    rewrite bool_decide_eq_true_2 by eauto. cbn beta iota.
    unfold session_of. rewrite !dict_set_truthy, HR. cbn [andb].
    rewrite !dict_get_set_eq. rewrite bool_decide_eq_true_2 by eauto.
    destruct (key_truthy K); [| reflexivity].
    rewrite dict_get_set_eq. rewrite bool_decide_eq_true_2 by eauto. reflexivity.
Qed.

Lemma settings_round_trip_global_witness :
  exists disk',
    set_temporary_setting disk_tidal (lit "settings.bin") (KStr (lit "tidal"))
      k_sessions (KStr (lit "guest")) (VDict []) true = Ok disk'
    /\ read_temporary_setting disk' (lit "settings.bin") (KStr (lit "tidal"))
         k_sessions (KStr (lit "guest")) true = Ok (VDict []).
Proof.
  eapply (settings_round_trip_global disk_tidal (lit "settings.bin")); reflexivity.
Defined.

(** A module whose selected session is an empty dictionary is treated as
    one without temporary settings: every write raises, and so does every
    read that names a root setting; a read that names none returns the empty
    session. *)
Theorem empty_session_is_refused
    (disk : gmap str value) (settings_location : str) (blob : value) (M R K : key)
    (V : value) :
  disk !! settings_location = Some blob ->
  selected_session blob M [] ->
  set_temporary_setting disk settings_location M R K V false = Raise no_temporary_settings
  /\ (key_truthy R = true ->
      read_temporary_setting disk settings_location M R K false
        = Raise no_temporary_settings)
  /\ (key_truthy R = false ->
      read_temporary_setting disk settings_location M R K false = Ok (VDict [])).
Proof.
  intros Hdisk Hshape. split_and!.
  - destruct (session_of_selected blob M [] Hshape) as (ms & Hms & Hsession).
    unfold set_temporary_setting, pickle_load. unfold_bind.
    rewrite Hdisk. cbn beta iota. rewrite Hms. cbn beta iota. rewrite Hsession. reflexivity.
  - intros HR. rewrite (read_of_session disk settings_location blob M R K [] Hdisk Hshape).
    unfold read_session. rewrite HR. reflexivity.
  - intros HR. rewrite (read_of_session disk settings_location blob M R K [] Hdisk Hshape).
    unfold read_session. rewrite HR. reflexivity.
Qed.

Lemma empty_session_is_refused_witness :
  set_temporary_setting disk_fresh (lit "settings.bin") (KStr (lit "qobuz"))
    (KStr (lit "auth")) KNone (VDict []) false = Raise no_temporary_settings.
Proof.
  apply (empty_session_is_refused disk_fresh (lit "settings.bin") blob_fresh
           (KStr (lit "qobuz")) (KStr (lit "auth")) KNone (VDict [])).
  - reflexivity.
  - unfold selected_session, blob_fresh. eexists _, _, _, _, _, _. split_and!; reflexivity.
Defined.

End SettingsMore.

(** ** The script around the tag inspector *)
Module TagScriptFacts.
Import TagInspector TagScript TagInspectorFacts.

#[local] Hint Resolve prints_only_ret prints_only_raise prints_only_print prints_only_say
  prints_only_lift prints_only_path_exists prints_only_report_key prints_only_scan_keys
  prints_only_other_tags prints_only_inspect prints_only_check_md5_tag : prints_db.

(** *** On a console that prints, the outcome depends on the disk alone *)

Lemma stable_ret {A} (a : A) : reads_disk_only (mret a).
Proof. intros w1 w2 _. reflexivity. Qed.

Lemma stable_raise {A} (e : exn) : reads_disk_only (raise e : M A).
Proof. intros w1 w2 _. reflexivity. Qed.

Lemma stable_lift {A} (r : result A) : reads_disk_only (lift r).
Proof. destruct r; [apply stable_ret | apply stable_raise]. Qed.

Lemma stable_path_exists (p : str) : reads_disk_only (path_exists p).
Proof. intros w1 w2 Hfs. unfold path_exists. cbn [fst]. rewrite Hfs. reflexivity. Qed.

Lemma stable_bind {A B} (m : M A) (f : A -> M B) :
  reads_disk_only m -> prints_only m -> (forall a, reads_disk_only (f a)) ->
  reads_disk_only (m ≫= f).
Proof.
  intros Hm Hp Hf w1 w2 Hfs. unfold mbind, M_bind.
  specialize (Hm w1 w2 Hfs). destruct (Hp w1) as [Hfs1 _]. destruct (Hp w2) as [Hfs2 _].
  destruct (m w1) as [r1 w1']. destruct (m w2) as [r2 w2']. cbn [fst snd] in *. subst r2.
  destruct r1 as [a | e]; [| reflexivity]. apply Hf. congruence.
Qed.

Lemma stable_try_except {A} (m : M A) (C : exn -> bool) (h : exn -> M A) :
  reads_disk_only m -> prints_only m -> (forall e, reads_disk_only (h e)) ->
  reads_disk_only (try_except m C h).
Proof.
  intros Hm Hp Hh w1 w2 Hfs. unfold try_except.
  specialize (Hm w1 w2 Hfs). destruct (Hp w1) as [Hfs1 _]. destruct (Hp w2) as [Hfs2 _].
  destruct (m w1) as [r1 w1']. destruct (m w2) as [r2 w2']. cbn [fst snd] in *. subst r2.
  destruct r1 as [a | e]; [reflexivity |]. destruct (C e); [| reflexivity].
  apply Hh. congruence.
Qed.

Create HintDb stable_db discriminated.
#[local] Hint Resolve stable_ret stable_raise stable_lift stable_path_exists : stable_db.

Ltac stable :=
  repeat first
    [ solve [auto 1 with stable_db nocore]
    | apply stable_bind; [| solve [prints] | intros ?]
    | apply stable_try_except; [| solve [prints] | intros ?]
    | match goal with
      | |- reads_disk_only (if ?b then _ else _) => destruct b
      | |- reads_disk_only (match ?x with _ => _ end) => destruct x
      end ].

Section Quiet.

Variable E : env.
Hypothesis Hok : console_ok E.

Lemma stable_say (line : str) : reads_disk_only (say E line).
Proof. intros w1 w2 _. unfold say, print_with. rewrite !Hok. reflexivity. Qed.

#[local] Hint Resolve stable_say : stable_db.

Lemma stable_report_key (a : audio) (key : str) (decode : bool) :
  reads_disk_only (report_key E a key decode).
Proof. unfold report_key. stable. Qed.

Lemma stable_scan_keys (a : audio) (ks : list str) : reads_disk_only (scan_keys E a ks).
Proof. induction ks as [| key rest IH]; cbn [scan_keys]; stable. Qed.

Lemma stable_other_tags (a : audio) (tags : list (str * str)) :
  reads_disk_only (other_tags E a tags).
Proof. induction tags as [| [tag capitalized] rest IH]; cbn [other_tags]; stable. Qed.

#[local] Hint Resolve stable_report_key stable_scan_keys stable_other_tags : stable_db.

Lemma stable_inspect (file_path : str) (a : audio) :
  reads_disk_only (inspect E file_path a).
Proof. unfold inspect. stable. Qed.

#[local] Hint Resolve stable_inspect : stable_db.

Lemma stable_check_md5_tag (file_path : str) : reads_disk_only (check_md5_tag E file_path).
Proof. unfold check_md5_tag. stable. Qed.

End Quiet.

(** *** What leaves [check_md5_tag] *)

Lemma say_raise (E : env) (line : str) (w w' : world) (e : exn) :
  say E line w = (Raise e, w') -> from_print E e.
Proof.
  unfold say, print_with. destruct (print_fault E (stdout w) line) as [refused |] eqn:Hprint.
  - intros [= <- _]. exists (stdout w), line. exact Hprint.
  - discriminate.
Qed.

(** An [Exception] leaves [check_md5_tag] only when a print raised it. *)
Lemma check_md5_tag_raise (E : env) (file_path : str) (w w' : world) (e : exn) :
  check_md5_tag E file_path w = (Raise e, w') -> is_Exception e = true -> from_print E e.
Proof.
  unfold check_md5_tag, try_except, path_exists. unfold mbind at 1, M_bind at 1.
  destruct (bool_decide (is_Some (fs w !! file_path))); cbn [negb].
  - match goal with
    | |- context [match ?body w with _ => _ end] => destruct (body w) as [[found | e0] w1]
    end; [discriminate |].
    destruct (is_Exception e0) eqn:He0.
    + unfold mbind, M_bind.
      destruct (say E _ w1) as [[[] | refused] w2] eqn:Hsay; [discriminate |].
      intros [= <- _] _. eapply say_raise. exact Hsay.
    + intros [= <- _] He. congruence.
  - unfold mbind, M_bind.
    destruct (say E _ w) as [[[] | refused] w2] eqn:Hsay; [discriminate |].
    intros [= <- _] _. eapply say_raise. exact Hsay.
Qed.

(** A path for which [check_md5_tag] returns [True] carries an MD5 tag or
    checksum. *)
Lemma check_md5_tag_true (E : env) (file_path : str) (w w' : world) :
  check_md5_tag E file_path w = (Ok (Some true), w') -> tagged E file_path = true.
Proof.
  unfold tagged, check_md5_tag, try_except, path_exists. unfold mbind at 1, M_bind at 1.
  destruct (bool_decide (is_Some (fs w !! file_path))); cbn [negb].
  - unfold mbind at 1, M_bind at 1, lift at 1.
    destruct (File E file_path) as [[a |] | e0].
    + unfold mret at 1, M_ret at 1, mbind at 1, M_bind at 1.
      destruct (inspect E file_path a w) as [[b | e] w1] eqn:Hinspect.
      * unfold mret, M_ret. intros [= -> _].
        rewrite (inspect_found E file_path a w w1 true Hinspect). reflexivity.
      * destruct (is_Exception e); [| discriminate].
        unfold mbind, M_bind. destruct (say E _ w1) as [[[] | ?] ?]; discriminate.
    + unfold mret at 1, M_ret at 1, mbind, M_bind.
      destruct (say E _ w) as [[[] | refused] w1]; [discriminate |].
      destruct (is_Exception refused); [| discriminate].
      destruct (say E _ w1) as [[[] | ?] ?]; discriminate.
    + unfold raise at 1. destruct (is_Exception e0); [| discriminate].
      unfold mbind, M_bind. destruct (say E _ w) as [[[] | ?] ?]; discriminate.
  - unfold mbind, M_bind. destruct (say E _ w) as [[[] | ?] ?]; discriminate.
Qed.

(** *** The loops *)

Lemma counts_one (E : env) (file_path : str) :
  counts_paths E (check_one E file_path) (fun _ => [file_path]).
Proof.
  intros [n m] w. unfold check_one. unfold mbind at 1, M_bind at 1.
  destruct (prints_only_check_md5_tag E file_path w) as [Hfs Hcalls].
  destruct (check_md5_tag E file_path w) as [[found | e] w1] eqn:Hrun; cbn [fst snd] in *.
  - unfold mbind, M_bind.
    destruct (prints_only_say E (repeat 45 60) w1) as [Hfs1 Hcalls1].
    destruct (say E (repeat 45 60) w1) as [[[] | refused] w2] eqn:Hsay; cbn [snd] in *.
    + unfold mret, M_ret. eexists _, _. split; [reflexivity |].
      split; [congruence |]. split; [congruence |]. split; [discriminate |].
      intros counts' [= <-]. cbn [fst snd length List.filter].
      split; [lia |]. split.
      * destruct found as [[|] |]; cbn [is_true].
        -- rewrite (check_md5_tag_true E file_path w w1 Hrun). cbn [length]. lia.
        -- destruct (tagged E file_path); cbn [length]; lia.
        -- destruct (tagged E file_path); cbn [length]; lia.
      * intros Hok. unfold tally, counted. cbn [List.filter].
        rewrite <- (stable_check_md5_tag E Hok file_path w (World (fs w) [] []) eq_refl).
        rewrite Hrun. cbn [fst]. destruct (is_true found); cbn [length]; lia.
    + eexists _, _. split; [reflexivity |]. split; [congruence |]. split; [congruence |].
      split; [| discriminate]. intros e' [= <-] _. eapply say_raise. exact Hsay.
  - eexists _, _. split; [reflexivity |]. split; [exact Hfs |]. split; [exact Hcalls |].
    split; [| discriminate]. intros e' [= <-]. eapply check_md5_tag_raise. exact Hrun.
Qed.

Lemma counts_nil (E : env) : counts_paths E mret (fun _ => []).
Proof.
  intros [n m] w. exists (Ok (n, m)), w. split; [reflexivity |].
  split; [reflexivity |]. split; [reflexivity |]. split; [discriminate |].
  intros counts' [= <-]. unfold tally. cbn. split_and!; intros; lia.
Qed.

Lemma tally_app (E : env) (disk : gmap str bytes) (ps qs : list str) :
  tally E disk (ps ++ qs) = tally E disk ps + tally E disk qs.
Proof. unfold tally. rewrite List.filter_app, length_app. lia. Qed.

Lemma counts_seq (E : env) (first second : Z * Z -> M (Z * Z))
    (ps qs : gmap str bytes -> list str) :
  counts_paths E first ps -> counts_paths E second qs ->
  counts_paths E (fun counts => counts' ← first counts; second counts')
    (fun disk => ps disk ++ qs disk).
Proof.
  intros Hfirst Hsecond counts w. unfold mbind, M_bind.
  destruct (Hfirst counts w) as (r1 & w1 & Hrun1 & Hfs1 & Hcalls1 & Hexn1 & Hcount1).
  rewrite Hrun1. destruct r1 as [counts1 | e].
  - destruct (Hsecond counts1 w1) as (r2 & w2 & Hrun2 & Hfs2 & Hcalls2 & Hexn2 & Hcount2).
    exists r2, w2. split; [exact Hrun2 |]. split; [congruence |]. split; [congruence |].
    split; [exact Hexn2 |]. intros counts' ->.
    destruct (Hcount2 counts' eq_refl) as (Hn2 & Hm2 & Hexact2).
    destruct (Hcount1 counts1 eq_refl) as (Hn1 & Hm1 & Hexact1).
    rewrite Hfs1 in *. rewrite List.filter_app, !length_app, tally_app.
    split; [lia |]. split; [lia |]. intros Hok.
    rewrite (Hexact2 Hok), (Hexact1 Hok). lia.
  - exists (Raise e), w1. split; [reflexivity |]. split; [exact Hfs1 |].
    split; [exact Hcalls1 |]. split; [| discriminate].
    intros e' [= <-]. apply Hexn1. reflexivity.
Qed.

Lemma counts_files (E : env) (H : host) (root : str) (files : list str) :
  counts_paths E (check_files E H root files)
    (fun _ => map (ByteLimit.path_join root) (List.filter (is_audio H) files)).
Proof.
  induction files as [| file rest IH]; cbn [check_files List.filter map].
  - apply counts_nil.
  - destruct (is_audio H file); [| exact IH]. cbn [map].
    exact (counts_seq E _ _ (fun _ => [_]) _ (counts_one E _) IH).
Qed.

Lemma counts_tree (E : env) (H : host) (tree : list (str * list str)) :
  counts_paths E (check_tree E H tree) (fun _ => walked H tree).
Proof.
  induction tree as [| [root files] rest IH]; cbn [check_tree walked flat_map].
  - apply counts_nil.
  - exact (counts_seq E _ _ _ _ (counts_files E H root files) IH).
Qed.

Lemma counts_args (E : env) (H : host) (args : list str) :
  counts_paths E (check_args E H args) (fun disk => targets H disk args).
Proof.
  induction args as [| file_path rest IH]; cbn [check_args targets flat_map].
  - apply counts_nil.
  - intros counts w. unfold mbind at 1, M_bind at 1, path_exists at 1.
    destruct (bool_decide (is_Some (fs w !! file_path))).
    + exact (counts_seq E _ _ (fun _ => [_]) _ (counts_one E file_path) IH counts w).
    + destruct (is_dir H file_path).
      * exact (counts_seq E _ _ _ _ (counts_tree E H _) IH counts w).
      * unfold mbind at 1, M_bind at 1.
        destruct (prints_only_say E (lit "File or directory not found: " ++ file_path) w)
          as [Hfs1 Hcalls1].
        destruct (say E (lit "File or directory not found: " ++ file_path) w)
          as [[[] | refused] w1] eqn:Hsay; cbn [snd] in *.
        -- destruct (IH counts w1) as (r & w' & Hrun & Hfs & Hcalls & Hexn & Hcount).
           exists r, w'. split; [exact Hrun |]. split; [congruence |].
           split; [congruence |]. split; [exact Hexn |].
           rewrite Hfs1 in Hcount. exact Hcount.
        -- eexists _, _. split; [reflexivity |]. split; [exact Hfs1 |].
           split; [exact Hcalls1 |]. split; [| discriminate].
           intros e' [= <-] _. eapply say_raise. exact Hsay.
Qed.

(** Printing line after line: the lines come out in order, unless a print
    raises. *)
Lemma say_all_spec (E : env) (lines : list str) (w : world) :
  exists r w',
    say_all E lines w = (r, w')
    /\ fs w' = fs w /\ calls w' = calls w
    /\ (r = Ok tt -> stdout w' = rev lines ++ stdout w)
    /\ (forall e, r = Raise e -> from_print E e)
    /\ (console_ok E -> r = Ok tt).
Proof.
  revert w. induction lines as [| line rest IH]; intros w; cbn [say_all rev app].
  - exists (Ok tt), w. split_and!; try reflexivity; discriminate.
  - unfold mbind, M_bind, say at 1, print_with.
    destruct (print_fault E (stdout w) line) as [refused |] eqn:Hprint.
    + eexists _, _. split; [reflexivity |]. split_and!; try reflexivity; try discriminate.
      * intros e [= <-]. exists (stdout w), line. exact Hprint.
      * intros Hok. rewrite Hok in Hprint. discriminate Hprint.
    + unfold print.
      match goal with
      | |- context [say_all E rest ?w1] =>
          destruct (IH w1) as (r & w' & Hrun & Hfs & Hcalls & Hout & Hexn & Hquiet)
      end.
      rewrite Hrun. exists r, w'. cbn [fs stdout calls] in *.
      split; [destruct r as [[] |]; reflexivity |].
      split_and!; try assumption.
      intros Hr. rewrite (Hout Hr), <- app_assoc. reflexivity.
Qed.

Lemma tally_bounds (E : env) (disk : gmap str bytes) (paths : list str) :
  0 <= tally E disk paths <= Z.of_nat (length paths).
Proof.
  unfold tally. pose proof (List.filter_length_le (counted E disk) paths). lia.
Qed.

Lemma from_print_quiet (E : env) (e : exn) : console_ok E -> ~ from_print E e.
Proof. intros Hok (out & line & Hprint). rewrite Hok in Hprint. discriminate Hprint. Qed.

(** The script reads and prints, and its summary counts what was
    inspected.  [main] changes no file and calls nothing but what
    [check_md5_tag] calls; an [Exception] leaves it only when a print raised
    it, so none does on a console that prints.  Without a file argument it
    prints the usage.  Otherwise, when it returns, the last four lines
    printed are the summary.  [Files checked] is the number of paths handed
    to [check_md5_tag]: each file argument, and each audio file below each
    directory argument.  [Files with MD5 tags] is at most the number of those
    paths whose file carries an MD5 tag or checksum, and the third number is
    the difference of the two; on a console that prints, the second number
    is the number of paths for which [check_md5_tag] returned [True]. *)
Theorem main_summary (E : env) (H : host) (argv : list str) (w : world) :
  exists r w',
    main E H argv w = (r, w')
    /\ fs w' = fs w /\ calls w' = calls w
    /\ (forall e, r = Raise e -> is_Exception e = true -> from_print E e)
    /\ (console_ok E -> forall e, r = Raise e -> is_Exception e = false)
    /\ ((length argv < 2)%nat ->
        (r = Ok tt -> stdout w' = rev usage ++ stdout w)
        /\ (console_ok E -> r = Ok tt))
    /\ ((2 <= length argv)%nat -> r = Ok tt ->
        let paths := targets H (fs w) (drop 1 argv) in
        let files_checked := Z.of_nat (length paths) in
        exists files_with_md5 printed,
          stdout w' = rev (summary files_checked files_with_md5) ++ printed
          /\ 0 <= files_with_md5 <= Z.of_nat (length (List.filter (tagged E) paths))
          /\ files_with_md5 <= files_checked
          /\ (console_ok E -> files_with_md5 = tally E (fs w) paths)).
Proof.
  unfold main. destruct (Nat.ltb_spec (length argv) 2) as [Hfew | Hmany].
  - destruct (say_all_spec E usage w) as (r & w' & Hrun & Hfs & Hcalls & Hout & Hexn & Hquiet).
    exists r, w'. split; [exact Hrun |]. split; [exact Hfs |]. split; [exact Hcalls |].
    split; [intros e -> _; apply Hexn; reflexivity |].
    split.
    { intros Hok e ->. destruct (from_print_quiet E e Hok). apply Hexn. reflexivity. }
    split; [intros _; split; assumption | lia].
  - unfold mbind, M_bind.
    destruct (counts_args E H (drop 1 argv) (0, 0) w)
      as (r & w1 & Hrun & Hfs & Hcalls & Hexn & Hcount).
    rewrite Hrun. destruct r as [counts | e].
    + destruct (Hcount counts eq_refl) as (Hn & Hm & Hexact). cbn [fst snd] in Hn, Hm, Hexact.
      destruct (say_all_spec E (summary counts.1 counts.2) w1)
        as (r & w' & Hsay & Hfs' & Hcalls' & Hout & Hexn' & Hquiet).
      exists r, w'. split; [exact Hsay |]. split; [congruence |]. split; [congruence |].
      split; [intros e -> _; apply Hexn'; reflexivity |].
      split.
      { intros Hok e ->. destruct (from_print_quiet E e Hok). apply Hexn'. reflexivity. }
      split; [lia |]. intros _ Hr. cbn zeta.
      exists counts.2, (stdout w1). rewrite (Hout Hr), Hn, Z.add_0_l.
      split; [reflexivity |].
      pose proof (List.filter_length_le (tagged E) (targets H (fs w) (drop 1 argv))).
      split; [lia |]. split; [lia |]. intros Hok. rewrite (Hexact Hok). lia.
    + eexists _, _. split; [reflexivity |]. split; [exact Hfs |]. split; [exact Hcalls |].
      split; [intros e' [= <-]; apply (Hexn e); reflexivity |].
      split.
      { intros Hok e' [= <-]. destruct (is_Exception e) eqn:He; [| reflexivity].
        destruct (from_print_quiet E e Hok). apply (Hexn e); [reflexivity | exact He]. }
      split; [lia |]. discriminate.
Qed.

(** [python check_md5_tags.py song.flac music] on a disk that holds
    [song.flac] and [music/song.FLAC], all of them FLAC files with a
    checksum: the upper-case suffix is accepted, [cover.jpg] is passed over,
    and [music/b.mp3], which is not on the disk, is counted as checked.  On a
    console whose stream is closed the same call raises what the first print
    outside a [try] block raised. *)
Example main_run :
  let w := World {[ lit "song.flac" := lit "fLaC"; lit "music/song.FLAC" := lit "fLaC" ]}
             [] [] in
  let argv := [lit "check_md5_tags.py"; lit "song.flac"; lit "music"] in
  let '(r, w') := main E_flac H_music argv w in
  r = Ok tt
  /\ targets H_music (fs w) [lit "song.flac"; lit "music"]
     = [lit "song.flac"; lit "music/song.FLAC"; lit "music/b.mp3"]
  /\ take 4 (stdout w') = rev (summary 3 2)
  /\ (main E_flac_closed H_music argv w).1
     = Raise (Exn ValueError 0 (lit "I/O operation on closed file.")).
Proof. vm_compute. split_and!; reflexivity. Qed.

End TagScriptFacts.

(** ** Byte limit of file names, continued *)
Module ByteLimitMore.
Import ByteLimit ByteLimitFacts.

Lemma fit_all (s : str) :
  forall bs n, encode s = Ok bs -> (length bs <= n)%nat -> fit n s = s.
Proof.
  induction s as [| c rest IH]; intros bs n Henc Hlen; [reflexivity |].
  destruct (encode_cons c rest bs Henc) as (bc & br & Hbc & Hbr & ->).
  rewrite length_app in Hlen. cbn [fit]. rewrite Hbc.
  destruct (Nat.leb_spec (length bc) n) as [_ | Hcut]; [| lia].
  rewrite (IH br (n - length bc)%nat Hbr) by lia. reflexivity.
Qed.

Lemma encode_raise (s : str) (e : exn) : encode s = Raise e -> e = surrogates_not_allowed.
Proof.
  induction s as [| c rest IH]; [discriminate |]. cbn [encode].
  destruct (encode_char c) as [bc |]; [| congruence].
  destruct (encode rest) as [bs | e']; [discriminate |].
  intros [= <-]. apply IH. reflexivity.
Qed.

(** A file name whose encoding is within the limit is not touched: the
    path returned is the directory, a slash and the file name as it was. *)
Theorem fix_byte_limit_keeps_short_names
    (cwd path rel directory filename : str) (filename_bytes : bytes) (byte_limit : Z) :
  relpath cwd path = Ok rel ->
  split (replace_backslash rel) = (directory, filename) ->
  encode filename = Ok filename_bytes ->
  Z.of_nat (length filename_bytes) <= byte_limit ->
  fix_byte_limit cwd path byte_limit = Ok (directory ++ [47] ++ filename).
Proof.
  intros Hrel Hsplit Henc Hfits.
  unfold fix_byte_limit. rewrite Hrel. unfold mbind at 1, result_bind at 1.
  rewrite Hsplit, Henc. unfold mbind, result_bind.
  rewrite slice_to_nonneg by lia.
  rewrite (decode_truncated filename filename_bytes _ Henc).
  rewrite (fit_all filename filename_bytes _ Henc) by lia. reflexivity.
Qed.

Lemma fix_byte_limit_keeps_short_names_witness :
  fix_byte_limit (lit "/home/u") (lit "/home/u/d/" ++ [233; 8364; 97]) 250
    = Ok (lit "d/" ++ [233; 8364; 97]).
Proof.
  apply (fix_byte_limit_keeps_short_names (lit "/home/u") (lit "/home/u/d/" ++ [233; 8364; 97])
           (lit "d/" ++ [233; 8364; 97]) (lit "d") [233; 8364; 97]
           [195; 169; 226; 130; 172; 97] 250);
    [reflexivity | reflexivity | reflexivity | cbn; lia].
Defined.

(** A negative limit is not refused: it counts from the end.  The last
    [- byte_limit] bytes of the encoded name are cut off, and the name
    returned is the longest prefix of whole characters that fits in what is
    left. *)
Theorem fix_byte_limit_negative_counts_from_end
    (cwd path rel directory filename : str) (filename_bytes : bytes) (byte_limit : Z) :
  relpath cwd path = Ok rel ->
  split (replace_backslash rel) = (directory, filename) ->
  encode filename = Ok filename_bytes ->
  byte_limit < 0 ->
  fix_byte_limit cwd path byte_limit =
    Ok (directory ++ [47]
        ++ fit (length filename_bytes - Z.to_nat (- byte_limit)) filename).
Proof.
  intros Hrel Hsplit Henc Hneg.
  unfold fix_byte_limit. rewrite Hrel. unfold mbind at 1, result_bind at 1.
  rewrite Hsplit, Henc. unfold mbind, result_bind.
  unfold slice_to. destruct (Z.ltb_spec byte_limit 0) as [_ | Hge]; [| lia].
  rewrite (decode_truncated filename filename_bytes _ Henc). reflexivity.
Qed.

Lemma fix_byte_limit_negative_counts_from_end_witness :
  fix_byte_limit (lit "/home/u") (lit "d/a" ++ [8364; 98]) (-2) = Ok (lit "d/a").
Proof.
  apply (fix_byte_limit_negative_counts_from_end (lit "/home/u") (lit "d/a" ++ [8364; 98])
           (lit "d/a" ++ [8364; 98]) (lit "d") (lit "a" ++ [8364; 98])
           [97; 226; 130; 172; 98] (-2));
    [reflexivity | reflexivity | reflexivity | reflexivity].
Defined.

(** Whatever the limit, [fix_byte_limit] raises exactly when
    [os.path.relpath] raises, and then the same exception, or when the file
    name holds a character UTF-8 cannot encode, and then the
    [UnicodeEncodeError] of [str.encode], even where the limit would have
    cut that character off.  The slice, the decoding with ['ignore'] and the
    concatenation add no failure. *)
Theorem fix_byte_limit_failures (cwd path : str) (byte_limit : Z) (e : exn) :
  fix_byte_limit cwd path byte_limit = Raise e
  <-> relpath cwd path = Raise e
      \/ (exists rel directory filename,
            relpath cwd path = Ok rel
            /\ split (replace_backslash rel) = (directory, filename)
            /\ ~ Forall scalar filename
            /\ e = surrogates_not_allowed).
Proof.
  unfold fix_byte_limit.
  destruct (relpath cwd path) as [rel | e0] eqn:Hrel; unfold mbind at 1, result_bind at 1.
  - destruct (split (replace_backslash rel)) as [directory filename] eqn:Hsplit.
    destruct (encode filename) as [bs | e1] eqn:Henc; unfold mbind, result_bind.
    + split; [discriminate |].
      intros [Hraise | (rel' & directory' & filename' & Hrel' & Hsplit' & Hbad & _)];
        [discriminate Hraise |].
      injection Hrel' as <-. rewrite Hsplit in Hsplit'. injection Hsplit' as <- <-.
      destruct Hbad. eapply NamesFacts.encode_ok_scalar. exact Henc.
    + pose proof (encode_raise filename e1 Henc) as ->. split.
      * intros [= <-]. right. exists rel, directory, filename.
        split; [reflexivity |]. split; [exact Hsplit |]. split; [| reflexivity].
        intros Hscalar. destruct (encode_scalar filename Hscalar) as [bs Hbs]. congruence.
      * intros [Hraise | (_ & _ & _ & _ & _ & _ & ->)]; [discriminate Hraise | reflexivity].
  - split.
    + intros [= <-]. left. reflexivity.
    + intros [[= <-] | (rel & _ & _ & Hrel' & _)]; [reflexivity | discriminate Hrel'].
Qed.

(** A name that ends in a lone surrogate, under a limit that would have cut
    it off, and the empty path. *)
Example fix_byte_limit_fails :
  fix_byte_limit (lit "/home/u") (lit "d/ab" ++ [56832]) 2 = Raise surrogates_not_allowed
  /\ fix_byte_limit (lit "/home/u") [] 250 = Raise (Exn ValueError 0 (lit "no path specified")).
Proof. split; reflexivity. Qed.

End ByteLimitMore.
